(** * ise_radius_integration_workflow_manager: have/want reconcile logic

    A shallow embedding of the Authentication and Policy Server resource
    manager of [plugins/modules/ise_radius_integration_workflow_manager.py]
    (class [IseRadiusIntegration]) and the properties of its create, update
    and delete paths.

    Python values are a small inductive type (None, booleans, integers,
    ASCII text, lists and dicts; floats are left out), dictionaries are
    association lists in insertion order, the attributes of [self] are a record that is
    threaded through every method, and [return self], exceptions and
    [module.fail_json] are the outcomes of a small state monad. *)

From Stdlib Require Import ZArith String Ascii List Bool Lia DecimalString.
Import ListNotations.
Local Open Scope string_scope.
Local Open Scope Z_scope.

(** ** Python values *)

#[warnings="-register-all"]
Inductive pyval : Type :=
| VNone
| VBool (b : bool)
| VInt (z : Z)
| VStr (s : string)
| VList (l : list pyval)
| VDict (d : list (string * pyval)).

Inductive exn : Type :=
| TypeError | AttributeError | ValueError | IndexError | KeyError.

Inductive result (A : Type) : Type :=
| Ok (a : A)
| Err (e : exn).
Arguments Ok {A} a.
Arguments Err {A} e.

Definition rbind {A B} (r : result A) (k : A -> result B) : result B :=
  match r with Ok a => k a | Err e => Err e end.

(** *** Association lists: a dict keeps insertion order, [update] of a key
    that is present replaces its value in place. *)

Section Assoc.
Context {K V : Type} (keq : K -> K -> bool).

Fixpoint assoc_get (k : K) (d : list (K * V)) : option V :=
  match d with
  | [] => None
  | (k', v) :: d' => if keq k k' then Some v else assoc_get k d'
  end.

Fixpoint assoc_set (k : K) (v : V) (d : list (K * V)) : list (K * V) :=
  match d with
  | [] => [(k, v)]
  | (k', v') :: d' =>
      if keq k k' then (k', v) :: d' else (k', v') :: assoc_set k v d'
  end.

End Assoc.

Definition dict_get (k : string) (d : list (string * pyval)) : pyval :=
  match assoc_get String.eqb k d with Some v => v | None => VNone end.

Definition dict_set (k : string) (v : pyval) (d : list (string * pyval)) :=
  assoc_set String.eqb k v d.

(** [v.get(k)]: only a dict has the method. *)
Definition py_get (v : pyval) (k : string) : result pyval :=
  match v with
  | VDict d => Ok (dict_get k d)
  | _ => Err AttributeError
  end.

(** [v.get(k, dflt)] *)
Definition py_get_default (v : pyval) (k : string) (dflt : pyval) : result pyval :=
  match v with
  | VDict d => Ok (match assoc_get String.eqb k d with Some x => x | None => dflt end)
  | _ => Err AttributeError
  end.

(** [v.update({k: x})] *)
Definition py_update (v : pyval) (k : string) (x : pyval) : result pyval :=
  match v with
  | VDict d => Ok (VDict (dict_set k x d))
  | _ => Err AttributeError
  end.

(** *** Truth value, equality, [str], [len], [int] *)

Definition py_truthy (v : pyval) : bool :=
  match v with
  | VNone => false
  | VBool b => b
  | VInt z => negb (z =? 0)
  | VStr s => negb (String.eqb s EmptyString)
  | VList l => match l with [] => false | _ => true end
  | VDict d => match d with [] => false | _ => true end
  end.

Definition is_none (v : pyval) : bool :=
  match v with VNone => true | _ => false end.

(** [v is True] *)
Definition is_True (v : pyval) : bool :=
  match v with VBool true => true | _ => false end.

(** [v is False] *)
Definition is_False (v : pyval) : bool :=
  match v with VBool false => true | _ => false end.

(** [a == b].  A bool compares as the integer 0 or 1; lists compare
    element by element; two dicts are equal when they have as many entries
    and every entry of the first has an equal entry in the second (dict keys
    are unique, so this is the comparison by key). *)
Fixpoint py_eqb (a b : pyval) : bool :=
  match a, b with
  | VNone, VNone => true
  | VBool x, VBool y => Bool.eqb x y
  | VBool x, VInt y => Z.b2z x =? y
  | VInt x, VBool y => x =? Z.b2z y
  | VInt x, VInt y => x =? y
  | VStr x, VStr y => String.eqb x y
  | VList x, VList y =>
      (fix go (l1 l2 : list pyval) : bool :=
         match l1, l2 with
         | [], [] => true
         | u :: l1', w :: l2' => py_eqb u w && go l1' l2'
         | _, _ => false
         end) x y
  | VDict x, VDict y =>
      (length x =? length y)%nat &&
      (fix go (d1 : list (string * pyval)) : bool :=
         match d1 with
         | [] => true
         | (k, u) :: d1' =>
             existsb (fun kw => String.eqb k (fst kw) && py_eqb u (snd kw)) y
             && go d1'
         end) x
  | _, _ => false
  end.

(** [v in l] for a list literal [l] *)
Definition py_in_list (v : pyval) (l : list pyval) : bool :=
  existsb (py_eqb v) l.

Definition is_digit (c : ascii) : bool :=
  let n := nat_of_ascii c in ((48 <=? n) && (n <=? 57))%nat.

(** [s.isdigit()] *)
Definition isdigit (s : string) : bool :=
  negb (String.eqb s EmptyString) && forallb is_digit (list_ascii_of_string s).

(** [c in s] for a one-character [c] *)
Definition char_in (c : ascii) (s : string) : bool :=
  existsb (Ascii.eqb c) (list_ascii_of_string s).

(** [sub in s] *)
Fixpoint str_contains (sub s : string) : bool :=
  prefix sub s ||
  match s with
  | EmptyString => false
  | String _ s' => str_contains sub s'
  end.

Definition lower_char (c : ascii) : ascii :=
  let n := nat_of_ascii c in
  if ((65 <=? n) && (n <=? 90))%nat then ascii_of_nat (n + 32) else c.

(** [s.lower()] *)
Fixpoint lower (s : string) : string :=
  match s with
  | EmptyString => EmptyString
  | String c s' => String (lower_char c) (lower s')
  end.

Definition str_of_Z (z : Z) : string := NilZero.string_of_int (Z.to_int z).

Definition squote : ascii := ascii_of_nat 39.
Definition dquote : ascii := ascii_of_nat 34.
Definition backslash : ascii := ascii_of_nat 92.

Definition hex_digit (n : nat) : ascii :=
  if (n <? 10)%nat then ascii_of_nat (48 + n) else ascii_of_nat (87 + n).

(** The body of [repr(s)] with quote character [q]. *)
Fixpoint repr_body (q : ascii) (s : string) : string :=
  match s with
  | EmptyString => EmptyString
  | String c s' =>
      let n := nat_of_ascii c in
      let rest := repr_body q s' in
      if Ascii.eqb c backslash then String backslash (String backslash rest)
      else if Ascii.eqb c q then String backslash (String q rest)
      else if (n =? 10)%nat then String backslash (String "n" rest)
      else if (n =? 13)%nat then String backslash (String "r" rest)
      else if (n =? 9)%nat then String backslash (String "t" rest)
      else if ((n <? 32) || (n =? 127))%nat then
        String backslash
          (String "x" (String (hex_digit (n / 16)) (String (hex_digit (n mod 16)) rest)))
      else String c rest
  end.

(** [repr(s)]: single quotes, unless [s] has a single quote and no double
    quote. *)
Definition repr_str (s : string) : string :=
  let q := if char_in squote s && negb (char_in dquote s) then dquote else squote in
  String q (repr_body q s ++ String q EmptyString).

Fixpoint join (sep : string) (l : list string) : string :=
  match l with
  | [] => EmptyString
  | [x] => x
  | x :: l' => x ++ sep ++ join sep l'
  end.

Fixpoint py_repr (v : pyval) : string :=
  match v with
  | VNone => "None"
  | VBool true => "True"
  | VBool false => "False"
  | VInt z => str_of_Z z
  | VStr s => repr_str s
  | VList l => "[" ++ join ", " (map py_repr l) ++ "]"
  | VDict d =>
      "{" ++ join ", " (map (fun kv => repr_str (fst kv) ++ ": " ++ py_repr (snd kv)) d)
          ++ "}"
  end.

(** [str(v)]; also what [str.format] puts in place of a field. *)
Definition py_str (v : pyval) : string :=
  match v with
  | VStr s => s
  | _ => py_repr v
  end.

(** [len(s)] for a text.  A [string] holds the UTF-8 encoding of the text,
    one [ascii] for each byte; Python counts characters, which are the bytes
    that do not continue a character (the bytes outside 128..191). *)
Definition is_continuation (c : ascii) : bool :=
  let n := nat_of_ascii c in ((128 <=? n) && (n <=? 191))%nat.

Fixpoint str_len (s : string) : nat :=
  match s with
  | EmptyString => O
  | String c s' => if is_continuation c then str_len s' else S (str_len s')
  end.

(** [len(v)] *)
Definition py_len (v : pyval) : result Z :=
  match v with
  | VStr s => Ok (Z.of_nat (str_len s))
  | VList l => Ok (Z.of_nat (List.length l))
  | VDict d => Ok (Z.of_nat (List.length d))
  | _ => Err TypeError
  end.

Definition is_space (c : ascii) : bool :=
  let n := nat_of_ascii c in (((9 <=? n) && (n <=? 13)) || (n =? 32))%nat.

Fixpoint lstrip (l : list ascii) : list ascii :=
  match l with
  | c :: l' => if is_space c then lstrip l' else l
  | [] => []
  end.

Definition strip (l : list ascii) : list ascii := rev (lstrip (rev (lstrip l))).

Definition underscore : ascii := ascii_of_nat 95.

(** Digits of a decimal literal: a single underscore may stand between two
    digits.  [prev] tells whether the previous character was a digit. *)
Fixpoint digits_value (acc : Z) (prev : bool) (l : list ascii) : option Z :=
  match l with
  | [] => if prev then Some acc else None
  | c :: l' =>
      if is_digit c then
        digits_value (10 * acc + Z.of_nat (nat_of_ascii c - 48)) true l'
      else if Ascii.eqb c underscore && prev then digits_value acc false l'
      else None
  end.

(** [int(s)] for a string: surrounding blanks, an optional sign, decimal
    digits. *)
Definition int_of_str (s : string) : option Z :=
  match strip (list_ascii_of_string s) with
  | c :: l =>
      if Ascii.eqb c "-" then option_map Z.opp (digits_value 0 false l)
      else if Ascii.eqb c "+" then digits_value 0 false l
      else digits_value 0 false (c :: l)
  | [] => None
  end.

(** [int(v)] *)
Definition py_int (v : pyval) : result Z :=
  match v with
  | VInt z => Ok z
  | VBool b => Ok (Z.b2z b)
  | VStr s => match int_of_str s with Some z => Ok z | None => Err ValueError end
  | _ => Err TypeError
  end.

(** [v < n] and [v > n] for an integer literal [n] *)
Definition py_lt_int (v : pyval) (n : Z) : result bool :=
  match v with
  | VInt z => Ok (z <? n)
  | VBool b => Ok (Z.b2z b <? n)
  | _ => Err TypeError
  end.

Definition py_gt_int (v : pyval) (n : Z) : result bool :=
  match v with
  | VInt z => Ok (n <? z)
  | VBool b => Ok (n <? Z.b2z b)
  | _ => Err TypeError
  end.

(** [for x in v]: the elements the loop visits. *)
Definition py_iter (v : pyval) : result (list pyval) :=
  match v with
  | VList l => Ok l
  | VDict d => Ok (map (fun kv => VStr (fst kv)) d)
  | VStr s => Ok (map (fun c => VStr (String c EmptyString)) (list_ascii_of_string s))
  | _ => Err TypeError
  end.

(** A dict key has to be hashable. *)
Definition py_hashable (v : pyval) : bool :=
  match v with
  | VList _ | VDict _ => false
  | _ => true
  end.

(** *** Nested containers

    [auth_server.get(k)[i].update(...)] and the like mutate an object that
    sits inside [auth_server]; the path to the object is followed and the
    containers on the way are rebuilt. *)

Inductive step : Type :=
| Key (k : string)     (* .get(k) *)
| Idx (i : nat).       (* [i] *)

Fixpoint list_set {A} (i : nat) (x : A) (l : list A) : list A :=
  match l, i with
  | [], _ => []
  | _ :: l', O => x :: l'
  | y :: l', S i' => y :: list_set i' x l'
  end.

Fixpoint modify_at (p : list step) (f : pyval -> result pyval) (v : pyval)
  : result pyval :=
  match p with
  | [] => f v
  | Key k :: p' =>
      match v with
      | VDict d =>
          match assoc_get String.eqb k d with
          | Some x => rbind (modify_at p' f x) (fun x' => Ok (VDict (dict_set k x' d)))
          | None => rbind (modify_at p' f VNone) (fun _ => Ok v)
          end
      | _ => Err AttributeError
      end
  | Idx i :: p' =>
      match v with
      | VList l =>
          match nth_error l i with
          | Some x => rbind (modify_at p' f x) (fun x' => Ok (VList (list_set i x' l)))
          | None => Err IndexError
          end
      | _ => Err TypeError
      end
  end.

(** [target.append(x)] *)
Definition do_append (x : pyval) (target : pyval) : result pyval :=
  match target with
  | VList l => Ok (VList (l ++ [x]))
  | _ => Err AttributeError
  end.

(** [target.update({k: x})] *)
Definition do_update (k : string) (x : pyval) (target : pyval) : result pyval :=
  py_update target k x.

(** [v[i]] *)
Definition py_index (v : pyval) (i : nat) : result pyval :=
  match v with
  | VList l => match nth_error l i with Some x => Ok x | None => Err IndexError end
  | VStr s =>
      match nth_error (list_ascii_of_string s) i with
      | Some c => Ok (VStr (String c EmptyString))
      | None => Err IndexError
      end
  | VDict _ => Err KeyError
  | _ => Err TypeError
  end.

(** [v.lower()] *)
Definition py_lower (v : pyval) : result string :=
  match v with
  | VStr s => Ok (lower s)
  | _ => Err AttributeError
  end.

(** ** The module object

    [self] of [IseRadiusIntegration]: the attributes the methods read and
    write, the REST calls submitted so far through [self.dnac._exec], and the
    clock that [time.time()] reads (in milliseconds).

    [calls] lists the calls that the methods of this module make through
    [self.dnac._exec], and only those.  A poll of a task goes through
    [self.get_task_details], a method of [DnacBase] that makes its own
    request to the controller: it is not in [calls] but counted in [polls].
    A statement about [calls] therefore says nothing about the polls. *)

Record call : Type := mkCall {
  c_family : string;
  c_function : string;
  c_params : pyval
}.

Record state : Type := mkState {
  msg : pyval;                              (* self.msg *)
  status : string;                          (* self.status *)
  have : pyval;                             (* self.have *)
  want : pyval;                             (* self.want *)
  changed : bool;                           (* self.result['changed'] *)
  res_response : list (pyval * pyval);      (* result_auth_server["response"] *)
  res_msg : list (pyval * pyval);           (* result_auth_server["msg"] *)
  validation_string : string;               (* self.validation_string *)
  max_timeout : Z;                          (* self.max_timeout, seconds *)
  calls : list call;                        (* oldest first *)
  clock : Z;                                (* milliseconds *)
  polls : nat                               (* get_task_details calls so far *)
}.

Definition set_msg (x : pyval) (s : state) : state :=
  mkState x (status s) (have s) (want s) (changed s) (res_response s) (res_msg s)
          (validation_string s) (max_timeout s) (calls s) (clock s) (polls s).
Definition set_status (x : string) (s : state) : state :=
  mkState (msg s) x (have s) (want s) (changed s) (res_response s) (res_msg s)
          (validation_string s) (max_timeout s) (calls s) (clock s) (polls s).
Definition set_have (x : pyval) (s : state) : state :=
  mkState (msg s) (status s) x (want s) (changed s) (res_response s) (res_msg s)
          (validation_string s) (max_timeout s) (calls s) (clock s) (polls s).
Definition set_want (x : pyval) (s : state) : state :=
  mkState (msg s) (status s) (have s) x (changed s) (res_response s) (res_msg s)
          (validation_string s) (max_timeout s) (calls s) (clock s) (polls s).
Definition set_changed (x : bool) (s : state) : state :=
  mkState (msg s) (status s) (have s) (want s) x (res_response s) (res_msg s)
          (validation_string s) (max_timeout s) (calls s) (clock s) (polls s).
Definition set_res_response (x : list (pyval * pyval)) (s : state) : state :=
  mkState (msg s) (status s) (have s) (want s) (changed s) x (res_msg s)
          (validation_string s) (max_timeout s) (calls s) (clock s) (polls s).
Definition set_res_msg (x : list (pyval * pyval)) (s : state) : state :=
  mkState (msg s) (status s) (have s) (want s) (changed s) (res_response s) x
          (validation_string s) (max_timeout s) (calls s) (clock s) (polls s).
Definition set_validation_string (x : string) (s : state) : state :=
  mkState (msg s) (status s) (have s) (want s) (changed s) (res_response s) (res_msg s)
          x (max_timeout s) (calls s) (clock s) (polls s).
Definition set_calls (x : list call) (s : state) : state :=
  mkState (msg s) (status s) (have s) (want s) (changed s) (res_response s) (res_msg s)
          (validation_string s) (max_timeout s) x (clock s) (polls s).
Definition set_clock (x : Z) (s : state) : state :=
  mkState (msg s) (status s) (have s) (want s) (changed s) (res_response s) (res_msg s)
          (validation_string s) (max_timeout s) (calls s) x (polls s).
Definition set_polls (x : nat) (s : state) : state :=
  mkState (msg s) (status s) (have s) (want s) (changed s) (res_response s) (res_msg s)
          (validation_string s) (max_timeout s) (calls s) (clock s) x.

(** ** Control flow

    A method body either goes on with a value, executes [return], raises,
    ends the module run through [module.fail_json], or (the polling loop
    only) uses up its iterations. *)

Inductive outcome (A : Type) : Type :=
| Normal (a : A) (s : state)
| Returned (s : state)
| Raised (e : exn) (s : state)
| Exited (s : state)
| Diverged (s : state).
Arguments Normal {A} a s.
Arguments Returned {A} s.
Arguments Raised {A} e s.
Arguments Exited {A} s.
Arguments Diverged {A} s.

Definition M (A : Type) : Type := state -> outcome A.

Definition ret {A} (a : A) : M A := fun s => Normal a s.

Definition bind {A B} (c : M A) (k : A -> M B) : M B :=
  fun s =>
    match c s with
    | Normal a s' => k a s'
    | Returned s' => Returned s'
    | Raised e s' => Raised e s'
    | Exited s' => Exited s'
    | Diverged s' => Diverged s'
    end.

Declare Scope py_scope.
Delimit Scope py_scope with py.
Notation "x <- c ;; k" := (bind c (fun x => k))
  (at level 61, c at next level, right associativity) : py_scope.
Notation "c ;; k" := (bind c (fun _ => k))
  (at level 61, right associativity) : py_scope.
Local Open Scope py_scope.

Definition lift {A} (r : result A) : M A :=
  fun s => match r with Ok a => Normal a s | Err e => Raised e s end.

Definition modify (f : state -> state) : M unit := fun s => Normal tt (f s).

Definition read {A} (f : state -> A) : M A := fun s => Normal (f s) s.

(** [return self] *)
Definition return_self {A} : M A := fun s => Returned s.

(** [self.msg = m; self.status = "failed"; return self] *)
Definition fail {A} (m : string) : M A :=
  fun s => Returned (set_status "failed" (set_msg (VStr m) s)).

(** A call of a method: its [return] ends the method, not the caller. *)
Definition method (body : M unit) : M unit :=
  fun s => match body s with Returned s' => Normal tt s' | o => o end.

(** [try: body except Exception: handler] *)
Definition try_except (body handler : M unit) : M unit :=
  fun s => match body s with Raised _ s' => handler s' | o => o end.

(** The final state of an outcome. *)
Definition final {A} (o : outcome A) : state :=
  match o with
  | Normal _ s | Returned s | Raised _ s | Exited s | Diverged s => s
  end.

(** [d.update({k: v})] for a dict keyed by arbitrary hashable values. *)
Definition key_update (k v : pyval) (d : list (pyval * pyval))
  : result (list (pyval * pyval)) :=
  if py_hashable k then Ok (assoc_set py_eqb k v d) else Err TypeError.

Definition key_get (k : pyval) (d : list (pyval * pyval)) : pyval :=
  match assoc_get py_eqb k d with Some v => v | None => VNone end.

(** ** The environment

    What the module gets from outside [src/]: the SDK ([self.dnac._exec]),
    the helpers imported from [module_utils/dnac.py], the task details the
    controller reports at each poll, and the time that passes. *)

Record environment : Type := mkEnv {
  (* self.dnac._exec: the response to a call, given the calls before it *)
  dnac_exec : list call -> call -> result pyval;
  (* dnac.dnac_compare_equality(current, requested) *)
  dnac_compare_equality : pyval -> pyval -> bool;
  (* dnac.get_dict_result(result, key, value) *)
  get_dict_result : pyval -> string -> pyval -> pyval;
  (* DnacBase.get_task_details(task_id) at the n-th poll *)
  get_task_details : nat -> pyval -> pyval;
  (* milliseconds that pass during the n-th poll, on top of the sleep *)
  delay : nat -> N;
  (* DnacBase.check_task_response_status(response, validation_string,
     api_name): the status and the msg it leaves, and whether it set
     result['changed'].  Only the runs of the helper that return are
     described: a helper that raises, or that leaves a status on which
     check_return_status ends the run, is not. *)
  check_task_response_status : pyval -> string -> string -> string * pyval * bool
}.

Section Manager.
Variable E : environment.

(** [self.dnac._exec(family=..., function=..., params=...)] *)
Definition exec (family function : string) (params : pyval) : M pyval :=
  fun s =>
    let c := mkCall family function params in
    let s' := set_calls (calls s ++ [c]) s in
    match dnac_exec E (calls s) c with
    | Ok r => Normal r s'
    | Err e => Raised e s'
    end.

(** Modelled from the spec: [DnacBase.check_return_status] is not under
    [src/]; the module has no failure-recovery model beyond "fail and report
    a message": with status "failed" the run ends in [module.fail_json] with
    [self.msg]. *)
Definition check_return_status : M unit :=
  fun s => if String.eqb (status s) "failed" then Exited s else Normal tt s.

(** *** requires_update, get_obj_params *)

Definition get_obj_params (get_object : string) : list (string * string) :=
  if String.eqb get_object "authenticationPolicyServer" then
    [("protocol", "protocol"); ("retries", "retries");
     ("timeoutSeconds", "timeoutSeconds")]
  else [].

(** set in [__init__] *)
Definition authentication_policy_server_obj_params : list (string * string) :=
  get_obj_params "authenticationPolicyServer".

Definition requires_update (have_ want_ : pyval) (obj_params : list (string * string))
  : result bool :=
  (fix any (ps : list (string * string)) : result bool :=
     match ps with
     | [] => Ok false
     | (dnac_param, ansible_param) :: ps' =>
         rbind (py_get have_ dnac_param) (fun cur =>
         rbind (py_get want_ ansible_param) (fun req =>
         if negb (dnac_compare_equality E cur req) then Ok true else any ps'))
     end) obj_params.

(** *** get_want_authentication_policy_server *)

Section GetWant.
Variables (auth_policy_server auth_server_exists auth_server_details : pyval).

Definition not_exists : bool := negb (py_truthy auth_server_exists).

(* lines 749-761 *)
Definition want_ise_enabled (auth_server : pyval) : M pyval :=
  if not_exists then
    server_type <- lift (py_get auth_policy_server "server_type") ;;
    if negb (py_in_list server_type [VStr "ISE"; VStr "AAA"; VNone]) then
      fail ("The server_type should either be ISE or AAA but not "
              ++ py_str server_type ++ ".")
    else if py_eqb server_type (VStr "ISE") then
      lift (py_update auth_server "isIseEnabled" (VBool true))
    else
      lift (py_update auth_server "isIseEnabled" (VBool false))
  else
    v <- lift (py_get auth_server_details "isIseEnabled") ;;
    lift (py_update auth_server "isIseEnabled" v).

(* line 763 *)
Definition want_ip_address (auth_server : pyval) : M pyval :=
  v <- lift (py_get auth_policy_server "server_ip_address") ;;
  lift (py_update auth_server "ipAddress" v).

(* lines 767-787 *)
Definition want_shared_secret (auth_server : pyval) : M pyval :=
  if not_exists then
    shared_secret <- lift (py_get auth_policy_server "shared_secret") ;;
    if negb (py_truthy shared_secret) then
      fail "Missing parameter 'shared_secret' is required."
    else
      let shared_secret := py_str shared_secret in
      let n := Z.of_nat (str_len shared_secret) in
      if (n <? 4) || (100 <? n) then
        fail "The 'shared_secret' should contain between 4 and 100 characters."
      else if existsb (fun c => char_in c shared_secret)
                      (list_ascii_of_string " ?<") then
        fail "The 'shared_secret' should not contain spaces or the characters '?', '<'."
      else
        lift (py_update auth_server "sharedSecret" (VStr shared_secret))
  else ret auth_server.

(* lines 789-804 *)
Definition want_protocol (auth_server : pyval) : M pyval :=
  protocol <- lift (py_get auth_policy_server "protocol") ;;
  if negb (py_in_list protocol [VStr "RADIUS"; VStr "TACACS"; VStr "RADIUS_TACACS"; VNone])
  then
    fail ("protocol should either be ['RADIUS', 'TACACS', 'RADIUS_TACACS']."
            ++ "It should not be " ++ py_str protocol)
  else
    auth_server <-
      (if negb (is_none protocol) then lift (py_update auth_server "protocol" protocol)
       else if not_exists then lift (py_update auth_server "protocol" (VStr "RADIUS"))
       else
         p <- lift (py_get auth_server_details "protocol") ;;
         lift (py_update auth_server "protocol" p)) ;;
    lift (py_update auth_server "port" (VInt 49)).

(* lines 806-846 *)
Definition want_encryption (auth_server : pyval) : M pyval :=
  if not_exists then
    encryption_scheme <- lift (py_get auth_policy_server "encryption_scheme") ;;
    if negb (py_in_list encryption_scheme [VStr "KEYWRAP"; VStr "RADSEC"; VNone]) then
      fail ("The encryption_scheme should be in ['KEYWRAP', 'RADSEC']. "
              ++ "It should not be " ++ py_str encryption_scheme ++ ".")
    else
      auth_server <-
        (if py_truthy encryption_scheme
         then lift (py_update auth_server "encryptionScheme" encryption_scheme)
         else ret auth_server) ;;
      if py_eqb encryption_scheme (VStr "KEYWRAP") then
        message_key <- lift (py_get auth_policy_server "message_authenticator_code_key") ;;
        if negb (py_truthy message_key) then
          fail "The 'message_authenticator_code_key' should not be empty if the encryption_scheme is 'KEYWRAP'."
        else
          let message_key := py_str message_key in
          let message_key_length := Z.of_nat (str_len message_key) in
          if negb (message_key_length =? 20) then
            fail "The 'message_authenticator_code_key' should be exactly 20 characters."
          else
            auth_server <- lift (py_update auth_server "messageKey" (VStr message_key)) ;;
            encryption_key <- lift (py_get auth_policy_server "encryption_key") ;;
            if negb (py_truthy encryption_key) then
              fail "The encryption_key should not be empty if encryption_scheme is 'KEYWRAP'."
            else
              let encryption_key := py_str encryption_key in
              let encryption_key_length := Z.of_nat (str_len encryption_key) in
              if negb (encryption_key_length =? 16) then
                fail "The 'encryption_key' must be 16 characters long. It may contain alphanumeric and special characters."
              else
                lift (py_update auth_server "encryptionKey" (VStr encryption_key))
      else ret auth_server
  else ret auth_server.

(** The shape shared by lines 848-865 and 867-884. *)
Definition want_port (param key : string) (default : Z) (msg_digits msg_range : string)
    (auth_server : pyval) : M pyval :=
  if not_exists then
    port <- lift (py_get auth_policy_server param) ;;
    let port := if negb (py_truthy port) then VInt default else port in
    if negb (isdigit (py_str port)) then fail msg_digits
    else
      low <- lift (py_lt_int port 1) ;;
      high <- (if low then ret true else lift (py_gt_int port 65535)) ;;
      if high then fail msg_range
      else lift (py_update auth_server key port)
  else
    v <- lift (py_get auth_server_details key) ;;
    lift (py_update auth_server key v).

(* lines 848-865 *)
Definition want_authentication_port : pyval -> M pyval :=
  want_port "authentication_port" "authenticationPort" 1812
            "The 'authentication_port' should contain only digits."
            "The 'authentication_port' should be from 1 to 65535.".

(* lines 867-884 *)
Definition want_accounting_port : pyval -> M pyval :=
  want_port "accounting_port" "accountingPort" 1813
            "The 'accounting_port' should contain only digits."
            "The 'accounting_port' should be from 1 to 65535.".

(* lines 886-904 *)
Definition want_retries (auth_server : pyval) : M pyval :=
  retries <- lift (py_get auth_policy_server "retries") ;;
  if negb (py_truthy retries) then
    if not_exists then lift (py_update auth_server "retries" (VStr "3"))
    else
      r <- lift (py_get auth_server_details "retries") ;;
      lift (py_update auth_server "retries" r)
  else
    match py_int retries with
    | Err ValueError => fail "The 'retries' should contain only from 0-9."
    | Err e => lift (Err e)
    | Ok retries_int =>
        if (retries_int <? 1) || (3 <? retries_int) then
          fail "The 'retries' should be from 1 to 3."
        else lift (py_update auth_server "retries" (VStr (py_str retries)))
    end.

(* lines 906-927 *)
Definition want_timeout (auth_server : pyval) : M pyval :=
  timeout <- lift (py_get auth_policy_server "timeout") ;;
  default_timeout <-
    (if not_exists then ret "4"
     else t <- lift (py_get auth_server_details "timeoutSeconds") ;; ret (py_str t)) ;;
  if is_none timeout then
    lift (py_update auth_server "timeoutSeconds" (VStr default_timeout))
  else
    match py_int timeout with
    | Err ValueError => fail "The 'time_out' must contain only digits."
    | Err e => lift (Err e)
    | Ok timeout_int =>
        if (timeout_int <? 2) || (20 <? timeout_int) then
          fail "The 'timeout' should be from 2 to 20."
        else lift (py_update auth_server "timeoutSeconds" (VStr (py_str timeout)))
    end.

(* lines 929-937 *)
Definition want_role (auth_server : pyval) : M pyval :=
  role <-
    (if not_exists then lift (py_get_default auth_policy_server "role" (VStr "secondary"))
     else lift (py_get auth_server_details "role")) ;;
  lift (py_update auth_server "role" role).

(** [auth_server_details.get("ciscoIseDtos")[0].get(k)] *)
Definition first_ise_dto (k : string) : M pyval :=
  dtos <- lift (py_get auth_server_details "ciscoIseDtos") ;;
  dto <- lift (py_index dtos 0) ;;
  lift (py_get dto k).

(** [auth_server.get("ciscoIseDtos")[position].update({k: v})] *)
Definition set_ise_dto (position : nat) (k : string) (v : pyval) (auth_server : pyval)
  : M pyval :=
  lift (modify_at [Key "ciscoIseDtos"; Idx position] (do_update k v) auth_server).

(* lines 949-1021: the body of the loop, once per credential *)
Fixpoint want_ise_credentials (creds : list pyval) (position_ise_creds : nat)
    (auth_server : pyval) : M pyval :=
  match creds with
  | [] => ret auth_server
  | ise_credential :: creds' =>
      auth_server <- lift (modify_at [Key "ciscoIseDtos"] (do_append (VDict [])) auth_server) ;;
      user_name <- lift (py_get ise_credential "user_name") ;;
      user_name <-
        (if negb (py_truthy user_name) then
           if not_exists then
             fail "Missing parameter 'user_name' is required when server_type is ISE."
           else first_ise_dto "userName"
         else ret user_name) ;;
      auth_server <- set_ise_dto position_ise_creds "userName" user_name auth_server ;;
      password <- lift (py_get ise_credential "password") ;;
      if negb (py_truthy password) then
        fail "Missing parameter 'password' is required when server_type is ISE."
      else
        n <- lift (py_len password) ;;
        if negb ((4 <=? n) && (n <=? 127)) then fail EmptyString
        else
          auth_server <- set_ise_dto position_ise_creds "password" password auth_server ;;
          fqdn <- lift (py_get ise_credential "fqdn") ;;
          fqdn <-
            (if negb (py_truthy fqdn) then
               if not_exists then
                 fail "Missing parameter 'fqdn' is required when server_type is ISE."
               else first_ise_dto "fqdn"
             else ret fqdn) ;;
          auth_server <- set_ise_dto position_ise_creds "fqdn" fqdn auth_server ;;
          ip_address <- lift (py_get ise_credential "ip_address") ;;
          if negb (py_truthy ip_address) then
            fail "Missing parameter 'ip_address' is required when server_type is ISE."
          else
            auth_server <- set_ise_dto position_ise_creds "ipAddress" ip_address auth_server ;;
            subscriber <-
              (if not_exists then ret (VStr "ersadmin")
               else first_ise_dto "subscriberName") ;;
            auth_server <-
              set_ise_dto position_ise_creds "subscriberName" subscriber auth_server ;;
            description <- lift (py_get ise_credential "description") ;;
            auth_server <-
              (if py_truthy description
               then set_ise_dto position_ise_creds "description" description auth_server
               else ret auth_server) ;;
            ssh_key <- lift (py_get ise_credential "ssh_key") ;;
            auth_server <-
              (if py_truthy ssh_key
               then set_ise_dto position_ise_creds "sshkey" (VStr (py_str ssh_key)) auth_server
               else ret auth_server) ;;
            want_ise_credentials creds' (S position_ise_creds) auth_server
  end.

(* lines 1054-1061 *)
Fixpoint want_external_addresses (addresses : list pyval)
    (position_ise_addresses position_ise_address : nat) (auth_server : pyval)
  : M pyval :=
  match addresses with
  | [] => ret auth_server
  | external_ip_address :: addresses' =>
      auth_server <-
        lift (modify_at [Key "externalCiscoIseIpAddrDtos"; Idx position_ise_addresses;
                         Key "externalCiscoIseIpAddresses"]
                        (do_append (VDict [])) auth_server) ;;
      a <- lift (py_get external_ip_address "external_ip_address") ;;
      auth_server <-
        lift (modify_at [Key "externalCiscoIseIpAddrDtos"; Idx position_ise_addresses;
                         Key "externalCiscoIseIpAddresses"; Idx position_ise_address]
                        (do_update "externalIpAddress" a) auth_server) ;;
      want_external_addresses addresses' position_ise_addresses
                              (S position_ise_address) auth_server
  end.

(* lines 1046-1066 *)
Fixpoint want_external_dtos (dtos : list pyval) (position_ise_addresses : nat)
    (auth_server : pyval) : M pyval :=
  match dtos with
  | [] => ret auth_server
  | external_cisco_ise :: dtos' =>
      external_cisco_ise_ip_addresses <-
        lift (py_get external_cisco_ise "external_cisco_ise_ip_addresses") ;;
      auth_server <-
        (if py_truthy external_cisco_ise_ip_addresses then
           auth_server <-
             lift (modify_at [Key "externalCiscoIseIpAddrDtos"]
                             (do_append (VDict [])) auth_server) ;;
           auth_server <-
             lift (modify_at [Key "externalCiscoIseIpAddrDtos"; Idx position_ise_addresses]
                             (do_update "externalCiscoIseIpAddresses" (VList []))
                             auth_server) ;;
           addresses <- lift (py_iter external_cisco_ise_ip_addresses) ;;
           want_external_addresses addresses position_ise_addresses 0 auth_server
         else ret auth_server) ;;
      ise_type <- lift (py_get external_cisco_ise "ise_type") ;;
      auth_server <-
        (if py_truthy ise_type then
           lift (modify_at [Key "externalCiscoIseIpAddrDtos"; Idx position_ise_addresses]
                           (do_update "type" ise_type) auth_server)
         else ret auth_server) ;;
      want_external_dtos dtos' (S position_ise_addresses) auth_server
  end.

(** [self.want.update({k: v})] *)
Definition want_update (k : string) (v : pyval) : M unit :=
  w <- read want ;;
  w' <- lift (py_update w k v) ;;
  modify (set_want w').

(* lines 939-1092 *)
Definition want_ise (auth_server : pyval) : M pyval :=
  ise <- lift (py_get auth_server "isIseEnabled") ;;
  if py_truthy ise then
    cisco_ise_dtos <- lift (py_get auth_policy_server "cisco_ise_dtos") ;;
    if negb (py_truthy cisco_ise_dtos) then
      fail ("Missing parameter 'cisco_ise_dtos' " ++ "required when server_type is 'ISE'.")
    else
      auth_server <- lift (py_update auth_server "ciscoIseDtos" (VList [])) ;;
      creds <- lift (py_iter cisco_ise_dtos) ;;
      auth_server <- want_ise_credentials creds 0 auth_server ;;
      pxgrid_enabled <- lift (py_get auth_policy_server "pxgrid_enabled") ;;
      pxgrid_enabled <-
        (if is_none pxgrid_enabled then
           if py_truthy auth_server_exists
           then lift (py_get auth_server_details "pxgridEnabled")
           else ret (VBool true)
         else ret pxgrid_enabled) ;;
      auth_server <- lift (py_update auth_server "pxgridEnabled" pxgrid_enabled) ;;
      use_dnac_cert_for_pxgrid <- lift (py_get auth_policy_server "use_dnac_cert_for_pxgrid") ;;
      use_dnac_cert_for_pxgrid <-
        (if is_none use_dnac_cert_for_pxgrid then
           if py_truthy auth_server_exists
           then lift (py_get auth_server_details "useDnacCertForPxgrid")
           else ret (VBool false)
         else ret use_dnac_cert_for_pxgrid) ;;
      auth_server <-
        lift (py_update auth_server "useDnacCertForPxgrid" use_dnac_cert_for_pxgrid) ;;
      external_cisco_ise_ip_addr_dtos <-
        lift (py_get auth_policy_server "external_cisco_ise_ip_addr_dtos") ;;
      auth_server <-
        (if py_truthy external_cisco_ise_ip_addr_dtos then
           auth_server <- lift (py_update auth_server "externalCiscoIseIpAddrDtos" (VList [])) ;;
           dtos <- lift (py_iter external_cisco_ise_ip_addr_dtos) ;;
           want_external_dtos dtos 0 auth_server
         else ret auth_server) ;;
      trusted_server <- lift (py_get auth_policy_server "trusted_server") ;;
      let trusted_server := if is_none trusted_server then VBool true else trusted_server in
      want_update "trusted_server" trusted_server ;;
      ise_integration_wait_time <- lift (py_get auth_policy_server "ise_integration_wait_time") ;;
      ise_integration_wait_time <-
        (if is_none ise_integration_wait_time then ret (VInt 20)
         else
           match py_int ise_integration_wait_time with
           | Err ValueError =>
               fail "The 'ise_integration_wait_time' should contain only digits."
           | Err e => lift (Err e)
           | Ok ise_integration_wait_time_int =>
               if (ise_integration_wait_time_int <? 1) || (120 <? ise_integration_wait_time_int)
               then fail "The ise_integration_wait_time should be from 1 to 120 seconds."
               else ret ise_integration_wait_time
           end) ;;
      want_update "ise_integration_wait_time" ise_integration_wait_time ;;
      ret auth_server
  else ret auth_server.

(** The validations of lines 745-1092 in their order, on the local
    [auth_server = {}]. *)
Definition want_auth_server : M pyval :=
  auth_server <- want_ise_enabled (VDict []) ;;
  auth_server <- want_ip_address auth_server ;;
  auth_server <- want_shared_secret auth_server ;;
  auth_server <- want_protocol auth_server ;;
  auth_server <- want_encryption auth_server ;;
  auth_server <- want_authentication_port auth_server ;;
  auth_server <- want_accounting_port auth_server ;;
  auth_server <- want_retries auth_server ;;
  auth_server <- want_timeout auth_server ;;
  auth_server <- want_role auth_server ;;
  want_ise auth_server.

End GetWant.

Definition get_want_authentication_policy_server (auth_policy_server : pyval) : M unit :=
  method (
    h <- read have ;;
    aps <- lift (py_get h "authenticationPolicyServer") ;;
    auth_server_exists <- lift (py_get aps "exists") ;;
    auth_server_details <- lift (py_get aps "details") ;;
    auth_server <-
      want_auth_server auth_policy_server auth_server_exists auth_server_details ;;
    want_update "authenticationPolicyServer" auth_server ;;
    modify (set_msg (VStr "Collecting the Authentication and Policy Server details from the playbook")) ;;
    modify (set_status "success")).

(* lines 1101-1119 *)
Definition get_want (config : pyval) : M unit :=
  method (
    auth_policy_server <- lift (py_get config "authentication_policy_server") ;;
    (if py_truthy auth_policy_server then
       get_want_authentication_policy_server auth_policy_server ;;
       check_return_status
     else ret tt) ;;
    modify (set_msg (VStr "Successfully retrieved details from the playbook")) ;;
    modify (set_status "success")).

(** *** get_auth_server_params, auth_server_exists *)

(* lines 604-611 *)
Fixpoint auth_server_ise_dtos (ise_info : list pyval) : result (list pyval) :=
  match ise_info with
  | [] => Ok []
  | ise_credential :: rest =>
      rbind (py_get ise_credential "userName") (fun user_name =>
      rbind (py_get ise_credential "fqdn") (fun fqdn =>
      rbind (py_get ise_credential "ipAddress") (fun ip =>
      rbind (py_get ise_credential "subscriberName") (fun subscriber =>
      rbind (py_get ise_credential "description") (fun description =>
      rbind (auth_server_ise_dtos rest) (fun dtos =>
      Ok (VDict [("userName", user_name); ("fqdn", fqdn); ("ipAddress", ip);
                 ("subscriberName", subscriber); ("description", description)]
            :: dtos)))))))
  end.

Definition get_auth_server_params (auth_server_info : pyval) : result pyval :=
  if negb (py_truthy auth_server_info) then Ok VNone
  else
    let g := py_get auth_server_info in
    rbind (g "authenticationPort") (fun authentication_port =>
    rbind (g "accountingPort") (fun accounting_port =>
    rbind (g "iseEnabled") (fun ise_enabled =>
    rbind (g "ipAddress") (fun ip =>
    rbind (g "pxgridEnabled") (fun pxgrid =>
    rbind (g "useDnacCertForPxgrid") (fun use_cert =>
    rbind (g "port") (fun port =>
    rbind (g "protocol") (fun protocol =>
    rbind (g "retries") (fun retries =>
    rbind (g "role") (fun role =>
    rbind (g "timeoutSeconds") (fun timeout_seconds =>
    rbind (g "encryptionScheme") (fun encryption_scheme =>
    let auth_server :=
      [("authenticationPort", authentication_port);
       ("accountingPort", accounting_port);
       ("isIseEnabled", ise_enabled);
       ("ipAddress", ip);
       ("pxgridEnabled", pxgrid);
       ("useDnacCertForPxgrid", use_cert);
       ("port", port);
       ("protocol", protocol);
       ("retries", VStr (py_str retries));
       ("role", role);
       ("timeoutSeconds", VStr (py_str timeout_seconds));
       ("encryptionScheme", encryption_scheme)] in
    if is_True ise_enabled then
      rbind (g "ciscoIseDtos") (fun auth_server_ise_info =>
      rbind (py_iter auth_server_ise_info) (fun ise_info =>
      rbind (auth_server_ise_dtos ise_info) (fun dtos =>
      Ok (VDict (dict_set "ciscoIseDtos" (VList dtos) auth_server)))))
    else Ok (VDict auth_server))))))))))))).

Definition is_dict (v : pyval) : bool :=
  match v with VDict _ => true | _ => false end.

(* lines 615-662 *)
Definition auth_server_exists (ipAddress : pyval) : M pyval :=
  let AuthServer := [("exists", VBool false); ("details", VNone); ("id", VNone)] in
  response <- exec "system_settings" "get_authentication_and_policy_servers" VNone ;;
  if negb (is_dict response) then ret (VDict AuthServer)
  else
    all_auth_server_details <- lift (py_get response "response") ;;
    let auth_server_details :=
      get_dict_result E all_auth_server_details "ipAddress" ipAddress in
    if negb (py_truthy auth_server_details) then ret (VDict AuthServer)
    else
      uuid <- lift (py_get auth_server_details "instanceUuid") ;;
      details <- lift (get_auth_server_params auth_server_details) ;;
      ret (VDict (dict_set "details" details
                    (dict_set "id" uuid
                       (dict_set "exists" (VBool true) AuthServer)))).

(* lines 664-707 *)
Definition get_have_authentication_policy_server (config : pyval) : M unit :=
  method (
    authentication_policy_server <- lift (py_get config "authentication_policy_server") ;;
    if is_none authentication_policy_server then
      fail "authentication_policy_server in config is missing in the playbook"
    else
      ip_address <- lift (py_get authentication_policy_server "server_ip_address") ;;
      if is_none ip_address then
        fail "Missing parameter 'server_ip_address' is required."
      else
        AuthServer <- auth_server_exists ip_address ;;
        h <- read have ;;
        h' <- lift (py_update h "authenticationPolicyServer" AuthServer) ;;
        modify (set_have h') ;;
        modify (set_msg (VStr ("Collecting the Authentication and Policy Server "
                                 ++ "details from the Cisco Catalyst Center."))) ;;
        modify (set_status "success")).

(* lines 709-728 *)
Definition get_have (config : pyval) : M unit :=
  method (
    aps <- lift (py_get config "authentication_policy_server") ;;
    (if negb (is_none aps) then
       get_have_authentication_policy_server config ;;
       check_return_status
     else ret tt) ;;
    modify (set_msg (VStr "Successfully retrieved the details from the Cisco Catalyst Center")) ;;
    modify (set_status "success")).

(** *** accept_cisco_ise_server_certificate *)

(** [self.log(str(self.msg, "CRITICAL"))]: [str] with a second argument
    decodes bytes, and [self.msg] is a [str], so the call raises. *)
Definition log_str_critical : M unit := lift (Err TypeError).

(* lines 1121-1165 *)
Definition accept_cisco_ise_server_certificate (ipAddress trusted_server : pyval)
  : M unit :=
  method (
    try_except
      (AuthServer <- auth_server_exists ipAddress ;;
       if negb (py_truthy AuthServer) then
         modify (set_msg (VStr ("Error while retrieving the Authentication and Policy Server "
                                  ++ py_str ipAddress
                                  ++ "                             details."))) ;;
         log_str_critical ;;
         modify (set_status "failed") ;;
         return_self
       else
         cisco_ise_id <- lift (py_get AuthServer "id") ;;
         if negb (py_truthy cisco_ise_id) then
           modify (set_msg (VStr ("Error while retrieving the Authentication and Policy Server "
                                    ++ py_str ipAddress ++ " id."))) ;;
           log_str_critical ;;
           modify (set_status "failed") ;;
           return_self
         else
           exec "system_settings"
                "accept_cisco_ise_server_certificate_for_cisco_ise_server_integration"
                (VDict [("id", cisco_ise_id); ("isCertAcceptedByUser", trusted_server)]) ;;
           ret tt)
      (ret tt)).

(** *** check_auth_server_response_status *)

Section Polling.
(** The number of iterations of [while True] that the model follows. *)
Variable fuel : nat.

(** [self.get_task_details(task_id)]: one poll of the task endpoint.  The
    request is made by [DnacBase]; here it adds one to [polls], takes the
    time [delay E n] and leaves [calls] as it is. *)
Definition poll_task_details (task_id : pyval) : M pyval :=
  fun s =>
    let n := polls s in
    Normal (get_task_details E n task_id)
           (set_polls (S n) (set_clock (clock s + Z.of_N (delay E n)) s)).

(** [time.sleep(self.max_timeout / 1000)]: that many seconds are
    [max_timeout] milliseconds.  The clock counts whole milliseconds; the
    code computes the interval and the elapsed time in floats, so that at
    the very boundary of the timeout the code may make one pass more or less
    than this clock does. *)
Definition sleep_interval : M unit :=
  fun s => Normal tt (set_clock (clock s + max_timeout s) s).

(* lines 1209-1214: [true] when the loop ended in [break] *)
Fixpoint scan_validation_strings (validation_string_set : list string)
    (task_details : pyval) : M bool :=
  match validation_string_set with
  | [] => ret false
  | validation_string :: rest =>
      progress <- lift (py_get task_details "progress") ;;
      lowered <- lift (py_lower progress) ;;
      if str_contains validation_string lowered then
        modify (set_changed true) ;;
        modify (set_validation_string validation_string) ;;
        modify (set_status "success") ;;
        ret true
      else scan_validation_strings rest task_details
  end.

Definition timeout_msg (timeout : Z) (task_id : pyval) (api_name : string) : string :=
  "Max timeout of " ++ str_of_Z timeout ++ " sec has reached for the execution id '"
    ++ py_str task_id ++ "'."
    ++ "Exiting the loop due to unexpected API '" ++ api_name ++ "' status.".

(* lines 1190-1223 *)
Fixpoint poll_loop (n : nat) (task_id : pyval) (start_time : Z)
    (validation_string_set : list string) (api_name : string) : M unit :=
  match n with
  | O => fun s => Diverged s
  | S n' =>
      end_time <- read clock ;;
      timeout <- read max_timeout ;;
      if (1000 * timeout <=? end_time - start_time) then
        modify (set_msg (VStr (timeout_msg timeout task_id api_name))) ;;
        modify (set_status "failed")
      else
        task_details <- poll_task_details task_id ;;
        is_error <- lift (py_get task_details "isError") ;;
        if is_True is_error then
          failure_reason <- lift (py_get task_details "failureReason") ;;
          (if py_truthy failure_reason then
             modify (set_msg (VStr (py_str failure_reason)))
           else
             progress <- lift (py_get task_details "progress") ;;
             modify (set_msg (VStr (py_str progress)))) ;;
          modify (set_status "failed")
        else
          scan_validation_strings validation_string_set task_details ;;
          result_changed <- read changed ;;
          if result_changed then ret tt
          else
            sleep_interval ;;
            poll_loop n' task_id start_time validation_string_set api_name
  end.

(* lines 1167-1225 *)
Definition check_auth_server_response_status (response : pyval)
    (validation_string_set : list string) (api_name : string) : M unit :=
  method (
    response <- lift (py_get response "response") ;;
    errorcode <- lift (py_get response "errorcode") ;;
    if negb (is_none errorcode) then
      detail <- lift (py_get response "detail") ;;
      modify (set_msg detail) ;;
      modify (set_status "failed") ;;
      return_self
    else
      task_id <- lift (py_get response "taskId") ;;
      start_time <- read clock ;;
      poll_loop fuel task_id start_time validation_string_set api_name).

(** *** format_payload_for_update

    [want_auth_server] is the object [self.want["authenticationPolicyServer"]]
    itself at the only call: what the method writes to it is written to
    [self.want]. *)

Definition read_want_auth_server : M pyval :=
  w <- read want ;;
  lift (py_get w "authenticationPolicyServer").

Definition update_params : list string :=
  ["authenticationPort"; "accountingPort"; "role"].

Definition modify_msg (item : string) : string :=
  "Update does not support modifying '" ++ py_str (VList (map VStr update_params))
    ++ "'. Here you are trying to update '" ++ item ++ "'.".

(* lines 1241-1251 *)
Fixpoint check_update_params (items : list string) (have_auth_server : pyval) : M unit :=
  match items with
  | [] => ret tt
  | item :: items' =>
      have_auth_server_item <- lift (py_get have_auth_server item) ;;
      want_auth_server <- read_want_auth_server ;;
      want_auth_server_item <- lift (py_get want_auth_server item) ;;
      if is_none want_auth_server_item then
        want_auth_server <- lift (py_update want_auth_server item have_auth_server_item) ;;
        want_update "authenticationPolicyServer" want_auth_server ;;
        check_update_params items' have_auth_server
      else if negb (py_eqb have_auth_server_item want_auth_server_item) then
        fail (modify_msg item)
      else check_update_params items' have_auth_server
  end.

Definition protocol_msg (have_protocol want_protocol : pyval) : string :=
  "'protocol' can only be updated to 'RADIUS_TACACS' not from '"
    ++ py_str have_protocol ++ "' to '" ++ py_str want_protocol ++ "'".

Definition format_ok_msg : string :=
  "Successfully formatted the parameter of the payload for updating the authentication and policy server.".

(* lines 1227-1265 *)
Definition format_payload_for_update (have_auth_server : pyval) : M unit :=
  method (
    check_update_params update_params have_auth_server ;;
    have_auth_server_protocol <- lift (py_get have_auth_server "protocol") ;;
    want_auth_server <- read_want_auth_server ;;
    want_auth_server_protocol <- lift (py_get want_auth_server "protocol") ;;
    if negb (py_eqb have_auth_server_protocol want_auth_server_protocol)
       && negb (py_eqb want_auth_server_protocol (VStr "RADIUS_TACACS"))
    then fail (protocol_msg have_auth_server_protocol want_auth_server_protocol)
    else
      modify (set_msg (VStr format_ok_msg)) ;;
      modify (set_status "success")).

(** *** update_auth_policy_server, get_diff_merged *)

(** [result_auth_server.get("response").update({ipAddress: v})] *)
Definition result_response_set (ipAddress v : pyval) : M unit :=
  r <- read res_response ;;
  r' <- lift (key_update ipAddress v r) ;;
  modify (set_res_response r').

(** [result_auth_server.get("response").get(ipAddress).update({k: v})] *)
Definition result_response_update (ipAddress : pyval) (k : string) (v : pyval) : M unit :=
  r <- read res_response ;;
  entry <- lift (if py_hashable ipAddress then Ok (key_get ipAddress r) else Err TypeError) ;;
  entry' <- lift (py_update entry k v) ;;
  modify (set_res_response (assoc_set py_eqb ipAddress entry' r)).

(** [result_auth_server.get("msg").update({ipAddress: m})] *)
Definition result_msg_set (ipAddress : pyval) (m : string) : M unit :=
  r <- read res_msg ;;
  r' <- lift (key_update ipAddress (VStr m) r) ;;
  modify (set_res_msg r').

(** [time.sleep(v)] *)
Definition py_sleep (v : pyval) : M unit :=
  match v with
  | VInt z =>
      if z <? 0 then lift (Err ValueError)
      else modify (fun s => set_clock (clock s + 1000 * z) s)
  | VBool b => modify (fun s => set_clock (clock s + 1000 * Z.b2z b) s)
  | _ => lift (Err TypeError)
  end.

Definition add_function : string :=
  "add_authentication_and_policy_server_access_configuration".
Definition edit_function : string :=
  "edit_authentication_and_policy_server_access_configuration".
Definition delete_function : string :=
  "delete_authentication_and_policy_server_access_configuration".

Definition msg_created : string := "Authentication and Policy Server Created Successfully".
Definition msg_no_update : string :=
  "Authentication and Policy Server doesn't require an update".
Definition msg_updated : string := "Authentication and Policy Server Updated Successfully".

(* lines 1300-1334: [return] on a failed integration *)
Definition check_ise_integration (ipAddress is_ise_server : pyval) : M unit :=
  vs <- read validation_string ;;
  if py_truthy is_ise_server && String.eqb vs "operation sucessful" then
    w <- read want ;;
    trusted_server <- lift (py_get w "trusted_server") ;;
    accept_cisco_ise_server_certificate ipAddress trusted_server ;;
    w <- read want ;;
    ise_integration_wait_time <- lift (py_get w "ise_integration_wait_time") ;;
    py_sleep ise_integration_wait_time ;;
    response <- exec "system_settings" "get_authentication_and_policy_servers"
                     (VDict [("is_ise_enabled", VBool true)]) ;;
    response <- lift (py_get response "response") ;;
    if is_none response then
      modify (set_msg (VStr ("Failed to retrieve the information from the API 'get_authentication_and_policy_servers' of "
                               ++ py_str ipAddress ++ "."))) ;;
      modify (set_status "failed") ;;
      return_self
    else
      let ise_server_details := get_dict_result E response "ipAddress" ipAddress in
      state_ <- lift (py_get ise_server_details "state") ;;
      in_set <- lift (if py_hashable state_
                      then Ok (py_in_list state_ [VStr "FAILED"; VStr "INPROGRESS"])
                      else Err TypeError) ;;
      if in_set then
        (if py_eqb state_ (VStr "INPROGRESS") then
           modify (set_msg (VStr ("The Cisco ISE server '" ++ py_str ipAddress
               ++ "' integration is incomplete, currently in 'INPROGRESS' state. "
               ++ "The integration has exceeded the expected duration of '"
               ++ py_str ise_integration_wait_time ++ "' second(s).")))
         else if py_eqb state_ (VStr "FAILED") then
           let m := "The Cisco ISE server '" ++ py_str ipAddress
                      ++ "' integration has failed and in 'FAILED' state." in
           w <- read want ;;
           trusted <- lift (py_get w "trusted_server") ;;
           if is_False trusted then
             modify (set_msg (VStr (m ++ " This is the first time Cisco Catalyst Center has encountered "
                                      ++ "this certificate from Cisco ISE, and it is not yet trusted.")))
           else modify (set_msg (VStr m))
         else ret tt) ;;
        modify (set_status "failed") ;;
        return_self
      else ret tt
  else ret tt.

(* lines 1285-1346: the server does not exist, create it *)
Definition create_server (ipAddress is_ise_server : pyval) : M unit :=
  auth_server_params <- read_want_auth_server ;;
  response <- exec "system_settings" add_function auth_server_params ;;
  check_auth_server_response_status response
    ["successfully created aaa settings"; "operation sucessful"] add_function ;;
  st <- read status ;;
  if String.eqb st "failed" then return_self
  else
    check_ise_integration ipAddress is_ise_server ;;
    details <- read_want_auth_server ;;
    result_response_update ipAddress "authenticationPolicyServer Details" details ;;
    result_msg_set ipAddress msg_created ;;
    return_self.

(* lines 1356-1368: nothing to update *)
Definition no_update_needed (ipAddress have_auth_server details : pyval) : M unit :=
  result_response_update ipAddress "Cisco Catalyst Center params" details ;;
  id <- lift (py_get have_auth_server "id") ;;
  result_response_update ipAddress "Id" id ;;
  result_msg_set ipAddress msg_no_update ;;
  return_self.

(* lines 1370-1398: submit the edit *)
Definition edit_server (ipAddress have_auth_server want_auth_server : pyval) : M unit :=
  id <- lift (py_get have_auth_server "id") ;;
  auth_server_params <- lift (py_update want_auth_server "id" id) ;;
  response <- exec "system_settings" edit_function auth_server_params ;;
  check_auth_server_response_status response
    ["successfully updated aaa settings"; "operation sucessful"] edit_function ;;
  st <- read status ;;
  if String.eqb st "failed" then return_self
  else
    result_response_update ipAddress "Id" id ;;
    result_msg_set ipAddress msg_updated ;;
    return_self.

(* lines 1350-1355: [is_ise_server_enabled or self.requires_update(...)] *)
Definition update_needed (details want_auth_server : pyval) : M bool :=
  is_ise_server_enabled <- lift (py_get details "isIseEnabled") ;;
  if py_truthy is_ise_server_enabled then ret true
  else lift (requires_update details want_auth_server
                             authentication_policy_server_obj_params).

(* lines 1348-1398: the server exists *)
Definition update_server (ipAddress have_auth_server : pyval) : M unit :=
  details <- lift (py_get have_auth_server "details") ;;
  format_payload_for_update details ;;
  check_return_status ;;
  want_auth_server <- read_want_auth_server ;;
  needed <- update_needed details want_auth_server ;;
  if negb needed then no_update_needed ipAddress have_auth_server details
  else edit_server ipAddress have_auth_server want_auth_server.

(* lines 1267-1398 *)
Definition update_auth_policy_server (ipAddress : pyval) : M unit :=
  method (
    result_response_set ipAddress (VDict []) ;;
    want_auth_server <- read_want_auth_server ;;
    is_ise_server <- lift (py_get want_auth_server "isIseEnabled") ;;
    h <- read have ;;
    have_auth_server <- lift (py_get h "authenticationPolicyServer") ;;
    exists_ <- lift (py_get have_auth_server "exists") ;;
    if negb (py_truthy exists_) then create_server ipAddress is_ise_server
    else update_server ipAddress have_auth_server).

(* lines 1400-1417 *)
Definition get_diff_merged (config : pyval) : M unit :=
  method (
    aps <- lift (py_get config "authentication_policy_server") ;;
    if negb (is_none aps) then
      ipAddress <- lift (py_get aps "server_ip_address") ;;
      update_auth_policy_server ipAddress
    else ret tt).

(** *** delete_auth_policy_server, get_diff_deleted *)

Definition msg_not_found : string := "Authentication and Policy Server not found.".

(* lines 1419-1462 *)
Definition delete_auth_policy_server (ipAddress : pyval) : M unit :=
  method (
    h <- read have ;;
    have_auth_server <- lift (py_get h "authenticationPolicyServer") ;;
    auth_server_exists <- lift (py_get have_auth_server "exists") ;;
    if negb (py_truthy auth_server_exists) then
      result_response_set ipAddress (VStr "Authentication and Policy Server not found") ;;
      modify (set_msg (VStr msg_not_found)) ;;
      modify (set_status "success") ;;
      return_self
    else
      id <- lift (py_get have_auth_server "id") ;;
      response <- exec "system_settings" delete_function (VDict [("id", id)]) ;;
      (let '(st, m, ch) :=
         check_task_response_status E response "successfully deleted aaa settings"
                                    delete_function in
       modify (fun s => set_changed (ch || changed s) (set_status st (set_msg m s)))) ;;
      check_return_status ;;
      r <- lift (py_get response "response") ;;
      taskid <- lift (py_get r "taskId") ;;
      result_response_set ipAddress (VDict []) ;;
      result_response_update ipAddress "Task Id" taskid ;;
      result_msg_set ipAddress "Authentication and Policy Server deleted successfully." ;;
      modify (set_msg (VStr ("Authentication and Policy Server - " ++ py_str ipAddress
                               ++ " deleted successfully."))) ;;
      modify (set_status "success")).

(* lines 1464-1479 *)
Definition get_diff_deleted (config : pyval) : M unit :=
  method (
    aps <- lift (py_get config "authentication_policy_server") ;;
    if negb (is_none aps) then
      ipAddress <- lift (py_get aps "server_ip_address") ;;
      delete_auth_policy_server ipAddress ;;
      check_return_status
    else ret tt).

(** *** The loop of [main] over the config elements *)

Inductive run_state : Type := merged | deleted.

(** Modelled from the spec: the table [DnacBase.get_diff_state_apply] that
    [main] indexes by the state is not under [src/]; with the create/update
    and delete semantics of the spec, merged runs [get_diff_merged] and
    deleted runs [get_diff_deleted]. *)
Definition get_diff_state_apply (state_ : run_state) (config : pyval) : M unit :=
  match state_ with
  | merged => get_diff_merged config
  | deleted => get_diff_deleted config
  end.

(** [self.have.clear(); self.want.clear()] *)
Definition reset_values : M unit :=
  modify (fun s => set_want (VDict []) (set_have (VDict []) s)).

(* lines 1614-1619, with config_verify false *)
Definition process_config (state_ : run_state) (config : pyval) : M unit :=
  reset_values ;;
  get_have config ;; check_return_status ;;
  (match state_ with
   | deleted => ret tt
   | merged => get_want config ;; check_return_status
   end) ;;
  get_diff_state_apply state_ config ;; check_return_status.

End Polling.
End Manager.

(** ** Vocabulary of the statements *)

(** The calls submitted between two states. *)
Definition new_calls (s s' : state) : list call :=
  skipn (length (calls s)) (calls s').


(** [self.want["authenticationPolicyServer"]] is the dict [wd]. *)
Definition want_auth_server_is (s : state) (wd : list (string * pyval)) : Prop :=
  exists w, want s = VDict w /\ dict_get "authenticationPolicyServer" w = VDict wd.

(** The payload omits [item]: [want_auth_server.get(item) is None]. *)
Definition omitted (wd : list (string * pyval)) (item : string) : bool :=
  is_none (dict_get item wd).

(** The payload has [item] and it differs from the current value. *)
Definition rejected (hd wd : list (string * pyval)) (item : string) : bool :=
  negb (is_none (dict_get item wd))
  && negb (py_eqb (dict_get item hd) (dict_get item wd)).


(** [self.want.get("authenticationPolicyServer")] *)
Definition want_auth_server_of (s : state) : pyval :=
  match want s with
  | VDict w => dict_get "authenticationPolicyServer" w
  | _ => VNone
  end.

(** [v.get(k)] with [None] when [v] is no dict, for reading results. *)
Definition field (k : string) (v : pyval) : pyval :=
  match v with
  | VDict d => dict_get k d
  | _ => VNone
  end.

(** The state [format_payload_for_update] leaves once the loop over
    [update_params] has gone through (lines 1253-1265). *)
Definition protocol_checked (hd : list (string * pyval)) (s : state) : state :=
  let have_protocol := dict_get "protocol" hd in
  let want_protocol := field "protocol" (want_auth_server_of s) in
  if negb (py_eqb have_protocol want_protocol)
     && negb (py_eqb want_protocol (VStr "RADIUS_TACACS"))
  then set_status "failed" (set_msg (VStr (protocol_msg have_protocol want_protocol)) s)
  else set_status "success" (set_msg (VStr format_ok_msg) s).


(** Every run of [c] relates its start state to its final state by [R]. *)
Definition frames (R : state -> state -> Prop) {A} (c : M A) : Prop :=
  forall s, R s (final (c s)).

(** What the polling of a task leaves alone. *)
Definition same_outside_poll (s s' : state) : Prop :=
  calls s' = calls s /\ have s' = have s /\ want s' = want s
  /\ res_response s' = res_response s /\ res_msg s' = res_msg s
  /\ max_timeout s' = max_timeout s.


(** The state after line 1280: the entry of [ipAddress] in the result is
    reset to [{}]. *)
Definition after_result_reset (ipAddress : pyval) (s : state) : state :=
  set_res_response (assoc_set py_eqb ipAddress (VDict []) (res_response s)) s.

Definition same_calls (s s' : state) : Prop := calls s' = calls s.

(** The current state has the server: [self.have["authenticationPolicyServer"]]
    is [have_auth_server], with a true "exists" and the details [hd]. *)
Definition server_exists (s : state) (have_auth_server : pyval)
    (hd : list (string * pyval)) : Prop :=
  py_get (have s) "authenticationPolicyServer" = Ok have_auth_server
  /\ (exists ex, py_get have_auth_server "exists" = Ok ex /\ py_truthy ex = true)
  /\ py_get have_auth_server "details" = Ok (VDict hd).

(** The current state has no such server. *)
Definition server_absent (s : state) : Prop :=
  exists have_auth_server ex,
    py_get (have s) "authenticationPolicyServer" = Ok have_auth_server
    /\ py_get have_auth_server "exists" = Ok ex /\ py_truthy ex = false.

(** The edit call for the payload [wd] of the server [have_auth_server]. *)
Definition edit_call (have_auth_server : pyval) (wd : list (string * pyval)) : call :=
  mkCall "system_settings" edit_function
         (VDict (dict_set "id" (field "id" have_auth_server) wd)).

(** At least one of the fields of [obj_params] differs between the current
    details and the payload, per [dnac_compare_equality]. *)
Definition allow_listed_field_differs (E : environment)
    (hd wd : list (string * pyval)) : bool :=
  existsb (fun p => negb (dnac_compare_equality E (dict_get (fst p) hd)
                                                  (dict_get (snd p) wd)))
          authentication_policy_server_obj_params.


(** One iteration of lines 1241-1245 on the payload, when the item is not
    rejected: an omitted item gets the current value. *)
Definition fill_item (hd wd : list (string * pyval)) (item : string)
  : list (string * pyval) :=
  if omitted wd item then dict_set item (dict_get item hd) wd else wd.

(** The payload after the loop over [update_params]. *)
Definition filled (hd wd : list (string * pyval)) : list (string * pyval) :=
  fold_left (fill_item hd) update_params wd.

(** No item of [items] is rejected. *)
Definition none_rejected (hd wd : list (string * pyval)) (items : list string) : bool :=
  forallb (fun i => negb (rejected hd wd i)) items.

(** The protocol of the payload is the current one or "RADIUS_TACACS". *)
Definition protocol_accepted (hd wd : list (string * pyval)) : bool :=
  negb (negb (py_eqb (dict_get "protocol" hd) (dict_get "protocol" wd))
        && negb (py_eqb (dict_get "protocol" wd) (VStr "RADIUS_TACACS"))).

(** [format_payload_for_update] ends with status "success". *)
Definition format_accepts (hd wd : list (string * pyval)) : bool :=
  none_rejected hd wd update_params && protocol_accepted hd wd.

(** Everything but [self.want], [self.msg] and [self.status] is the same. *)
Definition same_results (s s' : state) : Prop :=
  calls s' = calls s /\ have s' = have s /\ changed s' = changed s
  /\ res_response s' = res_response s /\ res_msg s' = res_msg s
  /\ validation_string s' = validation_string s
  /\ max_timeout s' = max_timeout s /\ clock s' = clock s /\ polls s' = polls s.


(** The config element names the server [ipAddress]. *)
Definition config_server (config ipAddress : pyval) : Prop :=
  exists aps,
    py_get config "authentication_policy_server" = Ok aps
    /\ is_none aps = false
    /\ py_get aps "server_ip_address" = Ok ipAddress.

(** Some call of the function [name] was submitted between [s] and [s']. *)
Definition invoked (name : string) (s s' : state) : bool :=
  existsb (fun c => String.eqb (c_function c) name) (new_calls s s').

(** The entry of [ipAddress] in [result_auth_server["msg"]] is untouched or
    is [m]. *)
Definition msg_untouched_or (ipAddress : pyval) (m : string) (s s' : state) : Prop :=
  res_msg s' = res_msg s
  \/ res_msg s' = assoc_set py_eqb ipAddress (VStr m) (res_msg s).


(** The three configuration calls that change the controller. *)
Definition is_mutating (c : call) : bool :=
  String.eqb (c_function c) add_function
  || String.eqb (c_function c) edit_function
  || String.eqb (c_function c) delete_function.

Definition mutating_calls (s s' : state) : list call :=
  filter is_mutating (new_calls s s').

Definition add_call (wd : list (string * pyval)) : call :=
  mkCall "system_settings" add_function (VDict wd).

Definition delete_call (have_auth_server : pyval) : call :=
  mkCall "system_settings" delete_function
         (VDict [("id", field "id" have_auth_server)]).

(** Calls were added, none of them one of the three. *)
Definition other_calls_only (s s' : state) : Prop :=
  exists l, calls s' = (calls s ++ l)%list /\ filter is_mutating l = [].

(** The edit is submitted: the payload is accepted, and the server is
    ISE-enabled or an allow-listed field differs. *)
Definition edit_submitted (E : environment) (hd wd : list (string * pyval)) : bool :=
  format_accepts hd wd
  && (py_truthy (dict_get "isIseEnabled" hd) || allow_listed_field_differs E hd wd).


(** A description of the runs of [c]: a value it goes on with satisfies [Q];
    when it executes [return] the status is "failed" and the message
    satisfies [F]; it does not end the module run. *)
Definition spec {A} (Q : A -> Prop) (F : string -> Prop) (c : M A) : Prop :=
  forall s,
    match c s with
    | Normal a _ => Q a
    | Returned s' => status s' = "failed" /\ exists m, msg s' = VStr m /\ F m
    | Raised _ _ => True
    | Exited _ | Diverged _ => False
    end.

(** [a] is a dict that agrees with [d] outside the keys [ks]. *)
Definition writes (ks : list string) (d : list (string * pyval)) (a : pyval) : Prop :=
  exists d', a = VDict d'
             /\ forall k, existsb (String.eqb k) ks = false -> dict_get k d' = dict_get k d.

(** The three messages of the shared_secret check (lines 770, 776, 783). *)
Definition shared_secret_msgs : list string :=
  ["Missing parameter 'shared_secret' is required.";
   "The 'shared_secret' should contain between 4 and 100 characters.";
   "The 'shared_secret' should not contain spaces or the characters '?', '<'."].

Definition is_shared_secret_msg (m : string) : bool :=
  existsb (String.eqb m) shared_secret_msgs.

(** A message that is not empty and is none of the shared_secret ones. *)
Definition plain_msg (m : string) : Prop :=
  is_shared_secret_msg m = false /\ String.eqb m EmptyString = false.

(** [shared_secret] does not pass lines 769-785. *)
Definition shared_secret_invalid (shared_secret : pyval) : bool :=
  negb (py_truthy shared_secret)
  || (Z.of_nat (str_len (py_str shared_secret)) <? 4)
  || (100 <? Z.of_nat (str_len (py_str shared_secret)))
  || existsb (fun c => char_in c (py_str shared_secret)) (list_ascii_of_string " ?<").


(** Some credential has a password whose length is not from 4 to 127
    (line 970). *)
Definition password_length_invalid (creds : list pyval) : Prop :=
  exists cred password n,
    In cred creds
    /\ py_get cred "password" = Ok password
    /\ py_truthy password = true
    /\ py_len password = Ok n
    /\ (4 <=? n) && (n <=? 127) = false.

(** A failure message of the Cisco ISE part: none of the shared_secret
    ones, and empty only for a password of a wrong length. *)
Definition ise_msg (creds : list pyval) (m : string) : Prop :=
  is_shared_secret_msg m = false
  /\ (String.eqb m EmptyString = true -> password_length_invalid creds).


(** A failure message of lines 939-1092 for the playbook entry [cfg]. *)
Definition ise_failure (cfg : pyval) (m : string) : Prop :=
  is_shared_secret_msg m = false
  /\ (String.eqb m EmptyString = true ->
      exists dtos creds,
        py_get cfg "cisco_ise_dtos" = Ok dtos
        /\ py_iter dtos = Ok creds
        /\ password_length_invalid creds).

(** The keys of [auth_server] that lines 939-1092 write. *)
Definition ise_keys : list string :=
  ["ciscoIseDtos"; "pxgridEnabled"; "useDnacCertForPxgrid"; "externalCiscoIseIpAddrDtos"].


(** The payload that the validations build for the playbook entry [cfg]:
    for an existing server (details [det]) the items of [update_params] are
    the current ones; for a new server the shared secret has passed its
    check and is in the payload as text. *)
Definition built_payload (cfg ex det a : pyval) : Prop :=
  exists wd,
    a = VDict wd
    /\ (py_truthy ex = true ->
        exists hd, det = VDict hd
                   /\ forall item, In item update_params ->
                                   dict_get item wd = dict_get item hd)
    /\ (py_truthy ex = false ->
        exists sec, py_get cfg "shared_secret" = Ok sec
                    /\ shared_secret_invalid sec = false
                    /\ dict_get "sharedSecret" wd = VStr (py_str sec)).

(** The failure messages of the validations: one of the shared_secret
    check, for a new server with an invalid secret, or another one. *)
Definition want_failure (cfg ex : pyval) (m : string) : Prop :=
  (is_shared_secret_msg m = true
   /\ py_truthy ex = false
   /\ exists sec, py_get cfg "shared_secret" = Ok sec
                  /\ shared_secret_invalid sec = true)
  \/ ise_failure cfg m.


(** ** Concrete runs

    A controller that answers every call with a task id and whose task is
    still in progress at every poll; a RADIUS server 10.0.0.1 as the
    controller reports it; playbook entries. *)

Definition task_response : pyval :=
  VDict [("response", VDict [("taskId", VStr "task-1"); ("url", VStr "/api/v1/task/task-1")])].

Definition task_in_progress : pyval :=
  VDict [("isError", VBool false); ("progress", VStr "Updating AAA settings")].

Definition busy_controller : environment :=
  mkEnv (fun _ _ => Ok task_response)
        py_eqb
        (fun _ _ _ => VNone)
        (fun _ _ => task_in_progress)
        (fun _ => 0%N)
        (fun _ _ _ => ("success", VStr "deleted", true)).

(** The attributes after [__init__], with the default timeout. *)
Definition initial_state : state :=
  mkState (VStr EmptyString) "success" (VDict []) (VDict []) false [] []
          EmptyString 1200 [] 0 0.

Definition radius_details : list (string * pyval) :=
  [("authenticationPort", VInt 1812); ("accountingPort", VInt 1813);
   ("isIseEnabled", VBool false); ("ipAddress", VStr "10.0.0.1");
   ("pxgridEnabled", VBool false); ("useDnacCertForPxgrid", VBool false);
   ("port", VInt 49); ("protocol", VStr "RADIUS"); ("retries", VStr "3");
   ("role", VStr "primary"); ("timeoutSeconds", VStr "4");
   ("encryptionScheme", VNone)].

Definition radius_server : pyval :=
  VDict [("exists", VBool true); ("details", VDict radius_details);
         ("id", VStr "0a1b2c3d")].

Definition no_server : pyval :=
  VDict [("exists", VBool false); ("details", VNone); ("id", VNone)].

(** The state after [get_have] found [server]. *)
Definition have_state (server : pyval) : state :=
  set_have (VDict [("authenticationPolicyServer", server)]) initial_state.

Definition playbook (entry : list (string * pyval)) : pyval :=
  VDict [("authentication_policy_server", VDict entry)].

(** protocol TACACS asked for the RADIUS server, and ports and a role that
    are not the current ones *)
Definition entry_to_tacacs : list (string * pyval) :=
  [("server_ip_address", VStr "10.0.0.1"); ("protocol", VStr "TACACS");
   ("authentication_port", VInt 1645); ("accounting_port", VInt 1646);
   ("role", VStr "secondary")].

Definition entry_to_radius_tacacs : list (string * pyval) :=
  [("server_ip_address", VStr "10.0.0.1"); ("protocol", VStr "RADIUS_TACACS")].

Definition entry_more_retries : list (string * pyval) :=
  [("server_ip_address", VStr "10.0.0.1"); ("retries", VInt 2)].

(** a new AAA server with a good secret and a protocol that does not exist *)
Definition entry_bad_protocol : list (string * pyval) :=
  [("server_type", VStr "AAA"); ("server_ip_address", VStr "10.0.0.9");
   ("shared_secret", VStr "s3cret-key"); ("protocol", VStr "LDAP")].

Definition entry_new_aaa : list (string * pyval) :=
  [("server_type", VStr "AAA"); ("server_ip_address", VStr "10.0.0.9");
   ("shared_secret", VStr "s3cret-key")].

(** a new Cisco ISE server whose password has three characters *)
Definition entry_short_password : list (string * pyval) :=
  [("server_type", VStr "ISE"); ("server_ip_address", VStr "10.0.0.5");
   ("shared_secret", VStr "s3cret-key");
   ("cisco_ise_dtos",
    VList [VDict [("user_name", VStr "admin"); ("password", VStr "abc");
                  ("fqdn", VStr "ise.example.com"); ("ip_address", VStr "10.0.0.5")]])].

(** The same entry with a password of three characters that take nine
    bytes. *)
Definition entry_wide_password : list (string * pyval) :=
  [("server_type", VStr "ISE"); ("server_ip_address", VStr "10.0.0.5");
   ("shared_secret", VStr "s3cret-key");
   ("cisco_ise_dtos",
    VList [VDict [("user_name", VStr "admin"); ("password", VStr "日本語");
                  ("fqdn", VStr "ise.example.com"); ("ip_address", VStr "10.0.0.5")]])].

(** The state after [get_have] and [get_want] for [entry]. *)
Definition wanted_state (server : pyval) (entry : list (string * pyval)) : state :=
  final (get_want (playbook entry) (have_state server)).

(** The payload in a state, as a list. *)
Definition payload_of (s : state) : list (string * pyval) :=
  match want_auth_server_of s with
  | VDict wd => wd
  | _ => []
  end.

(** An ISE-enabled server as the controller reports it, and the payload an
    earlier [get_want] left for it. *)
Definition ise_details : list (string * pyval) :=
  [("authenticationPort", VInt 1812); ("accountingPort", VInt 1813);
   ("isIseEnabled", VBool true); ("ipAddress", VStr "10.0.0.5");
   ("port", VInt 49); ("protocol", VStr "RADIUS"); ("retries", VStr "3");
   ("role", VStr "primary"); ("timeoutSeconds", VStr "4")].

Definition ise_server : pyval :=
  VDict [("exists", VBool true); ("details", VDict ise_details); ("id", VStr "9f8e7d6c")].

Definition ise_state : state :=
  set_want (VDict [("authenticationPolicyServer", VDict ise_details)])
           (have_state ise_server).

Definition ise_playbook : pyval :=
  playbook [("server_ip_address", VStr "10.0.0.5")].

(** A second config element is being processed: the first one has set
    [result['changed']]. *)
Definition changed_before : state := set_changed true initial_state.


(** The payload asks for another role than the current one and leaves the
    ports out. *)
Definition other_role_payload : list (string * pyval) :=
  [("isIseEnabled", VBool false); ("ipAddress", VStr "10.0.0.1");
   ("protocol", VStr "RADIUS"); ("role", VStr "secondary")].

Definition other_role_state : state :=
  set_want (VDict [("authenticationPolicyServer", VDict other_role_payload)])
           (have_state radius_server).

(** The state [get_want_authentication_policy_server] leaves for [entry]. *)
Definition payload_state (server : pyval) (entry : list (string * pyval)) : state :=
  final (get_want_authentication_policy_server (VDict entry) (have_state server)).


(** The three ways the polling loop is meant to end (lines 1192-1218), for
    the task [task_id] polled from the time [start]. *)

(** a validation string occurs in the lowered progress of some poll *)
Definition poll_succeeded (E : environment) (task_id : pyval) (vs : list string)
    (s' : state) : Prop :=
  status s' = "success" /\ changed s' = true
  /\ In (validation_string s') vs
  /\ exists n progress,
       py_get (get_task_details E n task_id) "progress" = Ok (VStr progress)
       /\ str_contains (validation_string s') (lower progress) = true.

(** some poll reports isError true; the message is its failure reason, or
    its progress when there is none *)
Definition poll_task_failed (E : environment) (task_id : pyval) (s' : state) : Prop :=
  status s' = "failed"
  /\ exists n,
       let task_details := get_task_details E n task_id in
       is_True (field "isError" task_details) = true
       /\ msg s' = VStr (py_str (if py_truthy (field "failureReason" task_details)
                                 then field "failureReason" task_details
                                 else field "progress" task_details)).

(** the elapsed time has reached the timeout *)
Definition poll_timed_out (task_id : pyval) (api_name : string) (start : Z)
    (s' : state) : Prop :=
  status s' = "failed"
  /\ msg s' = VStr (timeout_msg (max_timeout s') task_id api_name)
  /\ 1000 * max_timeout s' <= clock s' - start.

Definition edit_validation_strings : list string :=
  ["successfully updated aaa settings"; "operation sucessful"].

(** ** Induction on values, through lists and dicts *)

Section PyvalInduction.
Variable P : pyval -> Prop.
Hypothesis HNone : P VNone.
Hypothesis HBool : forall b, P (VBool b).
Hypothesis HInt : forall z, P (VInt z).
Hypothesis HStr : forall s, P (VStr s).
Hypothesis HList : forall l, Forall P l -> P (VList l).
Hypothesis HDict : forall d, Forall (fun kv => P (snd kv)) d -> P (VDict d).

Fixpoint pyval_nested_ind (v : pyval) : P v :=
  match v with
  | VNone => HNone
  | VBool b => HBool b
  | VInt z => HInt z
  | VStr s => HStr s
  | VList l =>
      HList l ((fix go (l : list pyval) : Forall P l :=
                  match l with
                  | [] => Forall_nil _
                  | x :: l' => Forall_cons _ (pyval_nested_ind x) (go l')
                  end) l)
  | VDict d =>
      HDict d ((fix go (d : list (string * pyval)) : Forall (fun kv => P (snd kv)) d :=
                  match d with
                  | [] => Forall_nil _
                  | kv :: d' => Forall_cons _ (pyval_nested_ind (snd kv)) (go d')
                  end) d)
  end.
End PyvalInduction.


(** A controller that knows the RADIUS server 10.0.0.1, finishes the first
    task it is polled for, and is still working on every later one. *)
Definition radius_record : pyval :=
  VDict [("instanceUuid", VStr "0a1b2c3d"); ("ipAddress", VStr "10.0.0.1");
         ("iseEnabled", VBool false); ("authenticationPort", VInt 1812);
         ("accountingPort", VInt 1813); ("port", VInt 49);
         ("protocol", VStr "RADIUS"); ("retries", VInt 3); ("role", VStr "primary");
         ("timeoutSeconds", VInt 4)].

Definition find_record (result : pyval) (key : string) (value : pyval) : pyval :=
  match result with
  | VList l =>
      match find (fun item => py_eqb (field key item) value) l with
      | Some item => item
      | None => VNone
      end
  | _ => VNone
  end.

Definition slow_controller : environment :=
  mkEnv (fun _ c =>
           if String.eqb (c_function c) "get_authentication_and_policy_servers"
           then Ok (VDict [("response", VList [radius_record])])
           else Ok task_response)
        py_eqb
        find_record
        (fun n _ =>
           match n with
           | O => VDict [("isError", VBool false);
                         ("progress", VStr "Successfully created AAA Settings.")]
           | _ => task_in_progress
           end)
        (fun _ => 25%N)
        (fun _ _ _ => ("success", VStr "deleted", true)).

(** Two config elements of one playbook, state merged: a new AAA server,
    then more retries for the RADIUS server. *)
Definition two_elements : M unit :=
  process_config slow_controller 1001 merged (playbook entry_new_aaa) ;;
  process_config slow_controller 1001 merged (playbook entry_more_retries).


(** A response of the controller that refuses the request. *)
Definition refused_response : list (string * pyval) :=
  [("errorcode", VStr "NCND00050"); ("detail", VStr "Invalid shared secret")].


(** The read of the servers that [auth_server_exists] submits, and the
    call that accepts the certificate of the server [id]. *)
Definition get_servers_call : call :=
  mkCall "system_settings" "get_authentication_and_policy_servers" VNone.

Definition accept_call (id trusted_server : pyval) : call :=
  mkCall "system_settings"
         "accept_cisco_ise_server_certificate_for_cisco_ise_server_integration"
         (VDict [("id", id); ("isCertAcceptedByUser", trusted_server)]).

(** What [auth_server_exists] returns for a server it did not find. *)
Definition server_not_found : pyval :=
  VDict [("exists", VBool false); ("details", VNone); ("id", VNone)].

(** An entry that does not name its server. *)
Definition entry_without_address : list (string * pyval) :=
  [("server_type", VStr "AAA"); ("shared_secret", VStr "s3cret-key")].

(** The fields of a record of the controller that [get_auth_server_params]
    copies as they are, and the fields of one formatted Cisco ISE
    credential. *)
Definition copied_fields : list string :=
  ["authenticationPort"; "accountingPort"; "ipAddress"; "pxgridEnabled";
   "useDnacCertForPxgrid"; "port"; "protocol"; "role"; "encryptionScheme"].

Definition formatted_fields : list string :=
  ["isIseEnabled"; "retries"; "timeoutSeconds"; "ciscoIseDtos"].

Definition ise_dto_fields : list string :=
  ["userName"; "fqdn"; "ipAddress"; "subscriberName"; "description"].

(** [dto] is a dict with exactly the fields of [ise_dto_fields]. *)
Definition ise_dto_shape (dto : pyval) : Prop :=
  exists x, dto = VDict x /\ map fst x = ise_dto_fields.

Definition ise_record : pyval :=
  VDict [("instanceUuid", VStr "9f8e7d6c"); ("ipAddress", VStr "10.0.0.5");
         ("iseEnabled", VBool true); ("authenticationPort", VInt 1812);
         ("accountingPort", VInt 1813); ("port", VInt 49);
         ("protocol", VStr "RADIUS"); ("retries", VInt 3); ("role", VStr "primary");
         ("timeoutSeconds", VInt 4); ("sharedSecret", VStr "s3cret-key");
         ("ciscoIseDtos",
          VList [VDict [("userName", VStr "admin"); ("password", VStr "pa55word");
                        ("fqdn", VStr "ise.example.com"); ("ipAddress", VStr "10.0.0.5");
                        ("subscriberName", VStr "ersadmin")]])].

(** The message [get_have] leaves. *)
Definition have_collected_msg : string :=
  "Successfully retrieved the details from the Cisco Catalyst Center".

(** What the validations of [get_want_authentication_policy_server] settle
    about single fields of the payload, for the value [given] of the
    playbook entry, the "exists" flag [ex] and the current details [det]. *)

(** authenticationPort and accountingPort of a new server: an integer from 1
    to 65535, the given one or the default. *)
Definition port_checked (given : pyval) (default : Z) (v : pyval) : Prop :=
  exists z, v = VInt z /\ 1 <= z <= 65535
            /\ if py_truthy given then given = VInt z else z = default.

(** retries: the text of a given value that reads as an integer from 1 to 3;
    without one, the current value or "3". *)
Definition retries_checked (ex det given v : pyval) : Prop :=
  if py_truthy given then
    exists z, py_int given = Ok z /\ 1 <= z <= 3 /\ v = VStr (py_str given)
  else v = (if py_truthy ex then field "retries" det else VStr "3").

(** timeoutSeconds: the text of a given value that reads as an integer from
    2 to 20; without one, the text of the current value or "4". *)
Definition timeout_checked (ex det given v : pyval) : Prop :=
  if is_none given then
    v = VStr (if py_truthy ex then py_str (field "timeoutSeconds" det) else "4")
  else exists z, py_int given = Ok z /\ 2 <= z <= 20 /\ v = VStr (py_str given).

(** protocol: one of the three when given; without one, the current
    protocol or "RADIUS". *)
Definition protocol_chosen (ex det given v : pyval) : Prop :=
  py_in_list given [VStr "RADIUS"; VStr "TACACS"; VStr "RADIUS_TACACS"; VNone] = true
  /\ v = (if is_none given
          then (if py_truthy ex then field "protocol" det else VStr "RADIUS")
          else given).

(** isIseEnabled: the current value, or for a new server whether the
    server_type is "ISE". *)
Definition ise_enabled_chosen (ex det given v : pyval) : Prop :=
  v = (if py_truthy ex then field "isIseEnabled" det
       else VBool (py_eqb given (VStr "ISE"))).

(** The fields that only the creation of a server sets. *)
Definition creation_fields : list string :=
  ["sharedSecret"; "encryptionScheme"; "messageKey"; "encryptionKey"].

(** The payload [a] built for the entry [cfg]. *)
Definition checked_payload (cfg ex det a : pyval) : Prop :=
  exists wd,
    a = VDict wd
    /\ ise_enabled_chosen ex det (field "server_type" cfg) (dict_get "isIseEnabled" wd)
    /\ dict_get "ipAddress" wd = field "server_ip_address" cfg
    /\ protocol_chosen ex det (field "protocol" cfg) (dict_get "protocol" wd)
    /\ dict_get "port" wd = VInt 49
    /\ (py_truthy ex = false ->
        port_checked (field "authentication_port" cfg) 1812
                     (dict_get "authenticationPort" wd)
        /\ port_checked (field "accounting_port" cfg) 1813
                        (dict_get "accountingPort" wd))
    /\ retries_checked ex det (field "retries" cfg) (dict_get "retries" wd)
    /\ timeout_checked ex det (field "timeout" cfg) (dict_get "timeoutSeconds" wd)
    /\ (py_truthy ex = true ->
        forall k, In k creation_fields -> dict_get k wd = VNone).

Definition any_msg (m : string) : Prop := True.

(** An entry for the RADIUS server that brings a new secret and an
    encryption scheme. *)
Definition entry_with_secret : list (string * pyval) :=
  [("server_ip_address", VStr "10.0.0.1"); ("shared_secret", VStr "n3w-secret");
   ("encryption_scheme", VStr "RADSEC"); ("timeout", VInt 10)].

(** The payload for an existing server that is not a Cisco ISE server, when
    the entry [c] names no protocol, retries or timeout: the current values
    [hd], with the address of the entry. *)
Definition unchanged_payload (c hd : list (string * pyval)) : list (string * pyval) :=
  [("isIseEnabled", dict_get "isIseEnabled" hd);
   ("ipAddress", dict_get "server_ip_address" c);
   ("protocol", dict_get "protocol" hd);
   ("port", VInt 49);
   ("authenticationPort", dict_get "authenticationPort" hd);
   ("accountingPort", dict_get "accountingPort" hd);
   ("retries", dict_get "retries" hd);
   ("timeoutSeconds", VStr (py_str (dict_get "timeoutSeconds" hd)));
   ("role", dict_get "role" hd)].

(** The entry [c] asks for nothing that an update can change. *)
Definition asks_no_change (c : list (string * pyval)) : Prop :=
  dict_get "protocol" c = VNone
  /\ py_truthy (dict_get "retries" c) = false
  /\ dict_get "timeout" c = VNone.

(** ** verify_diff_merged, verify_diff_deleted

    The two methods write ["Validation": "Success"] into the result of the
    module, beside its "response" and "msg".  The value of that entry is
    passed along with the state of the module: a method takes the value
    before the call and gives the outcome and the value after it. *)

Definition check_list : list string :=
  ["isIseEnabled"; "ipAddress"; "pxgridEnabled"; "useDnacCertForPxgrid"; "port";
   "protocol"; "retries"; "role"; "timeoutSeconds"; "encryptionScheme"].

Definition not_applied_msg : string :=
  "Authentication and Policy Server " ++ "Config is not applied to the Cisco Catalyst Center.".

(* lines 1508-1514: [a and b and a != b], evaluated from the left *)
Fixpoint verify_items (items : list string) (auth_server_have auth_server_want : pyval)
  : M unit :=
  match items with
  | [] => ret tt
  | item :: items' =>
      have_item <- lift (py_get auth_server_have item) ;;
      differs <-
        (if py_truthy have_item then
           want_item <- lift (py_get auth_server_want item) ;;
           if py_truthy want_item then ret (negb (py_eqb have_item want_item))
           else ret false
         else ret false) ;;
      if differs then fail not_applied_msg
      else verify_items items' auth_server_have auth_server_want
  end.

(** The body of [verify_diff_merged]; the value tells whether the
    "Validation" entry was written. *)
Definition verify_diff_merged_body (E : environment) (config : pyval) : M bool :=
  get_have E config ;;
  aps <- lift (py_get config "authentication_policy_server") ;;
  written <-
    (if negb (is_none aps) then
       h <- read have ;;
       w <- read want ;;
       have_auth_server <- lift (py_get h "authenticationPolicyServer") ;;
       auth_server_have <- lift (py_get have_auth_server "details") ;;
       auth_server_want <- lift (py_get w "authenticationPolicyServer") ;;
       verify_items check_list auth_server_have auth_server_want ;;
       lift (py_get auth_server_want "ipAddress") ;;
       ret true
     else ret false) ;;
  modify (set_msg (VStr "Successfully validated the Authentication and Policy Server.")) ;;
  modify (set_status "success") ;;
  ret written.

(** A method with a body that tells whether it wrote the entry. *)
Definition validating (body : M bool) (validation : pyval) (s : state)
  : outcome unit * pyval :=
  match body s with
  | Normal written s' => (Normal tt s', if written then VStr "Success" else validation)
  | Returned s' => (Normal tt s', validation)
  | Raised e s' => (Raised e s', validation)
  | Exited s' => (Exited s', validation)
  | Diverged s' => (Diverged s', validation)
  end.

(* lines 1481-1524 *)
Definition verify_diff_merged (E : environment) (config : pyval)
  : pyval -> state -> outcome unit * pyval :=
  validating (verify_diff_merged_body E config).

Definition verify_diff_deleted_body (E : environment) (config : pyval) : M bool :=
  get_have E config ;;
  aps <- lift (py_get config "authentication_policy_server") ;;
  lift (py_get aps "server_ip_address") ;;
  written <-
    (if negb (is_none aps) then
       h <- read have ;;
       have_auth_server <- lift (py_get h "authenticationPolicyServer") ;;
       auth_server_exists <- lift (py_get have_auth_server "exists") ;;
       if py_truthy auth_server_exists then fail not_applied_msg
       else
         lift (py_get aps "ip_address") ;;
         ret true
     else ret false) ;;
  modify (set_msg (VStr "Successfully validated the absence of Authentication and Policy Server.")) ;;
  modify (set_status "success") ;;
  ret written.

(* lines 1526-1560 *)
Definition verify_diff_deleted (E : environment) (config : pyval)
  : pyval -> state -> outcome unit * pyval :=
  validating (verify_diff_deleted_body E config).

(** Some item of [items] has a true value on both sides, and the two
    differ. *)
Definition item_differs (hd wd : list (string * pyval)) (item : string) : bool :=
  py_truthy (dict_get item hd) && py_truthy (dict_get item wd)
  && negb (py_eqb (dict_get item hd) (dict_get item wd)).

Definition some_item_differs (hd wd : list (string * pyval)) (items : list string) : bool :=
  existsb (item_differs hd wd) items.

(** An entry that only names the RADIUS server. *)
Definition entry_address_only : list (string * pyval) :=
  [("server_ip_address", VStr "10.0.0.1")].

(** The details of the server in [self.have], as a list. *)
Definition details_of (s : state) : list (string * pyval) :=
  match field "details" (field "authenticationPolicyServer" (have s)) with
  | VDict hd => hd
  | _ => []
  end.

(** The state in which the verification of [entry] starts: the payload is
    in [self.want]. *)
Definition verified_state (entry : list (string * pyval)) : state :=
  wanted_state radius_server entry.

(** The read of the Cisco ISE servers in [check_ise_integration]. *)
Definition ise_servers_call : call :=
  mkCall "system_settings" "get_authentication_and_policy_servers"
         (VDict [("is_ise_enabled", VBool true)]).

(** The integration of the server [ipAddress] was checked and has passed:
    the last call before [s'] is the read of the Cisco ISE servers, and the
    response to it lists the server in a state that is neither "FAILED" nor
    "INPROGRESS". *)
Definition integration_passed (E : environment) (ipAddress : pyval) (s' : state) : Prop :=
  exists l response servers st,
    calls s' = (l ++ [ise_servers_call])%list
    /\ dnac_exec E l ise_servers_call = Ok response
    /\ py_get response "response" = Ok servers
    /\ is_none servers = false
    /\ py_get (get_dict_result E servers "ipAddress" ipAddress) "state" = Ok st
    /\ py_in_list st [VStr "FAILED"; VStr "INPROGRESS"] = false.

(** What [check_ise_integration] started in [s] may end with: it goes on
    with the status, [self.want] and the result as they were, and, when the
    server is a Cisco ISE server and the validation string is "operation
    sucessful", with the integration passed; or it returns with status
    "failed" and the result as it was; or it raises. *)
Definition ise_checked (E : environment) (ipAddress is_ise_server : pyval)
    (s : state) (o : outcome unit) : Prop :=
  match o with
  | Normal _ s' =>
      status s' = status s /\ want s' = want s
      /\ res_response s' = res_response s /\ res_msg s' = res_msg s
      /\ validation_string s' = validation_string s
      /\ (py_truthy is_ise_server
          && String.eqb (validation_string s) "operation sucessful" = true ->
          integration_passed E ipAddress s')
  | Returned s' =>
      status s' = "failed"
      /\ res_response s' = res_response s /\ res_msg s' = res_msg s
  | Raised _ _ => True
  | _ => False
  end.

(** A new Cisco ISE server, and a controller on which its integration
    fails: the task of the creation reports "Operation sucessful", and the
    server is then listed in the state FAILED. *)
Definition entry_new_ise : list (string * pyval) :=
  [("server_type", VStr "ISE"); ("server_ip_address", VStr "10.0.0.5");
   ("shared_secret", VStr "s3cret-key");
   ("cisco_ise_dtos",
    VList [VDict [("user_name", VStr "admin"); ("password", VStr "pa55word");
                  ("fqdn", VStr "ise.example.com"); ("ip_address", VStr "10.0.0.5")]])].

Definition ise_failed_record : pyval :=
  VDict [("instanceUuid", VStr "9f8e7d6c"); ("ipAddress", VStr "10.0.0.5");
         ("iseEnabled", VBool true); ("state", VStr "FAILED")].

Definition failing_ise_controller : environment :=
  mkEnv (fun _ c =>
           if String.eqb (c_function c) "get_authentication_and_policy_servers"
           then Ok (VDict [("response", VList [ise_failed_record])])
           else Ok task_response)
        py_eqb
        find_record
        (fun _ _ => VDict [("isError", VBool false);
                           ("progress", VStr "Operation sucessful")])
        (fun _ => 25%N)
        (fun _ _ _ => ("success", VStr "deleted", true)).

(** The run of [get_diff_merged] for the new Cisco ISE server. *)
Definition ise_creation : outcome unit :=
  get_diff_merged failing_ise_controller 1001 (playbook entry_new_ise)
                  (wanted_state no_server entry_new_ise).


(** At least one of protocol, retries and timeoutSeconds differs between the
    current details and the payload, per [dnac_compare_equality]. *)
Definition three_fields_differ (E : environment) (hd wd : list (string * pyval)) : bool :=
  negb (dnac_compare_equality E (dict_get "protocol" hd) (dict_get "protocol" wd))
  || negb (dnac_compare_equality E (dict_get "retries" hd) (dict_get "retries" wd))
  || negb (dnac_compare_equality E (dict_get "timeoutSeconds" hd)
                                   (dict_get "timeoutSeconds" wd)).





(** The id for which [accept_cisco_ise_server_certificate] submits the
    accept call, given what [auth_server_exists] came back with: the "id" of
    the server it returned, when the server and the id are true values. *)
Definition accepted_id (o : outcome pyval) : option pyval :=
  match o with
  | Normal server _ =>
      if py_truthy server && py_truthy (field "id" server)
      then Some (field "id" server) else None
  | _ => None
  end.

(** A controller on which the integration of the new Cisco ISE server
    passes: the server is then listed in the state ACTIVE. *)
Definition ise_active_record : pyval :=
  VDict [("instanceUuid", VStr "9f8e7d6c"); ("ipAddress", VStr "10.0.0.5");
         ("iseEnabled", VBool true); ("state", VStr "ACTIVE")].

Definition passing_ise_controller : environment :=
  mkEnv (fun _ c =>
           if String.eqb (c_function c) "get_authentication_and_policy_servers"
           then Ok (VDict [("response", VList [ise_active_record])])
           else Ok task_response)
        py_eqb
        find_record
        (fun _ _ => VDict [("isError", VBool false);
                           ("progress", VStr "Operation sucessful")])
        (fun _ => 25%N)
        (fun _ _ _ => ("success", VStr "deleted", true)).

Definition ise_creation_passed : outcome unit :=
  get_diff_merged passing_ise_controller 1001 (playbook entry_new_ise)
                  (wanted_state no_server entry_new_ise).

(** * Properties *)

(** ** Values and dictionaries *)

Example str_of_port : py_str (VInt 1812) = "1812".
Proof. reflexivity. Qed.

Example str_of_update_params :
  py_str (VList [VStr "authenticationPort"; VStr "accountingPort"; VStr "role"])
  = "['authenticationPort', 'accountingPort', 'role']".
Proof. reflexivity. Qed.

Example int_of_padded : py_int (VStr " 1_0 ") = Ok 10.
Proof. reflexivity. Qed.

Example int_of_word : py_int (VStr "three") = Err ValueError.
Proof. reflexivity. Qed.

Example true_equals_one : py_eqb (VBool true) (VInt 1) = true.
Proof. reflexivity. Qed.

Lemma py_eqb_refl (v : pyval) : py_eqb v v = true.
Proof.
  induction v using pyval_nested_ind; simpl.
  - reflexivity.
  - apply Bool.eqb_reflx.
  - apply Z.eqb_refl.
  - apply String.eqb_refl.
  - induction H as [|x l Hx Hl IH]; [reflexivity|].
    now rewrite Hx, IH.
  - rewrite Nat.eqb_refl. simpl.
    assert (G : forall d1, incl d1 d ->
              (fix go (d1 : list (string * pyval)) : bool :=
                 match d1 with
                 | [] => true
                 | (k, u) :: d1' =>
                     existsb (fun kw => String.eqb k (fst kw) && py_eqb u (snd kw)) d
                     && go d1'
                 end) d1 = true).
    { induction d1 as [|[k u] d1 IH]; intros Hin; [reflexivity|].
      rewrite IH by (intros x Hx; apply Hin; now right).
      rewrite Bool.andb_true_r. apply existsb_exists.
      exists (k, u). split; [apply Hin; now left|]. simpl.
      rewrite String.eqb_refl. simpl.
      rewrite Forall_forall in H. apply (H (k, u)). apply Hin. now left. }
    apply G. apply incl_refl.
Qed.

Lemma dict_get_set_same k v d : dict_get k (dict_set k v d) = v.
Proof.
  unfold dict_get, dict_set.
  induction d as [|[k' v'] d IH]; simpl.
  - now rewrite String.eqb_refl.
  - destruct (String.eqb k k') eqn:Hk; simpl; rewrite Hk; [reflexivity|exact IH].
Qed.

Lemma dict_get_set_other k k' v d :
  String.eqb k k' = false -> dict_get k (dict_set k' v d) = dict_get k d.
Proof.
  unfold dict_get, dict_set. intros Hk.
  induction d as [|[k0 v0] d IH]; simpl.
  - now rewrite Hk.
  - destruct (String.eqb k' k0) eqn:Hk0; simpl.
    + apply String.eqb_eq in Hk0. subst k0. now rewrite Hk.
    + destruct (String.eqb k k0); [reflexivity|exact IH].
Qed.

Lemma key_set_idempotent k v (d : list (pyval * pyval)) :
  assoc_set py_eqb k v (assoc_set py_eqb k v d) = assoc_set py_eqb k v d.
Proof.
  induction d as [|[k' v'] d IH]; simpl.
  - now rewrite py_eqb_refl.
  - destruct (py_eqb k k') eqn:Hk; simpl; rewrite Hk; [reflexivity|now rewrite IH].
Qed.

Lemma key_get_set_same k v (d : list (pyval * pyval)) :
  key_get k (assoc_set py_eqb k v d) = v.
Proof.
  unfold key_get.
  induction d as [|[k' v'] d IH]; simpl.
  - now rewrite py_eqb_refl.
  - destruct (py_eqb k k') eqn:Hk; simpl; rewrite Hk; [reflexivity|exact IH].
Qed.

(** ** Deleting a server that is not there *)

Lemma delete_auth_policy_server_absent
    (E : environment) (ipAddress : pyval) (s : state) (have_auth_server ex : pyval) :
  py_hashable ipAddress = true ->
  py_get (have s) "authenticationPolicyServer" = Ok have_auth_server ->
  py_get have_auth_server "exists" = Ok ex ->
  py_truthy ex = false ->
  exists s',
    delete_auth_policy_server E ipAddress s = Normal tt s'
    /\ calls s' = calls s
    /\ status s' = "success"
    /\ msg s' = VStr msg_not_found
    /\ changed s' = changed s
    /\ check_return_status s' = Normal tt s'
    /\ delete_auth_policy_server E ipAddress s' = Normal tt s'.
Proof.
  intros Hh Hhave Hex Hno.
  unfold delete_auth_policy_server, method, bind, read, lift, result_response_set,
    key_update, modify, return_self.
  rewrite Hhave, Hex, Hno, Hh. simpl.
  eexists. split; [reflexivity|].
  repeat split.
  simpl. rewrite Hhave, Hex, Hno. simpl.
  now rewrite key_set_idempotent.
Qed.

(** C10. When the current state reports that the server does not exist,
    [delete_auth_policy_server] submits no REST call, sets status "success"
    and the message "Authentication and Policy Server not found.", leaves
    [result['changed']] as it was, and the module goes on; running it again
    from the state it leaves changes nothing. *)
Theorem C10_delete_absent_server_is_noop
    (E : environment) (ipAddress : pyval) (s : state) (have_auth_server ex : pyval) :
  py_hashable ipAddress = true ->
  py_get (have s) "authenticationPolicyServer" = Ok have_auth_server ->
  py_get have_auth_server "exists" = Ok ex ->
  py_truthy ex = false ->
  exists s',
    delete_auth_policy_server E ipAddress s = Normal tt s'
    /\ calls s' = calls s
    /\ status s' = "success"
    /\ msg s' = VStr "Authentication and Policy Server not found."
    /\ changed s' = changed s
    /\ check_return_status s' = Normal tt s'
    /\ delete_auth_policy_server E ipAddress s' = Normal tt s'.
Proof. exact (delete_auth_policy_server_absent E ipAddress s have_auth_server ex). Qed.

(** ** format_payload_for_update *)

Lemma read_want_auth_server_is s wd :
  want_auth_server_is s wd -> read_want_auth_server s = Normal (VDict wd) s.
Proof.
  intros (w & Hw & Hd). unfold read_want_auth_server, bind, read, lift.
  rewrite Hw. simpl. now rewrite Hd.
Qed.

Lemma want_update_auth_server s wd wd' :
  want_auth_server_is s wd ->
  exists s', want_update "authenticationPolicyServer" (VDict wd') s = Normal tt s'
             /\ want_auth_server_is s' wd'
             /\ msg s' = msg s /\ status s' = status s /\ calls s' = calls s
             /\ have s' = have s.
Proof.
  intros (w & Hw & Hd). unfold want_update, bind, read, lift, modify. rewrite Hw. simpl.
  eexists. split; [reflexivity|]. repeat split.
  eexists. split; [reflexivity|]. apply dict_get_set_same.
Qed.

Lemma rejected_after_copy hd wd item v i :
  String.eqb i item = false ->
  rejected hd (dict_set item v wd) i = rejected hd wd i.
Proof. intros H. unfold rejected. now rewrite (dict_get_set_other _ _ _ _ H). Qed.


(** One iteration of the loop over [update_params]. *)
Lemma check_update_params_step item items hd s wd :
  want_auth_server_is s wd ->
  check_update_params (item :: items) (VDict hd) s =
    if omitted wd item then
      match want_update "authenticationPolicyServer"
                        (VDict (dict_set item (dict_get item hd) wd)) s with
      | Normal _ s1 => check_update_params items (VDict hd) s1
      | _ => Diverged s
      end
    else if rejected hd wd item then
      Returned (set_status "failed" (set_msg (VStr (modify_msg item)) s))
    else check_update_params items (VDict hd) s.
Proof.
  intros Hw. simpl. unfold bind at 1. unfold lift at 1. simpl.
  unfold bind at 1. rewrite (read_want_auth_server_is _ _ Hw).
  unfold bind at 1. unfold lift at 1. simpl.
  unfold rejected. fold (omitted wd item).
  destruct (omitted wd item) eqn:Hom; simpl.
  - unfold bind at 1. unfold lift at 1. simpl. unfold bind at 1.
    destruct (want_update_auth_server s wd (dict_set item (dict_get item hd) wd) Hw)
      as (s1 & Hs1 & _). now rewrite Hs1.
  - destruct (negb (py_eqb (dict_get item hd) (dict_get item wd))); reflexivity.
Qed.

(** The loop over [update_params] touches the payload at its items only,
    and nothing but the payload, [msg] and [status]. *)
Lemma check_update_params_frame items hd :
  forall s wd, want_auth_server_is s wd ->
    let o := check_update_params items (VDict hd) s in
    (exists wd', want_auth_server_is (final o) wd'
                 /\ forall k, ~ In k items -> dict_get k wd' = dict_get k wd)
    /\ calls (final o) = calls s /\ have (final o) = have s
    /\ (forall s', o = Normal tt s' -> msg s' = msg s /\ status s' = status s)
    /\ (exists s', o = Normal tt s' \/ o = Returned s').
Proof.
  induction items as [|item items IH]; intros s wd Hw; cbn zeta.
  - simpl. unfold ret. simpl. split; [exists wd; split; [exact Hw|reflexivity]|].
    split; [reflexivity|]. split; [reflexivity|]. split.
    + intros s' [= <-]. now split.
    + eexists; left; reflexivity.
  - rewrite (check_update_params_step _ _ _ _ _ Hw).
    destruct (omitted wd item) eqn:Hom.
    + destruct (want_update_auth_server s wd (dict_set item (dict_get item hd) wd) Hw)
        as (s1 & Hs1 & Hw1 & Hm1 & Hst1 & Hc1 & Hh1).
      rewrite Hs1.
      destruct (IH s1 _ Hw1) as ((wd' & Hwd' & Hk) & Hc & Hh & Hn & Hex).
      split.
      { exists wd'. split; [exact Hwd'|]. intros k Hnk.
        rewrite Hk by (intros Hin; apply Hnk; now right).
        apply dict_get_set_other. apply String.eqb_neq. intros ->. apply Hnk. now left. }
      split; [congruence|]. split; [congruence|]. split; [|exact Hex].
      intros s' Hs'. destruct (Hn s' Hs'). split; congruence.
    + destruct (rejected hd wd item) eqn:Hr.
      * simpl. split.
        { exists wd. split; [|reflexivity].
          destruct Hw as (w & Hw & Hd). exists w. split; assumption. }
        split; [reflexivity|]. split; [reflexivity|]. split; [discriminate|].
        eexists; right; reflexivity.
      * destruct (IH s wd Hw) as ((wd' & Hwd' & Hk) & Hc & Hh & Hn & Hex).
        split.
        { exists wd'. split; [exact Hwd'|]. intros k Hnk.
          apply Hk. intros Hin; apply Hnk; now right. }
        split; [exact Hc|]. split; [exact Hh|]. split; [exact Hn|exact Hex].
Qed.

Lemma want_auth_server_of_is s wd :
  want_auth_server_is s wd -> want_auth_server_of s = VDict wd.
Proof. intros (w & Hw & Hd). unfold want_auth_server_of. now rewrite Hw. Qed.


(** [format_payload_for_update] is the loop followed by the protocol check. *)
Lemma format_payload_for_update_eq hd s wd :
  want_auth_server_is s wd ->
  format_payload_for_update (VDict hd) s =
    match check_update_params update_params (VDict hd) s with
    | Normal _ s1 => Normal tt (protocol_checked hd s1)
    | Returned s' => Normal tt s'
    | o => o
    end.
Proof.
  intros Hw. unfold format_payload_for_update, method. unfold bind at 1.
  destruct (check_update_params_frame update_params hd s wd Hw)
    as ((wd' & Hwd' & _) & _ & _ & _ & (s' & [Hs'|Hs'])); rewrite Hs' in *; simpl in Hwd'.
  - unfold bind at 1. unfold lift at 1. simpl. unfold bind at 1.
    rewrite (read_want_auth_server_is _ _ Hwd').
    unfold bind at 1. unfold lift at 1. simpl.
    unfold protocol_checked. rewrite (want_auth_server_of_is _ _ Hwd'). simpl.
    destruct (negb (py_eqb (dict_get "protocol" hd) (dict_get "protocol" wd')) &&
              negb (py_eqb (dict_get "protocol" wd') (VStr "RADIUS_TACACS"))); reflexivity.
  - reflexivity.
Qed.

(** ** Frame rules of the monad *)

Section Frames.
Variable R : state -> state -> Prop.
Hypothesis R_refl : forall s, R s s.
Hypothesis R_trans : forall s1 s2 s3, R s1 s2 -> R s2 s3 -> R s1 s3.

Lemma frames_ret {A} (a : A) : frames R (ret a).
Proof. intros s. apply R_refl. Qed.

Lemma frames_lift {A} (r : result A) : frames R (lift r).
Proof. intros s. unfold lift. destruct r; apply R_refl. Qed.

Lemma frames_read {A} (f : state -> A) : frames R (read f).
Proof. intros s. apply R_refl. Qed.

Lemma frames_return_self {A} : frames R (@return_self A).
Proof. intros s. apply R_refl. Qed.

Lemma frames_modify (f : state -> state) :
  (forall s, R s (f s)) -> frames R (modify f).
Proof. intros H s. apply H. Qed.

Lemma frames_fail {A} (m : string) :
  (forall s, R s (set_status "failed" (set_msg (VStr m) s))) -> frames R (@fail A m).
Proof. intros H s. apply H. Qed.

Lemma frames_bind {A B} (c : M A) (k : A -> M B) :
  frames R c -> (forall a, frames R (k a)) -> frames R (bind c k).
Proof.
  intros Hc Hk s. unfold bind. specialize (Hc s).
  destruct (c s) as [a s'| | | |]; simpl in *; try exact Hc.
  eapply R_trans; [exact Hc|apply Hk].
Qed.

Lemma frames_method (c : M unit) : frames R c -> frames R (method c).
Proof.
  intros Hc s. unfold method. specialize (Hc s). now destruct (c s).
Qed.

Lemma frames_try_except (c h : M unit) :
  frames R c -> frames R h -> frames R (try_except c h).
Proof.
  intros Hc Hh s. unfold try_except. specialize (Hc s).
  destruct (c s) as [a s'| |e s'| |]; simpl in *; try exact Hc.
  eapply R_trans; [exact Hc|apply Hh].
Qed.
End Frames.

Ltac frame_step tac :=
  lazymatch goal with
  | |- frames _ (bind _ _) => apply frames_bind; [tac| |intros ?]
  | |- frames _ (ret _) => apply frames_ret; tac
  | |- frames _ (lift _) => apply frames_lift; tac
  | |- frames _ (read _) => apply frames_read; tac
  | |- frames _ return_self => apply frames_return_self; tac
  | |- frames _ (modify _) => apply frames_modify; intros; tac
  | |- frames _ (fail _) => apply frames_fail; intros; tac
  | |- frames _ (method _) => apply frames_method
  | |- frames _ (try_except _ _) => apply frames_try_except; [tac| |]
  | |- frames _ (if ?b then _ else _) => destruct b
  | |- frames _ (match ?x with _ => _ end) => destruct x
  | |- frames _ (let '(_, _) := ?x in _) => destruct x
  end.

(** ** Running a method body step by step *)

Lemma bind_lift_ok {A B} (a : A) (k : A -> M B) s : bind (lift (Ok a)) k s = k a s.
Proof. reflexivity. Qed.

Lemma bind_read {A B} (f : state -> A) (k : A -> M B) s : bind (read f) k s = k (f s) s.
Proof. reflexivity. Qed.

Lemma bind_modify {B} (f : state -> state) (k : unit -> M B) s :
  bind (modify f) k s = k tt (f s).
Proof. reflexivity. Qed.

Lemma bind_ret {A B} (a : A) (k : A -> M B) s : bind (ret a) k s = k a s.
Proof. reflexivity. Qed.

Lemma bind_normal {A B} (c : M A) (k : A -> M B) s a s' :
  c s = Normal a s' -> bind c k s = k a s'.
Proof. intros H. unfold bind. now rewrite H. Qed.

Ltac mstep :=
  first [ rewrite bind_lift_ok | rewrite bind_read | rewrite bind_modify
        | rewrite bind_ret ]; cbv beta.

(** ** Polling leaves the calls and the desired state alone *)

Lemma same_outside_poll_refl s : same_outside_poll s s.
Proof. now repeat split. Qed.

Lemma same_outside_poll_trans s1 s2 s3 :
  same_outside_poll s1 s2 -> same_outside_poll s2 s3 -> same_outside_poll s1 s3.
Proof.
  unfold same_outside_poll.
  intros (?&?&?&?&?&?) (?&?&?&?&?&?). repeat split; congruence.
Qed.

Ltac poll_side :=
  first [ exact same_outside_poll_refl
        | exact same_outside_poll_trans
        | now repeat split ].

Lemma scan_validation_strings_frame vs td :
  frames same_outside_poll (scan_validation_strings vs td).
Proof.
  induction vs as [|v vs IH]; simpl.
  - apply frames_ret, same_outside_poll_refl.
  - repeat frame_step poll_side. exact IH.
Qed.

Lemma poll_loop_frame (E : environment) n task_id start vs api :
  frames same_outside_poll (poll_loop E n task_id start vs api).
Proof.
  induction n as [|n IH]; simpl.
  - intros s. apply same_outside_poll_refl.
  - repeat frame_step poll_side;
      try apply scan_validation_strings_frame; try exact IH.
    + intros s. simpl. now repeat split.
    + intros s. simpl. now repeat split.
Qed.

Lemma check_auth_server_response_status_frame (E : environment) fuel response vs api :
  frames same_outside_poll (check_auth_server_response_status E fuel response vs api).
Proof.
  unfold check_auth_server_response_status.
  repeat frame_step poll_side. apply poll_loop_frame.
Qed.

(** ** The update path *)

Lemma frames_weaken (R R' : state -> state -> Prop) {A} (c : M A) :
  (forall s s', R s s' -> R' s s') -> frames R c -> frames R' c.
Proof. intros H Hc s. apply H, Hc. Qed.

Lemma same_calls_refl s : same_calls s s.
Proof. reflexivity. Qed.

Lemma same_calls_trans s1 s2 s3 :
  same_calls s1 s2 -> same_calls s2 s3 -> same_calls s1 s3.
Proof. unfold same_calls. congruence. Qed.

Ltac calls_side :=
  first [ exact same_calls_refl | exact same_calls_trans | reflexivity ].

Lemma check_auth_server_response_status_calls (E : environment) fuel response vs api :
  frames same_calls (check_auth_server_response_status E fuel response vs api).
Proof.
  eapply frames_weaken; [|apply check_auth_server_response_status_frame].
  now intros s s' (H & _).
Qed.

Lemma result_response_update_calls ip k v :
  frames same_calls (result_response_update ip k v).
Proof. unfold result_response_update. repeat frame_step calls_side. Qed.

Lemma result_response_set_calls ip v : frames same_calls (result_response_set ip v).
Proof.
  unfold result_response_set, key_update. repeat frame_step calls_side.
Qed.

Lemma result_msg_set_calls ip m : frames same_calls (result_msg_set ip m).
Proof.
  unfold result_msg_set, key_update. repeat frame_step calls_side.
Qed.

Lemma requires_update_eq (E : environment) hd wd :
  requires_update E (VDict hd) (VDict wd) authentication_policy_server_obj_params
  = Ok (allow_listed_field_differs E hd wd).
Proof.
  unfold allow_listed_field_differs. simpl.
  destruct (dnac_compare_equality E (dict_get "protocol" hd) (dict_get "protocol" wd));
    simpl; [|reflexivity].
  destruct (dnac_compare_equality E (dict_get "retries" hd) (dict_get "retries" wd));
    simpl; [|reflexivity].
  now destruct (dnac_compare_equality E (dict_get "timeoutSeconds" hd)
                                        (dict_get "timeoutSeconds" wd)).
Qed.

(** The edit call is submitted, and it is the only call of the block. *)
Lemma edit_server_calls (E : environment) fuel ip have_auth_server wd s :
  is_dict have_auth_server = true ->
  calls (final (edit_server E fuel ip have_auth_server (VDict wd) s))
  = (calls s ++ [edit_call have_auth_server wd])%list.
Proof.
  intros Hd. destruct have_auth_server as [| | | | |hd]; try discriminate.
  unfold edit_server. unfold bind at 1. unfold lift at 1. simpl.
  unfold bind at 1. unfold lift at 1. simpl.
  unfold bind at 1. unfold exec at 1.
  match goal with
  | |- context [dnac_exec E ?a ?b] => destruct (dnac_exec E a b) as [r|e]
  end; [|reflexivity].
  match goal with
  | |- calls (final (?k ?x ?s1)) = _ =>
      assert (F : frames same_calls (k x)); [|exact (F s1)]
  end.
  cbv beta.
  repeat frame_step calls_side;
    first [ apply check_auth_server_response_status_calls
          | apply result_response_update_calls
          | apply result_msg_set_calls ].
Qed.

Lemma same_results_refl s : same_results s s.
Proof. now repeat split. Qed.

Lemma same_results_trans s1 s2 s3 :
  same_results s1 s2 -> same_results s2 s3 -> same_results s1 s3.
Proof.
  unfold same_results.
  intros (?&?&?&?&?&?&?&?&?) (?&?&?&?&?&?&?&?&?). repeat split; congruence.
Qed.

Lemma want_update_auth_server_results s wd wd' :
  want_auth_server_is s wd ->
  exists s', want_update "authenticationPolicyServer" (VDict wd') s = Normal tt s'
             /\ want_auth_server_is s' wd'
             /\ msg s' = msg s /\ status s' = status s /\ same_results s s'.
Proof.
  intros (w & Hw & Hd). unfold want_update, bind, read, lift, modify. rewrite Hw. simpl.
  eexists. split; [reflexivity|]. split; [|now repeat split].
  eexists. split; [reflexivity|]. apply dict_get_set_same.
Qed.

Lemma none_rejected_after_copy hd wd item v items :
  ~ In item items ->
  none_rejected hd (dict_set item v wd) items = none_rejected hd wd items.
Proof.
  intros Hn. unfold none_rejected.
  induction items as [|i items IH]; [reflexivity|]. simpl.
  rewrite IH by (intros Hi; apply Hn; now right).
  rewrite rejected_after_copy; [reflexivity|].
  apply String.eqb_neq. intros ->. apply Hn. now left.
Qed.

(** The whole loop over [update_params]: it goes through exactly when no
    item is rejected, and then the payload is [fold_left (fill_item hd)]. *)
Lemma check_update_params_result hd :
  forall items s wd,
    NoDup items -> want_auth_server_is s wd ->
    exists s',
      same_results s s'
      /\ if none_rejected hd wd items then
           check_update_params items (VDict hd) s = Normal tt s'
           /\ want_auth_server_is s' (fold_left (fill_item hd) items wd)
           /\ msg s' = msg s /\ status s' = status s
         else
           check_update_params items (VDict hd) s = Returned s'
           /\ status s' = "failed".
Proof.
  induction items as [|item items IH]; intros s wd Hnd Hw.
  - exists s. split; [apply same_results_refl|]. simpl. now repeat split.
  - rewrite (check_update_params_step _ _ _ _ _ Hw).
    inversion Hnd as [|? ? Hni Hnd']; subst.
    simpl none_rejected. simpl fold_left. unfold fill_item at 2.
    destruct (omitted wd item) eqn:Hom.
    + assert (Hr : rejected hd wd item = false).
      { unfold rejected. fold (omitted wd item). now rewrite Hom. }
      rewrite Hr. simpl.
      destruct (want_update_auth_server_results s wd
                  (dict_set item (dict_get item hd) wd) Hw)
        as (s1 & Hs1 & Hw1 & Hm1 & Hst1 & Hsr1).
      rewrite Hs1.
      destruct (IH s1 _ Hnd' Hw1) as (s' & Hsr & Hres).
      exists s'. split; [eapply same_results_trans; eassumption|].
      rewrite none_rejected_after_copy in Hres by assumption.
      destruct (none_rejected hd wd items).
      * destruct Hres as (? & ? & ? & ?). repeat split; congruence.
      * exact Hres.
    + destruct (rejected hd wd item) eqn:Hr; simpl.
      * eexists. split; [|split; reflexivity]. now repeat split.
      * apply (IH s wd Hnd' Hw).
Qed.

Lemma update_params_nodup : NoDup update_params.
Proof.
  unfold update_params.
  repeat constructor; simpl; intuition discriminate.
Qed.

Lemma fill_item_other hd wd item k :
  String.eqb k item = false -> dict_get k (fill_item hd wd item) = dict_get k wd.
Proof.
  intros H. unfold fill_item. destruct (omitted wd item); [|reflexivity].
  now apply dict_get_set_other.
Qed.

(** The loop leaves the fields outside [update_params] alone. *)
Lemma filled_other hd wd k :
  ~ In k update_params -> dict_get k (filled hd wd) = dict_get k wd.
Proof.
  intros Hn. unfold filled, update_params in *. simpl.
  rewrite !fill_item_other; [reflexivity| | |];
    apply String.eqb_neq; intros ->; apply Hn; simpl; auto.
Qed.

(** [format_payload_for_update] on a payload [wd]. *)
Lemma format_payload_for_update_result hd s wd :
  want_auth_server_is s wd ->
  exists s',
    format_payload_for_update (VDict hd) s = Normal tt s'
    /\ same_results s s'
    /\ if format_accepts hd wd then
         status s' = "success" /\ want_auth_server_is s' (filled hd wd)
       else status s' = "failed".
Proof.
  intros Hw. rewrite (format_payload_for_update_eq _ _ _ Hw).
  destruct (check_update_params_result hd update_params s wd update_params_nodup Hw)
    as (s1 & Hsr & Hres).
  unfold format_accepts.
  destruct (none_rejected hd wd update_params).
  - destruct Hres as (-> & Hw1 & _ & _). fold (filled hd wd) in Hw1.
    exists (protocol_checked hd s1). split; [reflexivity|].
    unfold protocol_checked, protocol_accepted.
    rewrite (want_auth_server_of_is _ _ Hw1). simpl field.
    rewrite (filled_other hd wd "protocol")
      by (unfold update_params; simpl; intuition discriminate).
    destruct (negb (py_eqb (dict_get "protocol" hd) (dict_get "protocol" wd)) &&
              negb (py_eqb (dict_get "protocol" wd) (VStr "RADIUS_TACACS"))); simpl.
    + split; [|reflexivity].
      eapply same_results_trans; [exact Hsr|]. now repeat split.
    + split; [eapply same_results_trans; [exact Hsr|]; now repeat split|].
      split; [reflexivity|].
      destruct Hw1 as (w & Hw1 & Hd). exists w. now split.
  - destruct Hres as (-> & Hst). exists s1. simpl.
    split; [reflexivity|]. split; [exact Hsr|exact Hst].
Qed.

Lemma final_method (c : M unit) s : final (method c s) = final (c s).
Proof. unfold method. now destruct (c s). Qed.

Lemma new_calls_app s s' l :
  calls s' = (calls s ++ l)%list -> new_calls s s' = l.
Proof.
  intros H. unfold new_calls. rewrite H.
  rewrite skipn_app, skipn_all, Nat.sub_diag. reflexivity.
Qed.

Lemma new_calls_same s s' : calls s' = calls s -> new_calls s s' = [].
Proof.
  intros H. apply new_calls_app. now rewrite app_nil_r.
Qed.

Lemma allow_listed_field_differs_filled (E : environment) hd wd :
  allow_listed_field_differs E hd (filled hd wd) = allow_listed_field_differs E hd wd.
Proof.
  unfold allow_listed_field_differs. simpl.
  rewrite !filled_other; [reflexivity| | |];
    unfold update_params; simpl; intuition discriminate.
Qed.

Lemma get_diff_merged_eq (E : environment) fuel config ip s :
  config_server config ip ->
  get_diff_merged E fuel config s = method (update_auth_policy_server E fuel ip) s.
Proof.
  intros (aps & Ha & Hn & Hip).
  unfold get_diff_merged. unfold method. unfold bind at 1. unfold lift at 1.
  rewrite Ha, Hn. simpl. unfold bind at 1. unfold lift at 1. now rewrite Hip.
Qed.

Lemma update_auth_policy_server_existing (E : environment) fuel ip s have_auth_server hd wd :
  py_hashable ip = true ->
  want_auth_server_is s wd ->
  server_exists s have_auth_server hd ->
  update_auth_policy_server E fuel ip s
  = method (update_server E fuel ip have_auth_server) (after_result_reset ip s).
Proof.
  intros Hh Hw (Hhave & (ex & Hex & Ht) & Hd).
  unfold update_auth_policy_server, method.
  unfold bind at 1. unfold result_response_set, key_update.
  unfold bind at 1. unfold read at 1. rewrite Hh.
  unfold bind at 1. unfold lift at 1. unfold modify at 1.
  fold (after_result_reset ip s).
  assert (Hw' : want_auth_server_is (after_result_reset ip s) wd) by exact Hw.
  unfold bind at 1. rewrite (read_want_auth_server_is _ _ Hw').
  unfold bind at 1. unfold lift at 1. simpl py_get. cbv iota beta.
  unfold bind at 1. unfold read at 1.
  unfold bind at 1. unfold lift at 1.
  change (have (after_result_reset ip s)) with (have s). rewrite Hhave.
  unfold bind at 1. unfold lift at 1. rewrite Hex, Ht. reflexivity.
Qed.

(** The update of an existing server, once the payload is formatted. *)
Lemma update_server_run (E : environment) fuel ip have_auth_server hd s wd :
  want_auth_server_is s wd ->
  py_get have_auth_server "details" = Ok (VDict hd) ->
  exists s2,
    same_results s s2
    /\ if format_accepts hd wd then
         update_server E fuel ip have_auth_server s =
           (if py_truthy (dict_get "isIseEnabled" hd)
               || allow_listed_field_differs E hd wd
            then edit_server E fuel ip have_auth_server (VDict (filled hd wd)) s2
            else no_update_needed ip have_auth_server (VDict hd) s2)
       else update_server E fuel ip have_auth_server s = Exited s2.
Proof.
  intros Hw Hd.
  destruct (format_payload_for_update_result hd s wd Hw) as (s2 & Hf & Hsr & Hres).
  exists s2. split; [exact Hsr|].
  destruct (format_accepts hd wd);
    unfold update_server; unfold bind at 1; unfold lift at 1; rewrite Hd;
    unfold bind at 1; rewrite Hf;
    unfold bind at 1; unfold check_return_status at 1.
  - destruct Hres as (Hst & Hw2). rewrite Hst. simpl String.eqb. cbv iota.
    unfold bind at 1. rewrite (read_want_auth_server_is _ _ Hw2).
    unfold bind at 1. unfold update_needed.
    unfold bind at 1. unfold lift at 1. simpl py_get. cbv iota beta.
    destruct (py_truthy (dict_get "isIseEnabled" hd)); simpl orb.
    + reflexivity.
    + unfold lift at 1. rewrite requires_update_eq, allow_listed_field_differs_filled.
      now destruct (allow_listed_field_differs E hd wd).
  - now rewrite Hres.
Qed.

Lemma no_update_needed_run ip have_auth_server details s d :
  py_hashable ip = true ->
  is_dict have_auth_server = true ->
  key_get ip (res_response s) = VDict d ->
  exists s',
    no_update_needed ip have_auth_server details s = Returned s'
    /\ calls s' = calls s
    /\ res_msg s' = assoc_set py_eqb ip (VStr msg_no_update) (res_msg s).
Proof.
  intros Hh Hd He. destruct have_auth_server as [| | | | |hd]; try discriminate.
  unfold no_update_needed, result_response_update, result_msg_set, key_update.
  unfold bind, read, lift, modify, return_self. rewrite Hh, He. simpl.
  rewrite key_get_set_same. simpl.
  eexists. split; [reflexivity|]. now split.
Qed.

Lemma msg_untouched_or_refl ip m s : msg_untouched_or ip m s s.
Proof. now left. Qed.

Lemma msg_untouched_or_trans ip m s1 s2 s3 :
  msg_untouched_or ip m s1 s2 -> msg_untouched_or ip m s2 s3 ->
  msg_untouched_or ip m s1 s3.
Proof.
  unfold msg_untouched_or. intros [H1|H1] [H2|H2]; rewrite H2, H1; auto.
  right. apply key_set_idempotent.
Qed.

Lemma result_msg_set_res_msg ip m : frames (msg_untouched_or ip m) (result_msg_set ip m).
Proof.
  intros s. unfold result_msg_set, key_update, bind, read, lift, modify.
  destruct (py_hashable ip); simpl; [now right|now left].
Qed.

Lemma result_response_update_res_msg ip m k v :
  frames (msg_untouched_or ip m) (result_response_update ip k v).
Proof.
  intros s. unfold result_response_update, bind, read, lift, modify.
  destruct (py_hashable ip); simpl; [|now left].
  destruct (py_update (key_get ip (res_response s)) k v); now left.
Qed.

Lemma edit_server_res_msg (E : environment) fuel ip have_auth_server want_auth_server :
  frames (msg_untouched_or ip msg_updated)
         (edit_server E fuel ip have_auth_server want_auth_server).
Proof.
  pose proof (msg_untouched_or_refl ip msg_updated) as Hr.
  pose proof (msg_untouched_or_trans ip msg_updated) as Ht.
  unfold edit_server.
  repeat frame_step ltac:(first [exact Hr | exact Ht]).
  - intros s. unfold exec.
    match goal with
    | |- context [dnac_exec E ?a ?b] => destruct (dnac_exec E a b)
    end; now left.
  - eapply frames_weaken; [|apply check_auth_server_response_status_frame].
    intros s s' (_ & _ & _ & _ & H & _). now left.
  - apply result_response_update_res_msg.
  - apply result_msg_set_res_msg.
Qed.

(** C9. For an existing server whose current details have a true
    isIseEnabled, and a payload that [format_payload_for_update] accepts,
    [get_diff_merged] submits the edit call, and no other call, whatever
    [dnac_compare_equality] says about the allow-listed fields; the entry of
    the server in the result messages is then left as it was or becomes
    "Authentication and Policy Server Updated Successfully", so the "doesn't
    require an update" outcome is not taken. *)
Theorem C9_ise_server_always_edited
    (E : environment) (fuel : nat) (config ipAddress have_auth_server : pyval)
    (hd wd : list (string * pyval)) (s : state) :
  config_server config ipAddress ->
  py_hashable ipAddress = true ->
  want_auth_server_is s wd ->
  server_exists s have_auth_server hd ->
  py_truthy (dict_get "isIseEnabled" hd) = true ->
  format_accepts hd wd = true ->
  let s' := final (get_diff_merged E fuel config s) in
  calls s' = (calls s ++ [edit_call have_auth_server (filled hd wd)])%list
  /\ invoked edit_function s s' = true
  /\ msg_untouched_or ipAddress msg_updated s s'.
Proof.
  intros Hc Hh Hw Hex Hise Hacc s'. subst s'.
  rewrite (get_diff_merged_eq _ _ _ _ _ Hc), final_method.
  rewrite (update_auth_policy_server_existing _ _ _ _ _ _ _ Hh Hw Hex), final_method.
  destruct Hex as (Hhave & _ & Hd).
  assert (Hdict : is_dict have_auth_server = true).
  { destruct have_auth_server; try discriminate. reflexivity. }
  destruct (update_server_run E fuel ipAddress have_auth_server hd
              (after_result_reset ipAddress s) wd Hw Hd) as (s2 & Hsr & Hrun).
  rewrite Hacc, Hise in Hrun. simpl orb in Hrun. cbv iota in Hrun. rewrite Hrun.
  destruct Hsr as (Hcalls & _ & _ & _ & Hmsg & _).
  assert (Hedit : calls (final (edit_server E fuel ipAddress have_auth_server
                                   (VDict (filled hd wd)) s2))
                  = (calls s ++ [edit_call have_auth_server (filled hd wd)])%list).
  { rewrite edit_server_calls by exact Hdict. now rewrite Hcalls. }
  split; [exact Hedit|]. split.
  - unfold invoked. rewrite (new_calls_app _ _ _ Hedit). reflexivity.
  - pose proof (edit_server_res_msg E fuel ipAddress have_auth_server
                  (VDict (filled hd wd)) s2) as Hm.
    unfold msg_untouched_or in *. simpl in Hmsg. rewrite Hmsg in Hm. exact Hm.
Qed.

Lemma three_fields_differ_eq (E : environment) hd wd :
  allow_listed_field_differs E hd wd = three_fields_differ E hd wd.
Proof.
  unfold allow_listed_field_differs, three_fields_differ,
    authentication_policy_server_obj_params.
  cbn [get_obj_params String.eqb Ascii.eqb Bool.eqb existsb fst snd].
  now rewrite Bool.orb_false_r, Bool.orb_assoc.
Qed.

(** The update of an existing server when [format_payload_for_update]
    rejects the payload: the module run ends. *)
Lemma update_server_rejected (E : environment) fuel ip have_auth_server hd s wd :
  want_auth_server_is s wd ->
  py_get have_auth_server "details" = Ok (VDict hd) ->
  format_accepts hd wd = false ->
  exists s2,
    same_results s s2 /\ status s2 = "failed"
    /\ update_server E fuel ip have_auth_server s = Exited s2.
Proof.
  intros Hw Hd Hacc.
  destruct (format_payload_for_update_result hd s wd Hw) as (s2 & Hf & Hsr & Hres).
  rewrite Hacc in Hres.
  exists s2. split; [exact Hsr|]. split; [exact Hres|].
  unfold update_server. unfold bind at 1. unfold lift at 1. rewrite Hd.
  unfold bind at 1. rewrite Hf.
  unfold bind at 1. unfold check_return_status at 1. now rewrite Hres.
Qed.

(** C1, amended.  For an existing server whose current details have a false
    isIseEnabled: when [format_payload_for_update] accepts the payload,
    [get_diff_merged] invokes the edit call
    (edit_authentication_and_policy_server_access_configuration) if and only
    if at least one of protocol, retries, timeoutSeconds differs between the
    current details and the payload per [dnac_compare_equality]; when none
    differs no call is made and the message of the server in the result is
    "Authentication and Policy Server doesn't require an update".  When
    [format_payload_for_update] rejects the payload, the module run ends with
    status "failed" before any call. *)
Theorem C1_edit_iff_allow_listed_field_differs
    (E : environment) (fuel : nat) (config ipAddress have_auth_server : pyval)
    (hd wd : list (string * pyval)) (s : state) :
  config_server config ipAddress ->
  py_hashable ipAddress = true ->
  want_auth_server_is s wd ->
  server_exists s have_auth_server hd ->
  py_truthy (dict_get "isIseEnabled" hd) = false ->
  let s' := final (get_diff_merged E fuel config s) in
  (format_accepts hd wd = true ->
     invoked "edit_authentication_and_policy_server_access_configuration" s s'
     = three_fields_differ E hd wd
     /\ (three_fields_differ E hd wd = true ->
           calls s'
           = (calls s
              ++ [mkCall "system_settings"
                         "edit_authentication_and_policy_server_access_configuration"
                         (VDict (dict_set "id" (field "id" have_auth_server)
                                          (filled hd wd)))])%list)
     /\ (three_fields_differ E hd wd = false ->
           calls s' = calls s
           /\ key_get ipAddress (res_msg s')
              = VStr "Authentication and Policy Server doesn't require an update"))
  /\ (format_accepts hd wd = false ->
        get_diff_merged E fuel config s = Exited s'
        /\ status s' = "failed"
        /\ calls s' = calls s).
Proof.
  intros Hc Hh Hw Hex Hise s'.
  assert (Hrun0 : get_diff_merged E fuel config s
                  = method (method (update_server E fuel ipAddress have_auth_server))
                      (after_result_reset ipAddress s)).
  { rewrite (get_diff_merged_eq _ _ _ _ _ Hc). unfold method at 1.
    now rewrite (update_auth_policy_server_existing _ _ _ _ _ _ _ Hh Hw Hex). }
  subst s'. rewrite Hrun0. clear Hrun0.
  destruct Hex as (Hhave & _ & Hd).
  assert (Hdict : is_dict have_auth_server = true).
  { destruct have_auth_server; try discriminate. reflexivity. }
  split.
  - intros Hacc. rewrite !final_method. rewrite <- three_fields_differ_eq.
    destruct (update_server_run E fuel ipAddress have_auth_server hd
                (after_result_reset ipAddress s) wd Hw Hd) as (s2 & Hsr & Hrun).
    rewrite Hacc, Hise in Hrun. simpl orb in Hrun. rewrite Hrun.
    destruct Hsr as (Hcalls & _ & _ & Hresp & Hmsg & _).
    destruct (allow_listed_field_differs E hd wd).
    + assert (Hedit : calls (final (edit_server E fuel ipAddress have_auth_server
                                       (VDict (filled hd wd)) s2))
                      = (calls s ++ [edit_call have_auth_server (filled hd wd)])%list).
      { rewrite edit_server_calls by exact Hdict. now rewrite Hcalls. }
      split; [|split; [intros _; exact Hedit|discriminate]].
      change "edit_authentication_and_policy_server_access_configuration"
        with edit_function.
      unfold invoked. rewrite (new_calls_app _ _ _ Hedit). reflexivity.
    + destruct (no_update_needed_run ipAddress have_auth_server (VDict hd) s2 []
                  Hh Hdict) as (s3 & Hs3 & Hc3 & Hm3).
      { rewrite Hresp. simpl. apply key_get_set_same. }
      rewrite Hs3. simpl final.
      assert (Hsame : calls s3 = calls s) by (now rewrite Hc3, Hcalls).
      split; [|split; [discriminate|intros _; split; [exact Hsame|]]].
      * unfold invoked. now rewrite (new_calls_same _ _ Hsame).
      * rewrite Hm3. apply key_get_set_same.
  - intros Hrej.
    destruct (update_server_rejected E fuel ipAddress have_auth_server hd
                (after_result_reset ipAddress s) wd Hw Hd Hrej)
      as (s2 & Hsr & Hst & Hrun).
    unfold method. rewrite Hrun. simpl final.
    split; [reflexivity|]. split; [exact Hst|].
    destruct Hsr as (Hcalls & _). exact Hcalls.
Qed.


(** ** One mutating call per config element *)

Lemma other_calls_only_refl s : other_calls_only s s.
Proof. exists []. split; [now rewrite app_nil_r|reflexivity]. Qed.

Lemma filter_app_nil {A} (f : A -> bool) (l1 l2 : list A) :
  filter f l1 = [] -> filter f l2 = [] -> filter f (l1 ++ l2) = [].
Proof.
  intros H1 H2. induction l1 as [|x l1 IH]; simpl in *; [exact H2|].
  destruct (f x); [discriminate|]. now apply IH.
Qed.

Lemma other_calls_only_trans s1 s2 s3 :
  other_calls_only s1 s2 -> other_calls_only s2 s3 -> other_calls_only s1 s3.
Proof.
  intros (l1 & H1 & F1) (l2 & H2 & F2). exists (l1 ++ l2)%list. split.
  - now rewrite H2, H1, app_assoc.
  - now apply filter_app_nil.
Qed.

Lemma same_calls_other_calls_only s s' : same_calls s s' -> other_calls_only s s'.
Proof. intros H. exists []. split; [now rewrite app_nil_r|reflexivity]. Qed.

Ltac other_side :=
  first [ exact other_calls_only_refl
        | exact other_calls_only_trans
        | apply same_calls_other_calls_only; reflexivity ].

Lemma exec_other_calls_only (E : environment) family function params :
  is_mutating (mkCall family function params) = false ->
  frames other_calls_only (exec E family function params).
Proof.
  intros Hm s. unfold exec.
  destruct (dnac_exec E (calls s) (mkCall family function params)); simpl;
    exists [mkCall family function params]; (split; [reflexivity|]);
    simpl; now rewrite Hm.
Qed.

Lemma auth_server_exists_other_calls (E : environment) ip :
  frames other_calls_only (auth_server_exists E ip).
Proof.
  unfold auth_server_exists.
  repeat frame_step other_side.
  now apply exec_other_calls_only.
Qed.

Lemma accept_certificate_other_calls (E : environment) ip trusted :
  frames other_calls_only (accept_cisco_ise_server_certificate E ip trusted).
Proof.
  unfold accept_cisco_ise_server_certificate, log_str_critical.
  repeat frame_step other_side;
    first [ apply auth_server_exists_other_calls
          | now apply exec_other_calls_only ].
Qed.

Lemma check_ise_integration_other_calls (E : environment) ip is_ise :
  frames other_calls_only (check_ise_integration E ip is_ise).
Proof.
  unfold check_ise_integration, py_sleep.
  repeat frame_step other_side;
    first [ apply accept_certificate_other_calls
          | now apply exec_other_calls_only ].
Qed.

Lemma frames_check_return_status (R : state -> state -> Prop) :
  (forall s, R s s) -> frames R check_return_status.
Proof.
  intros H s. unfold check_return_status. destruct (String.eqb (status s) "failed"); apply H.
Qed.

(** The create call is submitted; what follows it adds none of the three. *)
Lemma create_server_calls (E : environment) fuel ip is_ise s wd :
  want_auth_server_is s wd ->
  exists l, calls (final (create_server E fuel ip is_ise s))
            = (calls s ++ add_call wd :: l)%list
            /\ filter is_mutating l = [].
Proof.
  intros Hw. unfold create_server.
  unfold bind at 1. rewrite (read_want_auth_server_is _ _ Hw).
  unfold bind at 1. unfold exec at 1. fold (add_call wd).
  assert (F : forall response,
             frames other_calls_only
               (check_auth_server_response_status E fuel response
                  ["successfully created aaa settings"; "operation sucessful"]
                  add_function ;;
                st <- read status ;;
                if String.eqb st "failed" then return_self
                else
                  check_ise_integration E ip is_ise ;;
                  details <- read_want_auth_server ;;
                  result_response_update ip "authenticationPolicyServer Details" details ;;
                  result_msg_set ip msg_created ;;
                  (return_self : M unit))).
  { intros response. unfold read_want_auth_server.
    repeat frame_step other_side.
    - eapply frames_weaken; [|apply check_auth_server_response_status_calls].
      apply same_calls_other_calls_only.
    - apply check_ise_integration_other_calls.
    - eapply frames_weaken; [|apply result_response_update_calls].
      apply same_calls_other_calls_only.
    - eapply frames_weaken; [|apply result_msg_set_calls].
      apply same_calls_other_calls_only. }
  destruct (dnac_exec E (calls s) (add_call wd)) as [r|e].
  - destruct (F r (set_calls (calls s ++ [add_call wd]) s)) as (l & Hl & Hf).
    exists l. split; [|exact Hf].
    cbv beta. rewrite Hl. simpl calls. now rewrite <- app_assoc.
  - exists []. split; reflexivity.
Qed.

Lemma update_auth_policy_server_absent (E : environment) fuel ip s wd :
  py_hashable ip = true ->
  want_auth_server_is s wd ->
  server_absent s ->
  update_auth_policy_server E fuel ip s
  = method (create_server E fuel ip (dict_get "isIseEnabled" wd)) (after_result_reset ip s).
Proof.
  intros Hh Hw (haps & ex & Hhave & Hex & Ht).
  unfold update_auth_policy_server, method.
  unfold bind at 1. unfold result_response_set, key_update.
  unfold bind at 1. unfold read at 1. rewrite Hh.
  unfold bind at 1. unfold lift at 1. unfold modify at 1.
  fold (after_result_reset ip s).
  assert (Hw' : want_auth_server_is (after_result_reset ip s) wd) by exact Hw.
  unfold bind at 1. rewrite (read_want_auth_server_is _ _ Hw').
  unfold bind at 1. unfold lift at 1. simpl py_get. cbv iota beta.
  unfold bind at 1. unfold read at 1.
  unfold bind at 1. unfold lift at 1.
  change (have (after_result_reset ip s)) with (have s). rewrite Hhave.
  unfold bind at 1. unfold lift at 1. rewrite Hex, Ht. reflexivity.
Qed.

(** The delete call is submitted, and it is the only call. *)
Lemma delete_auth_policy_server_calls (E : environment) ip s have_auth_server hd :
  server_exists s have_auth_server hd ->
  calls (final (delete_auth_policy_server E ip s))
  = (calls s ++ [delete_call have_auth_server])%list.
Proof.
  intros (Hhave & (ex & Hex & Ht) & Hd).
  assert (Hdict : exists d, have_auth_server = VDict d).
  { destruct have_auth_server; try discriminate. eexists; reflexivity. }
  destruct Hdict as (d & ->).
  unfold delete_auth_policy_server. rewrite final_method.
  mstep. rewrite Hhave. mstep. rewrite Hex. mstep. rewrite Ht.
  change (negb true) with false. cbv iota.
  change (py_get (VDict d) "id") with (Ok (dict_get "id" d)). mstep.
  unfold bind at 1. unfold exec at 1.
  change (mkCall "system_settings" delete_function (VDict [("id", dict_get "id" d)]))
    with (delete_call (VDict d)).
  destruct (dnac_exec E (calls s) (delete_call (VDict d))) as [r|e]; [|reflexivity].
  match goal with
  | |- calls (final (?k ?x ?s1)) = _ =>
      assert (F : frames same_calls (k x)); [|exact (F s1)]
  end.
  cbv beta.
  repeat frame_step calls_side;
    first [ apply frames_check_return_status; exact same_calls_refl
          | apply result_response_update_calls
          | apply result_response_set_calls
          | apply result_msg_set_calls ].
Qed.

Lemma mutating_calls_app s s' l :
  calls s' = (calls s ++ l)%list -> mutating_calls s s' = filter is_mutating l.
Proof. intros H. unfold mutating_calls. now rewrite (new_calls_app _ _ _ H). Qed.

Lemma calls_then_check_return_status (c : M unit) s :
  calls (final ((c ;; check_return_status) s)) = calls (final (c s)).
Proof.
  unfold bind. destruct (c s) as [a s'| | | |]; try reflexivity.
  unfold check_return_status. now destruct (String.eqb (status s') "failed").
Qed.

Lemma get_diff_deleted_eq (E : environment) config ip s :
  config_server config ip ->
  get_diff_deleted E config s
  = method (delete_auth_policy_server E ip ;; check_return_status) s.
Proof.
  intros (aps & Ha & Hn & Hip).
  unfold get_diff_deleted. unfold method.
  rewrite (bind_normal _ _ s aps s) by (unfold lift; now rewrite Ha).
  rewrite Hn. change (negb false) with true. cbv iota.
  rewrite (bind_normal _ _ s ip s) by (unfold lift; now rewrite Hip).
  reflexivity.
Qed.

(** The calls of the update of an existing server. *)
Lemma update_existing_calls (E : environment) fuel ip s have_auth_server hd wd :
  py_hashable ip = true ->
  want_auth_server_is s wd ->
  server_exists s have_auth_server hd ->
  calls (final (update_auth_policy_server E fuel ip s))
  = (calls s ++ if edit_submitted E hd wd
                then [edit_call have_auth_server (filled hd wd)] else [])%list.
Proof.
  intros Hh Hw Hex.
  rewrite (update_auth_policy_server_existing _ _ _ _ _ _ _ Hh Hw Hex), final_method.
  destruct Hex as (Hhave & _ & Hd).
  assert (Hdict : is_dict have_auth_server = true).
  { destruct have_auth_server; try discriminate. reflexivity. }
  destruct (update_server_run E fuel ip have_auth_server hd
              (after_result_reset ip s) wd Hw Hd) as (s2 & Hsr & Hrun).
  destruct Hsr as (Hcalls & _ & _ & Hresp & _).
  unfold edit_submitted.
  destruct (format_accepts hd wd); rewrite Hrun; simpl andb.
  - destruct (py_truthy (dict_get "isIseEnabled" hd) || allow_listed_field_differs E hd wd).
    + rewrite edit_server_calls by exact Hdict. now rewrite Hcalls.
    + destruct (no_update_needed_run ip have_auth_server (VDict hd) s2 []
                  Hh Hdict) as (s3 & Hs3 & Hc3 & _).
      { rewrite Hresp. simpl. apply key_get_set_same. }
      rewrite Hs3. simpl final. rewrite Hc3, Hcalls. simpl. now rewrite app_nil_r.
  - simpl final. rewrite Hcalls. simpl. now rewrite app_nil_r.
Qed.

(** C6, amended.  For a config element that names a server, the calls that
    [get_diff_state_apply[state]] submits hold at most one of the create,
    edit and delete calls: the create call exactly when state is merged and
    the server does not exist; the edit call exactly when state is merged,
    the server exists, [format_payload_for_update] accepts the payload, and
    the server is ISE-enabled or an allow-listed field differs; the delete
    call exactly when state is deleted and the server exists. *)
Theorem C6_one_mutating_call_per_element
    (E : environment) (fuel : nat) (state_ : run_state)
    (config ipAddress have_auth_server : pyval) (hd wd : list (string * pyval))
    (exists_ : bool) (s : state) :
  config_server config ipAddress ->
  py_hashable ipAddress = true ->
  (if exists_ then server_exists s have_auth_server hd else server_absent s) ->
  (state_ = merged -> want_auth_server_is s wd) ->
  let s' := final (get_diff_state_apply E fuel state_ config s) in
  mutating_calls s s' =
    match state_, exists_ with
    | merged, false => [add_call wd]
    | merged, true =>
        if edit_submitted E hd wd
        then [edit_call have_auth_server (filled hd wd)] else []
    | deleted, true => [delete_call have_auth_server]
    | deleted, false => []
    end
  /\ (length (mutating_calls s s') <= 1)%nat.
Proof.
  intros Hc Hh Hex Hw s'.
  assert (Hm : mutating_calls s s' =
    match state_, exists_ with
    | merged, false => [add_call wd]
    | merged, true =>
        if edit_submitted E hd wd
        then [edit_call have_auth_server (filled hd wd)] else []
    | deleted, true => [delete_call have_auth_server]
    | deleted, false => []
    end).
  { subst s'. destruct state_; simpl get_diff_state_apply.
    - specialize (Hw eq_refl).
      rewrite (get_diff_merged_eq _ _ _ _ _ Hc), final_method.
      destruct exists_.
      + rewrite (mutating_calls_app _ _ _
                   (update_existing_calls E fuel ipAddress s _ _ _ Hh Hw Hex)).
        now destruct (edit_submitted E hd wd).
      + rewrite (update_auth_policy_server_absent _ _ _ _ _ Hh Hw Hex), final_method.
        destruct (create_server_calls E fuel ipAddress (dict_get "isIseEnabled" wd)
                    (after_result_reset ipAddress s) wd Hw) as (l & Hl & Hf).
        change (calls (after_result_reset ipAddress s)) with (calls s) in Hl.
        rewrite (mutating_calls_app _ _ _ Hl). simpl. now rewrite Hf.
    - rewrite (get_diff_deleted_eq _ _ _ _ Hc), final_method.
      destruct exists_.
      + assert (Hd : calls (final ((delete_auth_policy_server E ipAddress ;;
                                    check_return_status) s))
                     = (calls s ++ [delete_call have_auth_server])%list).
        { rewrite calls_then_check_return_status.
          apply (delete_auth_policy_server_calls _ _ _ _ _ Hex). }
        now rewrite (mutating_calls_app _ _ _ Hd).
      + destruct Hex as (haps & ex & Hhave & Hexi & Ht).
        destruct (delete_auth_policy_server_absent E ipAddress s haps ex
                    Hh Hhave Hexi Ht) as (s1 & Hs1 & Hc1 & _).
        assert (Hd : calls (final ((delete_auth_policy_server E ipAddress ;;
                                    check_return_status) s))
                     = (calls s ++ [])%list).
        { rewrite calls_then_check_return_status, Hs1. simpl. now rewrite app_nil_r. }
        now rewrite (mutating_calls_app _ _ _ Hd). }
  split; [exact Hm|]. rewrite Hm.
  destruct state_, exists_; simpl; try lia.
  destruct (edit_submitted E hd wd); simpl; lia.
Qed.

(** ** Rules for [spec] *)

Section SpecRules.
Context {A B : Type}.
Variables (Q : B -> Prop) (F : string -> Prop).

Lemma spec_ret (b : B) : Q b -> spec Q F (ret b).
Proof. intros H s. exact H. Qed.

Lemma spec_lift (r : result B) : (forall b, r = Ok b -> Q b) -> spec Q F (lift r).
Proof. intros H s. unfold lift. destruct r; [now apply H|exact I]. Qed.

Lemma spec_fail (m : string) : F m -> spec Q F (@fail B m).
Proof. intros H s. simpl. split; [reflexivity|]. now exists m. Qed.

Lemma spec_bind (Q1 : A -> Prop) (c : M A) (k : A -> M B) :
  spec Q1 F c -> (forall a, Q1 a -> spec Q F (k a)) -> spec Q F (bind c k).
Proof.
  intros Hc Hk s. unfold bind. specialize (Hc s).
  destruct (c s) as [a s'| | | |]; try exact Hc. now apply Hk.
Qed.

Lemma spec_bind_lift (r : result A) (k : A -> M B) :
  (forall a, r = Ok a -> spec Q F (k a)) -> spec Q F (bind (lift r) k).
Proof.
  intros H. apply spec_bind with (Q1 := fun a => r = Ok a); [|exact H].
  intros s. unfold lift. now destruct r.
Qed.

Lemma spec_bind_ret (a : A) (k : A -> M B) : spec Q F (k a) -> spec Q F (bind (ret a) k).
Proof. intros H s. exact (H s). Qed.

Lemma spec_bind_fail (m : string) (k : A -> M B) : F m -> spec Q F (bind (fail m) k).
Proof. intros H s. simpl. split; [reflexivity|]. now exists m. Qed.

Lemma spec_bind_read (f : state -> A) (k : A -> M B) :
  (forall a, spec Q F (k a)) -> spec Q F (bind (read f) k).
Proof. intros H s. exact (H (f s) s). Qed.

Lemma spec_bind_modify (f : state -> state) (k : unit -> M B) :
  spec Q F (k tt) -> spec Q F (bind (modify f) k).
Proof. intros H s. exact (H (f s)). Qed.
End SpecRules.

Lemma spec_bind_assoc {A B C} (Q : C -> Prop) F (c : M A) (k1 : A -> M B) (k2 : B -> M C) :
  spec Q F (bind c (fun a => bind (k1 a) k2)) -> spec Q F (bind (bind c k1) k2).
Proof.
  intros H s. specialize (H s). unfold bind in *. now destruct (c s).
Qed.

Lemma spec_weaken {A} (Q Q' : A -> Prop) (F F' : string -> Prop) (c : M A) :
  (forall a, Q a -> Q' a) -> (forall m, F m -> F' m) -> spec Q F c -> spec Q' F' c.
Proof.
  intros HQ HF H s. specialize (H s).
  destruct (c s); try exact H; [now apply HQ|].
  destruct H as (Hs & m & Hm & Hf). split; [exact Hs|]. exists m. auto.
Qed.

Lemma writes_refl ks d : writes ks d (VDict d).
Proof. exists d. now split. Qed.

Lemma writes_set ks d k v :
  existsb (String.eqb k) ks = true -> writes ks d (VDict (dict_set k v d)).
Proof.
  intros Hin. eexists. split; [reflexivity|]. intros k' Hk'.
  apply dict_get_set_other. destruct (String.eqb k' k) eqn:E; [|reflexivity].
  apply String.eqb_eq in E. subst. congruence.
Qed.

Lemma writes_trans ks d d1 a :
  writes ks d (VDict d1) -> writes ks d1 a -> writes ks d a.
Proof.
  intros (d1' & [= <-] & H1) (d2 & -> & H2). exists d2. split; [reflexivity|].
  intros k Hk. now rewrite H2, H1.
Qed.

Lemma writes_set_after ks d d1 k v :
  existsb (String.eqb k) ks = true ->
  writes ks d (VDict d1) -> writes ks d (VDict (dict_set k v d1)).
Proof.
  intros Hin H. eapply writes_trans; [exact H|]. now apply writes_set.
Qed.

Ltac solve_writes :=
  repeat first [ apply writes_refl
               | apply writes_set_after; [reflexivity|] ].

Lemma writes_update ks d k v a :
  existsb (String.eqb k) ks = true -> py_update (VDict d) k v = Ok a -> writes ks d a.
Proof. intros Hin [= <-]. now apply writes_set. Qed.

Lemma writes_modify_at ks d k p f a :
  existsb (String.eqb k) ks = true ->
  modify_at (Key k :: p) f (VDict d) = Ok a -> writes ks d a.
Proof.
  intros Hin. simpl. destruct (assoc_get String.eqb k d) as [x|].
  - destruct (modify_at p f x); simpl; [|discriminate].
    intros [= <-]. now apply writes_set.
  - destruct (modify_at p f VNone); simpl; [|discriminate].
    intros [= <-]. apply writes_refl.
Qed.

Lemma writes_more ks ks' d a :
  (forall k, existsb (String.eqb k) ks' = false -> existsb (String.eqb k) ks = false) ->
  writes ks d a -> writes ks' d a.
Proof. intros H (d' & -> & Hd). exists d'. split; [reflexivity|]. auto. Qed.

Ltac spec_step :=
  lazymatch goal with
  | |- spec _ _ (bind (bind _ _) _) => apply spec_bind_assoc
  | |- spec _ _ (bind (lift _) _) => apply spec_bind_lift; intros ? ?
  | |- spec _ _ (bind (ret _) _) => apply spec_bind_ret
  | |- spec _ _ (bind (fail _) _) => apply spec_bind_fail
  | |- spec _ _ (bind (read _) _) => apply spec_bind_read; intros ?
  | |- spec _ _ (bind (modify _) _) => apply spec_bind_modify
  | |- spec _ _ (bind (if ?b then _ else _) _) => destruct b eqn:?
  | |- spec _ _ (bind (match ?x with _ => _ end) _) => destruct x eqn:?
  | |- spec _ _ (if ?b then _ else _) => destruct b eqn:?
  | |- spec _ _ (match ?x with _ => _ end) => destruct x eqn:?
  | |- spec _ _ (lift _) => apply spec_lift; intros ? ?
  | |- spec _ _ (ret _) => apply spec_ret
  | |- spec _ _ (fail _) => apply spec_fail
  end; cbv beta zeta.

(** An update of a dict is a dict. *)
Ltac updated :=
  repeat match goal with
  | H : py_update (VDict _) _ _ = Ok _ |- _ => cbv [py_update] in H; injection H as <-
  | H : Ok _ = Ok _ |- _ => injection H as <-
  | H : Err _ = Ok _ |- _ => discriminate H
  end.

Ltac plain := split; reflexivity.

(** ** The validations of get_want_authentication_policy_server *)

Section WantStages.
Variables (cfg ex det : pyval) (d : list (string * pyval)).

Lemma want_ise_enabled_spec :
  spec (writes ["isIseEnabled"] d) plain_msg (want_ise_enabled cfg ex det (VDict d)).
Proof.
  unfold want_ise_enabled.
  repeat (spec_step; updated); try plain; now apply writes_set.
Qed.

Lemma want_ip_address_spec :
  spec (writes ["ipAddress"] d) plain_msg (want_ip_address cfg (VDict d)).
Proof.
  unfold want_ip_address.
  repeat (spec_step; updated); try plain; now apply writes_set.
Qed.

Lemma want_shared_secret_spec :
  spec (fun a => writes ["sharedSecret"] d a
                 /\ (py_truthy ex = false ->
                     exists sec, py_get cfg "shared_secret" = Ok sec
                                 /\ shared_secret_invalid sec = false
                                 /\ field "sharedSecret" a = VStr (py_str sec)))
       (fun m => is_shared_secret_msg m = true
                 /\ py_truthy ex = false
                 /\ exists sec, py_get cfg "shared_secret" = Ok sec
                                /\ shared_secret_invalid sec = true)
       (want_shared_secret cfg ex (VDict d)).
Proof.
  unfold want_shared_secret, not_exists.
  destruct (py_truthy ex) eqn:Hex; simpl negb; cbv iota.
  - apply spec_ret. split; [apply writes_refl|discriminate].
  - repeat (spec_step; updated).
    + split; [reflexivity|]. split; [reflexivity|]. eexists. split; [eassumption|].
      unfold shared_secret_invalid.
      match goal with H : negb _ = true |- _ => rewrite H end. reflexivity.
    + split; [reflexivity|]. split; [reflexivity|]. eexists. split; [eassumption|].
      unfold shared_secret_invalid.
      match goal with H : (_ || _) = true |- _ => apply Bool.orb_true_iff in H;
        destruct H as [H|H]; rewrite H end;
        rewrite ?Bool.orb_true_r; reflexivity.
    + split; [reflexivity|]. split; [reflexivity|]. eexists. split; [eassumption|].
      unfold shared_secret_invalid.
      match goal with H : existsb _ _ = true |- _ => rewrite H end.
      now rewrite Bool.orb_true_r.
    + split; [now apply writes_set|]. intros _. eexists. split; [eassumption|].
      split; [|simpl; apply dict_get_set_same].
      unfold shared_secret_invalid.
      repeat match goal with
             | H : (_ || _) = false |- _ => apply Bool.orb_false_iff in H; destruct H
             end.
      repeat match goal with H : _ = false |- _ => rewrite H; clear H end.
      reflexivity.
Qed.

Lemma want_protocol_spec :
  spec (writes ["protocol"; "port"] d) plain_msg (want_protocol cfg ex det (VDict d)).
Proof.
  unfold want_protocol.
  repeat (spec_step; updated); try plain; solve_writes.
Qed.

Lemma want_encryption_spec :
  spec (writes ["encryptionScheme"; "messageKey"; "encryptionKey"] d) plain_msg
       (want_encryption cfg ex (VDict d)).
Proof.
  unfold want_encryption.
  repeat (spec_step; updated); try plain; solve_writes.
Qed.

Lemma want_port_spec param key default m1 m2 :
  plain_msg m1 -> plain_msg m2 ->
  spec (fun a => writes [key] d a
                 /\ (py_truthy ex = true ->
                     exists hd, det = VDict hd /\ field key a = dict_get key hd))
       plain_msg
       (want_port cfg ex det param key default m1 m2 (VDict d)).
Proof.
  intros Hm1 Hm2. unfold want_port, not_exists.
  destruct (py_truthy ex) eqn:Hex; simpl negb; cbv iota.
  - repeat (spec_step; updated).
    split; [apply writes_set; simpl; now rewrite String.eqb_refl|].
    intros _. destruct det; try discriminate.
    eexists. split; [reflexivity|]. simpl.
    match goal with H : py_get _ _ = Ok _ |- _ => injection H as <- end.
    apply dict_get_set_same.
  - repeat (spec_step; updated); try assumption;
      (split; [apply writes_set; simpl; now rewrite String.eqb_refl|discriminate]).
Qed.

Lemma want_authentication_port_spec :
  spec (fun a => writes ["authenticationPort"] d a
                 /\ (py_truthy ex = true ->
                     exists hd, det = VDict hd
                                /\ field "authenticationPort" a
                                   = dict_get "authenticationPort" hd))
       plain_msg
       (want_authentication_port cfg ex det (VDict d)).
Proof. apply want_port_spec; plain. Qed.

Lemma want_accounting_port_spec :
  spec (fun a => writes ["accountingPort"] d a
                 /\ (py_truthy ex = true ->
                     exists hd, det = VDict hd
                                /\ field "accountingPort" a
                                   = dict_get "accountingPort" hd))
       plain_msg
       (want_accounting_port cfg ex det (VDict d)).
Proof. apply want_port_spec; plain. Qed.

Lemma want_retries_spec :
  spec (writes ["retries"] d) plain_msg (want_retries cfg ex det (VDict d)).
Proof.
  unfold want_retries.
  repeat (spec_step; updated); try plain; try exact I; now apply writes_set.
Qed.

Lemma want_timeout_spec :
  spec (writes ["timeoutSeconds"] d) plain_msg (want_timeout cfg ex det (VDict d)).
Proof.
  unfold want_timeout.
  repeat (spec_step; updated); try plain; try exact I; now apply writes_set.
Qed.

Lemma want_role_spec :
  spec (fun a => writes ["role"] d a
                 /\ (py_truthy ex = true ->
                     exists hd, det = VDict hd /\ field "role" a = dict_get "role" hd))
       plain_msg
       (want_role cfg ex det (VDict d)).
Proof.
  unfold want_role, not_exists.
  destruct (py_truthy ex) eqn:Hex; simpl negb; cbv iota.
  - repeat (spec_step; updated).
    split; [now apply writes_set|].
    intros _. destruct det; try discriminate.
    eexists. split; [reflexivity|]. simpl.
    match goal with H : py_get _ _ = Ok _ |- _ => injection H as <- end.
    apply dict_get_set_same.
  - repeat (spec_step; updated).
    split; [now apply writes_set|discriminate].
Qed.

Lemma plain_ise_msg creds m : plain_msg m -> ise_msg creds m.
Proof. intros (H1 & H2). split; [exact H1|]. congruence. Qed.

Lemma ise_msg_cons cred creds m : ise_msg creds m -> ise_msg (cred :: creds) m.
Proof.
  intros (H1 & H2). split; [exact H1|]. intros H.
  destruct (H2 H) as (c & p & n & Hin & Hrest). exists c, p, n. split; [now right|exact Hrest].
Qed.

(** A nested update keeps the dict a dict. *)
Ltac nested ks :=
  repeat match goal with
  | H : modify_at (Key _ :: _) _ (VDict _) = Ok _ |- _ =>
      apply (writes_modify_at ks) in H; [|reflexivity];
      let d' := fresh "d" in destruct H as (d' & -> & H)
  end.

Ltac key_side k :=
  first [ assumption
        | simpl;
          repeat match goal with
                 | Hx : String.eqb k _ = false |- _ => rewrite Hx
                 end;
          reflexivity ].

Ltac chain :=
  eexists; split; [reflexivity|];
  let k := fresh "k" in let Hk := fresh "Hk" in
  intros k Hk; simpl in Hk;
  repeat (apply Bool.orb_false_iff in Hk; destruct Hk as [? Hk]);
  repeat match goal with
  | H : forall k, _ -> dict_get k ?x = _ |- context [dict_get _ ?x] =>
      rewrite (H k) by key_side k
  end;
  rewrite ?dict_get_set_other by key_side k;
  repeat match goal with
  | H : forall k, _ -> dict_get k ?x = _ |- context [dict_get _ ?x] =>
      rewrite (H k) by key_side k
  end;
  rewrite ?dict_get_set_other by key_side k;
  reflexivity.

Lemma want_ise_credentials_spec :
  forall creds position d0,
    spec (writes ["ciscoIseDtos"] d0) (ise_msg creds)
         (want_ise_credentials ex det creds position (VDict d0)).
Proof.
  induction creds as [|cred creds IH]; intros position d0; cbn [want_ise_credentials].
  - apply spec_ret, writes_refl.
  - unfold first_ise_dto, set_ise_dto.
    repeat (spec_step; updated; nested ["ciscoIseDtos"]);
      try (apply plain_ise_msg; plain).
    all: try (eapply spec_weaken; [| |apply IH];
              [intros ? ?; eapply writes_trans; [|eassumption]; chain
              |apply ise_msg_cons]).
    all: split; [reflexivity|]; intros _;
      match goal with
      | Hp : py_get ?c "password" = Ok ?p, Hn : py_len ?p = Ok ?n |- _ =>
          exists c, p, n
      end;
      repeat match goal with
             | H : negb _ = false |- _ => apply Bool.negb_false_iff in H
             | H : negb _ = true |- _ => apply Bool.negb_true_iff in H
             end;
      repeat split; auto; now left.
Qed.

Lemma want_external_addresses_spec :
  forall addresses p q d0,
    spec (writes ["externalCiscoIseIpAddrDtos"] d0) (fun _ => False)
         (want_external_addresses addresses p q (VDict d0)).
Proof.
  induction addresses as [|x addresses IH]; intros p q d0;
    cbn [want_external_addresses].
  - apply spec_ret, writes_refl.
  - repeat (spec_step; updated; nested ["externalCiscoIseIpAddrDtos"]).
    eapply spec_weaken; [|exact (fun _ h => h)|apply IH].
    intros ? ?; eapply writes_trans; [|eassumption]; chain.
Qed.

Lemma want_external_dtos_spec :
  forall dtos p d0,
    spec (writes ["externalCiscoIseIpAddrDtos"] d0) (fun _ => False)
         (want_external_dtos dtos p (VDict d0)).
Proof.
  induction dtos as [|x dtos IH]; intros p d0; cbn [want_external_dtos].
  - apply spec_ret, writes_refl.
  - repeat first
      [ progress (spec_step; updated; nested ["externalCiscoIseIpAddrDtos"])
      | lazymatch goal with
        | |- spec _ _ (bind (want_external_addresses _ _ _ (VDict ?d1)) _) =>
            apply spec_bind with (Q1 := writes ["externalCiscoIseIpAddrDtos"] d1);
            [apply want_external_addresses_spec
            |let a := fresh "a" in let H := fresh "H" in
             intros a H; destruct H as (? & -> & H)]
        end ].
    all: eapply spec_weaken; [|exact (fun _ h => h)|apply IH];
      intros ? ?; eapply writes_trans; [|eassumption]; chain.
Qed.

Lemma want_ise_spec :
  spec (writes ise_keys d) (ise_failure cfg) (want_ise cfg ex det (VDict d)).
Proof.
  unfold want_ise, want_update, ise_keys.
  repeat first
    [ progress (spec_step; updated; nested ise_keys)
    | lazymatch goal with
      | |- spec _ _ (bind (want_ise_credentials _ _ _ _ (VDict ?d1)) _) =>
          apply spec_bind with (Q1 := writes ["ciscoIseDtos"] d1);
          [eapply spec_weaken; [exact (fun _ h => h)| |apply want_ise_credentials_spec];
           intros ? (Hsecret & Hempty); split; [exact Hsecret|]; intros Hm;
           eexists _, _; split; [eassumption|]; split; [eassumption|];
           exact (Hempty Hm)
          |let a := fresh "a" in let H := fresh "H" in
           intros a H; destruct H as (? & -> & H)]
      | |- spec _ _ (bind (want_external_dtos _ _ (VDict ?d1)) _) =>
          apply spec_bind with (Q1 := writes ["externalCiscoIseIpAddrDtos"] d1);
          [eapply spec_weaken; [exact (fun _ h => h)| |apply want_external_dtos_spec];
           intros ? []
          |let a := fresh "a" in let H := fresh "H" in
           intros a H; destruct H as (? & -> & H)]
      end ].
  all: try (split; [reflexivity|discriminate]).
  all: try apply writes_refl.
  all: chain.
Qed.
End WantStages.

Lemma plain_ise_failure cfg m : plain_msg m -> ise_failure cfg m.
Proof. intros (H1 & H2). split; [exact H1|]. congruence. Qed.

Ltac stage L :=
  eapply spec_bind;
  [ eapply spec_weaken; [| |apply L];
    [ exact (fun _ h => h)
    | first [ intros ? ?; right; now apply plain_ise_failure
            | intros ? ?; now left
            | intros ? ?; now right ] ]
  | cbv beta ].

Lemma want_auth_server_spec cfg ex det :
  spec (built_payload cfg ex det) (want_failure cfg ex) (want_auth_server cfg ex det).
Proof.
  unfold want_auth_server.
  stage want_ise_enabled_spec. intros a1 (d1 & -> & K1).
  stage want_ip_address_spec. intros a2 (d2 & -> & K2).
  stage want_shared_secret_spec. intros a3 ((d3 & -> & K3) & S3).
  stage want_protocol_spec. intros a4 (d4 & -> & K4).
  stage want_encryption_spec. intros a5 (d5 & -> & K5).
  stage want_authentication_port_spec. intros a6 ((d6 & -> & K6) & P6).
  stage want_accounting_port_spec. intros a7 ((d7 & -> & K7) & P7).
  stage want_retries_spec. intros a8 (d8 & -> & K8).
  stage want_timeout_spec. intros a9 (d9 & -> & K9).
  stage want_role_spec. intros a10 ((d10 & -> & K10) & P10).
  eapply spec_weaken; [| |apply want_ise_spec]; [|intros ? ?; now right].
  intros a (wd & -> & K11). exists wd. split; [reflexivity|]. split.
  - intros Hex.
    destruct (P6 Hex) as (hd & -> & G6).
    destruct (P7 Hex) as (hd7 & [= <-] & G7).
    destruct (P10 Hex) as (hd10 & [= <-] & G10).
    exists hd. split; [reflexivity|]. simpl in G6, G7, G10.
    intros item [<-|[<-|[<-|[]]]].
    + rewrite K11, K10, K9, K8, K7 by reflexivity. exact G6.
    + rewrite K11, K10, K9, K8 by reflexivity. exact G7.
    + rewrite K11 by reflexivity. exact G10.
  - intros Hex. destruct (S3 Hex) as (sec & Hsec & Hvalid & G3).
    exists sec. split; [exact Hsec|]. split; [exact Hvalid|]. simpl in G3.
    rewrite K11, K10, K9, K8, K7, K6, K5, K4 by reflexivity. exact G3.
Qed.

Lemma want_auth_server_is_unique s wd wd' :
  want_auth_server_is s wd -> want_auth_server_is s wd' -> wd = wd'.
Proof.
  intros H H'. apply want_auth_server_of_is in H, H'. congruence.
Qed.

(** What [get_want_authentication_policy_server] returns with. *)
Lemma get_want_result cfg s have_auth_server ex det :
  py_get (have s) "authenticationPolicyServer" = Ok have_auth_server ->
  py_get have_auth_server "exists" = Ok ex ->
  py_get have_auth_server "details" = Ok det ->
  match get_want_authentication_policy_server cfg s with
  | Normal _ s' =>
      (status s' = "success"
       /\ exists wd, want_auth_server_is s' wd /\ built_payload cfg ex det (VDict wd))
      \/ (status s' = "failed" /\ exists m, msg s' = VStr m /\ want_failure cfg ex m)
  | Raised _ _ => True
  | _ => False
  end.
Proof.
  intros Hhave Hex Hdet.
  unfold get_want_authentication_policy_server, method.
  mstep. rewrite Hhave. mstep. rewrite Hex. mstep. rewrite Hdet. mstep.
  pose proof (want_auth_server_spec cfg ex det s) as Hspec.
  unfold bind at 1.
  destruct (want_auth_server cfg ex det s) as [a s1|s1|e s1|s1|s1]; try exact Hspec.
  - destruct Hspec as (wd & -> & Hb).
    unfold want_update. unfold bind at 1. unfold bind at 1. unfold read at 1.
    unfold bind at 1. unfold lift at 1.
    destruct (want s1) as [| | | | |w] eqn:Hw; simpl; try exact I.
    left. split; [reflexivity|]. exists wd. split.
    + eexists. split; [reflexivity|]. apply dict_get_set_same.
    + exists wd. split; [reflexivity|exact Hb].
  - right. exact Hspec.
Qed.

Lemma get_want_existing_payload
    (cfg have_auth_server : pyval) (hd : list (string * pyval)) (s s1 : state) :
  server_exists s have_auth_server hd ->
  get_want_authentication_policy_server cfg s = Normal tt s1 ->
  status s1 = "success" ->
  exists wd,
    want_auth_server_is s1 wd
    /\ (forall item, In item update_params -> dict_get item wd = dict_get item hd)
    /\ none_rejected hd wd update_params = true
    /\ exists s2, check_update_params update_params (VDict hd) s1 = Normal tt s2.
Proof.
  intros (Hhave & (ex & Hex & Ht) & Hd) Hrun Hst.
  pose proof (get_want_result cfg s _ _ _ Hhave Hex Hd) as Hres.
  rewrite Hrun in Hres.
  destruct Hres as [(_ & wd & Hw & Hb)|(Hf & _)]; [|rewrite Hst in Hf; discriminate].
  destruct Hb as (wd' & [= <-] & Hexi & _).
  destruct (Hexi Ht) as (hd' & [= <-] & Heq).
  assert (Hnr : none_rejected hd wd update_params = true).
  { unfold none_rejected. apply forallb_forall. intros item Hin.
    unfold rejected. rewrite (Heq item Hin), py_eqb_refl. simpl.
    now rewrite Bool.andb_false_r. }
  exists wd. split; [exact Hw|]. split; [exact Heq|]. split; [exact Hnr|].
  destruct (check_update_params_result hd update_params s1 wd update_params_nodup Hw)
    as (s2 & _ & Hres).
  rewrite Hnr in Hres. exists s2. apply Hres.
Qed.

(** C8. For an existing server, the payload that
    [get_want_authentication_policy_server] builds has authenticationPort,
    accountingPort and role as the current details have them, whatever the
    playbook entry supplies; so no item is rejected and the loop of
    [format_payload_for_update] over these fields goes through without
    taking its rejection branch. *)
Theorem C8_existing_server_keeps_restricted_fields
    (cfg have_auth_server : pyval) (hd : list (string * pyval)) (s s1 : state) :
  server_exists s have_auth_server hd ->
  get_want_authentication_policy_server cfg s = Normal tt s1 ->
  status s1 = "success" ->
  exists wd,
    want_auth_server_is s1 wd
    /\ (forall item, In item update_params -> dict_get item wd = dict_get item hd)
    /\ none_rejected hd wd update_params = true
    /\ exists s2, check_update_params update_params (VDict hd) s1 = Normal tt s2.
Proof. exact (get_want_existing_payload cfg have_auth_server hd s s1). Qed.

(** C4. In the update of an existing server (the payload is the one
    [get_want_authentication_policy_server] built from the playbook entry),
    when the desired protocol differs from the current one,
    [format_payload_for_update] sets status "failed" if and only if the
    desired protocol is not "RADIUS_TACACS"; a change to "RADIUS_TACACS"
    ends with status "success". *)
Theorem C4_protocol_changes_only_to_radius_tacacs
    (cfg have_auth_server : pyval) (hd wd : list (string * pyval)) (s s1 : state) :
  server_exists s have_auth_server hd ->
  get_want_authentication_policy_server cfg s = Normal tt s1 ->
  status s1 = "success" ->
  want_auth_server_is s1 wd ->
  py_eqb (dict_get "protocol" hd) (dict_get "protocol" wd) = false ->
  let s2 := final (format_payload_for_update (VDict hd) s1) in
  (status s2 = "failed"
   <-> py_eqb (dict_get "protocol" wd) (VStr "RADIUS_TACACS") = false)
  /\ (py_eqb (dict_get "protocol" wd) (VStr "RADIUS_TACACS") = true ->
      status s2 = "success").
Proof.
  intros Hex Hrun Hst Hw Hdiff s2.
  destruct (get_want_existing_payload cfg _ hd s s1 Hex Hrun Hst)
    as (wd' & Hw' & _ & Hnr & _).
  rewrite <- (want_auth_server_is_unique _ _ _ Hw Hw') in Hnr.
  destruct (format_payload_for_update_result hd s1 wd Hw) as (s3 & Hf & _ & Hres).
  subst s2. rewrite Hf. simpl final.
  unfold format_accepts, protocol_accepted in Hres. rewrite Hnr, Hdiff in Hres.
  simpl in Hres.
  destruct (py_eqb (dict_get "protocol" wd) (VStr "RADIUS_TACACS")); simpl in Hres.
  - destruct Hres as (Hs3 & _). rewrite Hs3. split; [|reflexivity].
    split; discriminate.
  - rewrite Hres. split; [|discriminate]. split; reflexivity.
Qed.

(** A new server with an invalid shared secret: the validations return at
    the shared_secret check. *)
Lemma want_auth_server_secret_failure c ex det s :
  py_truthy ex = false ->
  py_in_list (dict_get "server_type" c) [VStr "ISE"; VStr "AAA"; VNone] = true ->
  shared_secret_invalid (dict_get "shared_secret" c) = true ->
  exists m, want_auth_server (VDict c) ex det s
            = Returned (set_status "failed" (set_msg (VStr m) s))
            /\ is_shared_secret_msg m = true.
Proof.
  intros Hex Hty Hinv.
  unfold want_auth_server, want_ise_enabled, want_ip_address, want_shared_secret,
    not_exists.
  rewrite Hex. change (negb false) with true. cbv iota.
  change (py_get (VDict c) "server_type") with (Ok (dict_get "server_type" c)).
  change (py_get (VDict c) "server_ip_address") with (Ok (dict_get "server_ip_address" c)).
  change (py_get (VDict c) "shared_secret") with (Ok (dict_get "shared_secret" c)).
  unfold shared_secret_invalid in Hinv.
  set (sec := dict_get "shared_secret" c) in *.
  unfold bind at 1. unfold bind at 1. unfold lift at 1. rewrite Hty.
  change (negb true) with false. cbv iota.
  assert (Hgoal : forall b,
    exists m,
      (auth_server <- lift (py_update (VDict [("isIseEnabled", VBool b)]) "ipAddress"
                                      (dict_get "server_ip_address" c)) ;;
       auth_server <-
         (if negb (py_truthy sec) then
            fail "Missing parameter 'shared_secret' is required."
          else
            if (Z.of_nat (str_len (py_str sec)) <? 4)
               || (100 <? Z.of_nat (str_len (py_str sec)))
            then fail "The 'shared_secret' should contain between 4 and 100 characters."
            else if existsb (fun c0 => char_in c0 (py_str sec)) (list_ascii_of_string " ?<")
            then fail "The 'shared_secret' should not contain spaces or the characters '?', '<'."
            else lift (py_update auth_server "sharedSecret" (VStr (py_str sec)))) ;;
       auth_server <- want_protocol (VDict c) ex det auth_server ;;
       auth_server <- want_encryption (VDict c) ex auth_server ;;
       auth_server <- want_authentication_port (VDict c) ex det auth_server ;;
       auth_server <- want_accounting_port (VDict c) ex det auth_server ;;
       auth_server <- want_retries (VDict c) ex det auth_server ;;
       auth_server <- want_timeout (VDict c) ex det auth_server ;;
       auth_server <- want_role (VDict c) ex det auth_server ;;
       want_ise (VDict c) ex det auth_server) s
      = Returned (set_status "failed" (set_msg (VStr m) s))
      /\ is_shared_secret_msg m = true).
  { intros b. unfold bind at 1. unfold lift at 1. simpl py_update. cbv iota beta.
    unfold bind at 1.
    destruct (negb (py_truthy sec)) eqn:E1; [eexists; split; reflexivity|].
    destruct ((Z.of_nat (str_len (py_str sec)) <? 4)
              || (100 <? Z.of_nat (str_len (py_str sec)))) eqn:E2;
      [eexists; split; reflexivity|].
    destruct (existsb (fun c0 => char_in c0 (py_str sec)) (list_ascii_of_string " ?<"))
      eqn:E3; [eexists; split; reflexivity|].
    apply Bool.orb_false_iff in E2. destruct E2 as (E2 & E2').
    rewrite E2, E2' in Hinv. discriminate Hinv. }
  destruct (py_eqb (dict_get "server_type" c) (VStr "ISE")); apply Hgoal.
Qed.

Lemma shared_secret_msg_not_empty m :
  is_shared_secret_msg m = true -> String.eqb m EmptyString = false.
Proof.
  unfold is_shared_secret_msg, shared_secret_msgs. simpl.
  rewrite Bool.orb_false_r, !Bool.orb_true_iff.
  intros [H|[H|H]]; apply String.eqb_eq in H; subst; reflexivity.
Qed.

(** Every failing return of [get_want_authentication_policy_server] but one
    leaves a message that is not empty: the empty one is that of a Cisco ISE
    credential whose password has a wrong length. *)
Lemma get_want_failure_message cfg s s' have_auth_server ex det :
  py_get (have s) "authenticationPolicyServer" = Ok have_auth_server ->
  py_get have_auth_server "exists" = Ok ex ->
  py_get have_auth_server "details" = Ok det ->
  get_want_authentication_policy_server cfg s = Normal tt s' ->
  status s' = "failed" ->
  exists m,
    msg s' = VStr m
    /\ (String.eqb m EmptyString = false
        \/ exists dtos creds,
             py_get cfg "cisco_ise_dtos" = Ok dtos
             /\ py_iter dtos = Ok creds
             /\ password_length_invalid creds).
Proof.
  intros Hhave Hex Hdet Hrun Hst.
  pose proof (get_want_result cfg s _ _ _ Hhave Hex Hdet) as Hres.
  rewrite Hrun in Hres.
  destruct Hres as [(Hs & _)|(_ & m & Hm & Hf)]; [rewrite Hst in Hs; discriminate|].
  exists m. split; [exact Hm|].
  destruct Hf as [(Hsec & _)|(_ & Hempty)].
  - left. now apply shared_secret_msg_not_empty.
  - destruct (String.eqb m EmptyString) eqn:E; [right; now apply Hempty|now left].
Qed.

(** C7, amended.  For a new server (and a server_type that passes its
    check), [get_want_authentication_policy_server] fails at the
    shared_secret check, that is with status "failed" and one of the three
    shared_secret messages, if and only if shared_secret is missing or
    empty, its text is shorter than 4 or longer than 100 characters, or has
    a space, '?' or '<' (later checks may fail it with other messages); when
    the method ends with status "success" the text of the secret is in the
    payload as sharedSecret. *)
Theorem C7_shared_secret_check
    (c : list (string * pyval)) (s : state) :
  server_absent s ->
  py_in_list (dict_get "server_type" c) [VStr "ISE"; VStr "AAA"; VNone] = true ->
  ((exists s' m,
       get_want_authentication_policy_server (VDict c) s = Normal tt s'
       /\ status s' = "failed" /\ msg s' = VStr m /\ is_shared_secret_msg m = true)
   <-> shared_secret_invalid (dict_get "shared_secret" c) = true)
  /\ (forall s',
        get_want_authentication_policy_server (VDict c) s = Normal tt s' ->
        status s' = "success" ->
        field "sharedSecret" (want_auth_server_of s')
        = VStr (py_str (dict_get "shared_secret" c))).
Proof.
  intros (haps & ex & Hhave & Hex & Ht) Hty.
  assert (Hdet : exists det, py_get haps "details" = Ok det).
  { destruct haps; try discriminate. eexists; reflexivity. }
  destruct Hdet as (det & Hdet).
  pose proof (get_want_result (VDict c) s _ _ _ Hhave Hex Hdet) as Hres.
  split; [split|].
  - intros (s' & m & Hrun & Hst & Hm & Hsec). rewrite Hrun in Hres.
    destruct Hres as [(Hs & _)|(_ & m' & Hm' & Hf)]; [rewrite Hst in Hs; discriminate|].
    rewrite Hm in Hm'. injection Hm' as <-.
    destruct Hf as [(_ & _ & sec & [= <-] & Hinv)|(Hns & _)]; [exact Hinv|].
    rewrite Hsec in Hns. discriminate.
  - intros Hinv.
    destruct (want_auth_server_secret_failure c ex det s Ht Hty Hinv) as (m & Hrun & Hsec).
    exists (set_status "failed" (set_msg (VStr m) s)), m.
    split; [|now repeat split].
    unfold get_want_authentication_policy_server, method.
    mstep. rewrite Hhave. mstep. rewrite Hex. mstep. rewrite Hdet. mstep.
    unfold bind at 1. now rewrite Hrun.
  - intros s' Hrun Hst. rewrite Hrun in Hres.
    destruct Hres as [(_ & wd & Hw & Hb)|(Hf & _)]; [|rewrite Hst in Hf; discriminate].
    destruct Hb as (wd' & [= <-] & _ & Hnew).
    destruct (Hnew Ht) as (sec & [= <-] & _ & Hget).
    now rewrite (want_auth_server_of_is _ _ Hw).
Qed.

(** The length checks count characters, not bytes: a secret of three
    characters that takes nine bytes is too short, one of four characters
    passes. *)
Example shared_secret_length_in_characters :
  String.length "日本語" = 9%nat
  /\ py_len (VStr "日本語") = Ok 3
  /\ shared_secret_invalid (VStr "日本語") = true
  /\ shared_secret_invalid (VStr "日本語で") = false.
Proof. repeat split; vm_compute; reflexivity. Qed.

(** ** Concrete runs *)

Example get_want_to_tacacs :
  get_want (playbook entry_to_tacacs) (have_state radius_server)
  = Normal tt (wanted_state radius_server entry_to_tacacs)
  /\ payload_of (wanted_state radius_server entry_to_tacacs)
     = [("isIseEnabled", VBool false); ("ipAddress", VStr "10.0.0.1");
        ("protocol", VStr "TACACS"); ("port", VInt 49);
        ("authenticationPort", VInt 1812); ("accountingPort", VInt 1813);
        ("retries", VStr "3"); ("timeoutSeconds", VStr "4"); ("role", VStr "primary")].
Proof. split; reflexivity. Qed.

Ltac by_compute := vm_compute; reflexivity.

(** C1 as stated fails: the RADIUS server 10.0.0.1 exists, is not
    ISE-enabled, and the playbook asks for protocol TACACS.  The allow-listed
    field protocol differs, yet [get_diff_merged] invokes no edit call:
    [format_payload_for_update] rejects the change and the module run ends. *)
Lemma C1_counterexample_rejected_protocol_change :
  let s := wanted_state radius_server entry_to_tacacs in
  let o := get_diff_merged busy_controller 3 (playbook entry_to_tacacs) s in
  server_exists s radius_server radius_details
  /\ dict_get "isIseEnabled" radius_details = VBool false
  /\ allow_listed_field_differs busy_controller radius_details (payload_of s) = true
  /\ invoked edit_function s (final o) = false
  /\ o = Exited (final o)
  /\ status (final o) = "failed"
  /\ msg (final o)
     = VStr "'protocol' can only be updated to 'RADIUS_TACACS' not from 'RADIUS' to 'TACACS'"
  /\ dict_get "protocol" radius_details = VStr "RADIUS"
  /\ dict_get "protocol" (payload_of s) = VStr "TACACS"
  /\ three_fields_differ busy_controller radius_details (payload_of s) = true
  /\ invoked "edit_authentication_and_policy_server_access_configuration" s (final o)
     = false
  /\ calls (final o) = calls s.
Proof.
  cbv zeta. split.
  - split; [by_compute|]. split; [|by_compute].
    exists (VBool true). split; by_compute.
  - repeat (split; [by_compute|]). by_compute.
Qed.

Lemma C1_witness_retries_changed :
  let s := wanted_state radius_server entry_more_retries in
  let s' := final (get_diff_merged busy_controller 3 (playbook entry_more_retries) s) in
  (format_accepts radius_details (payload_of s) = true ->
     invoked "edit_authentication_and_policy_server_access_configuration" s s'
     = three_fields_differ busy_controller radius_details (payload_of s)
     /\ (three_fields_differ busy_controller radius_details (payload_of s) = true ->
           calls s'
           = (calls s
              ++ [mkCall "system_settings"
                         "edit_authentication_and_policy_server_access_configuration"
                         (VDict (dict_set "id" (field "id" radius_server)
                                          (filled radius_details (payload_of s))))])%list)
     /\ (three_fields_differ busy_controller radius_details (payload_of s) = false ->
           calls s' = calls s
           /\ key_get (VStr "10.0.0.1") (res_msg s')
              = VStr "Authentication and Policy Server doesn't require an update"))
  /\ (format_accepts radius_details (payload_of s) = false ->
        get_diff_merged busy_controller 3 (playbook entry_more_retries) s = Exited s'
        /\ status s' = "failed"
        /\ calls s' = calls s).
Proof.
  refine (C1_edit_iff_allow_listed_field_differs busy_controller 3
           (playbook entry_more_retries) (VStr "10.0.0.1") radius_server radius_details
           (payload_of (wanted_state radius_server entry_more_retries))
           (wanted_state radius_server entry_more_retries) _ _ _ _ _).
  - eexists. split; [by_compute|]. split; by_compute.
  - by_compute.
  - eexists. split; by_compute.
  - split; [by_compute|]. split; [|by_compute]. exists (VBool true). split; by_compute.
  - by_compute.
Defined.

Example retries_changed_is_edited :
  let s := wanted_state radius_server entry_more_retries in
  format_accepts radius_details (payload_of s) = true
  /\ three_fields_differ busy_controller radius_details (payload_of s) = true
  /\ new_calls s (final (get_diff_merged busy_controller 3 (playbook entry_more_retries) s))
     = [edit_call radius_server (payload_of s)].
Proof. cbv zeta. split; [by_compute|]. split; by_compute. Qed.

Lemma C9_witness_ise_server :
  let s' := final (get_diff_merged busy_controller 3 ise_playbook ise_state) in
  calls s' = (calls ise_state ++ [edit_call ise_server (filled ise_details ise_details)])%list
  /\ invoked edit_function ise_state s' = true
  /\ msg_untouched_or (VStr "10.0.0.5") msg_updated ise_state s'.
Proof.
  refine (C9_ise_server_always_edited busy_controller 3 ise_playbook (VStr "10.0.0.5")
           ise_server ise_details ise_details ise_state _ _ _ _ _ _).
  - eexists. split; [by_compute|]. split; by_compute.
  - by_compute.
  - eexists. split; by_compute.
  - split; [by_compute|]. split; [|by_compute]. exists (VBool true). split; by_compute.
  - by_compute.
  - by_compute.
Defined.



Example role_rejection_message :
  rejected radius_details other_role_payload "role" = true
  /\ omitted other_role_payload "authenticationPort" = true
  /\ field "authenticationPort"
       (want_auth_server_of
          (final (format_payload_for_update (VDict radius_details) other_role_state)))
     = VInt 1812
  /\ modify_msg "role"
     = "Update does not support modifying '['authenticationPort', 'accountingPort', 'role']'. Here you are trying to update 'role'.".
Proof. repeat split; by_compute. Qed.

Lemma C10_witness_absent_server :
  exists s',
    delete_auth_policy_server busy_controller (VStr "10.0.0.9") (have_state no_server)
    = Normal tt s'
    /\ calls s' = calls (have_state no_server)
    /\ status s' = "success"
    /\ msg s' = VStr "Authentication and Policy Server not found."
    /\ changed s' = changed (have_state no_server)
    /\ check_return_status s' = Normal tt s'
    /\ delete_auth_policy_server busy_controller (VStr "10.0.0.9") s' = Normal tt s'.
Proof.
  refine (C10_delete_absent_server_is_noop busy_controller (VStr "10.0.0.9")
           (have_state no_server) no_server (VBool false) _ _ _ _); by_compute.
Defined.

Lemma C8_witness_playbook_ports_ignored :
  exists wd,
    want_auth_server_is (payload_state radius_server entry_to_tacacs) wd
    /\ (forall item, In item update_params ->
                     dict_get item wd = dict_get item radius_details)
    /\ none_rejected radius_details wd update_params = true
    /\ exists s2, check_update_params update_params (VDict radius_details)
                    (payload_state radius_server entry_to_tacacs) = Normal tt s2.
Proof.
  refine (C8_existing_server_keeps_restricted_fields (VDict entry_to_tacacs)
           radius_server radius_details (have_state radius_server)
           (payload_state radius_server entry_to_tacacs) _ _ _).
  - split; [by_compute|]. split; [|by_compute]. exists (VBool true). split; by_compute.
  - by_compute.
  - by_compute.
Defined.

Lemma C4_witness_to_radius_tacacs :
  let s1 := payload_state radius_server entry_to_radius_tacacs in
  let s2 := final (format_payload_for_update (VDict radius_details) s1) in
  (status s2 = "failed"
   <-> py_eqb (dict_get "protocol" (payload_of s1)) (VStr "RADIUS_TACACS") = false)
  /\ (py_eqb (dict_get "protocol" (payload_of s1)) (VStr "RADIUS_TACACS") = true ->
      status s2 = "success").
Proof.
  refine (C4_protocol_changes_only_to_radius_tacacs (VDict entry_to_radius_tacacs)
           radius_server radius_details
           (payload_of (payload_state radius_server entry_to_radius_tacacs))
           (have_state radius_server)
           (payload_state radius_server entry_to_radius_tacacs) _ _ _ _ _).
  - split; [by_compute|]. split; [|by_compute]. exists (VBool true). split; by_compute.
  - by_compute.
  - by_compute.
  - eexists. split; by_compute.
  - by_compute.
Defined.

Example protocol_change_outcomes :
  status (final (format_payload_for_update (VDict radius_details)
                   (payload_state radius_server entry_to_radius_tacacs))) = "success"
  /\ status (final (format_payload_for_update (VDict radius_details)
                      (payload_state radius_server entry_to_tacacs))) = "failed".
Proof. split; by_compute. Qed.

(** C6 as stated fails at the same input as C1: state merged, the server
    exists, and an update is required (the protocol differs, and
    [requires_update] says so), yet none of the three calls is submitted,
    because [format_payload_for_update] rejects the change first. *)
Lemma C6_counterexample_update_required_but_rejected :
  let s := wanted_state radius_server entry_to_tacacs in
  let s' := final (get_diff_state_apply busy_controller 3 merged
                     (playbook entry_to_tacacs) s) in
  server_exists s radius_server radius_details
  /\ requires_update busy_controller (VDict radius_details) (VDict (payload_of s))
       authentication_policy_server_obj_params = Ok true
  /\ mutating_calls s s' = []
  /\ invoked edit_function s s' = false.
Proof.
  cbv zeta. split.
  - split; [by_compute|]. split; [|by_compute].
    exists (VBool true). split; by_compute.
  - split; [by_compute|]. split; by_compute.
Qed.

Lemma C6_witness_new_server_created :
  let s := wanted_state no_server entry_new_aaa in
  let s' := final (get_diff_state_apply busy_controller 3 merged
                     (playbook entry_new_aaa) s) in
  mutating_calls s s' = [add_call (payload_of s)]
  /\ (length (mutating_calls s s') <= 1)%nat.
Proof.
  refine (C6_one_mutating_call_per_element busy_controller 3 merged
            (playbook entry_new_aaa) (VStr "10.0.0.9") no_server []
            (payload_of (wanted_state no_server entry_new_aaa)) false
            (wanted_state no_server entry_new_aaa) _ _ _ _).
  - eexists. split; [by_compute|]. split; by_compute.
  - by_compute.
  - exists no_server, (VBool false). split; [by_compute|]. split; by_compute.
  - intros _. eexists. split; by_compute.
Defined.

Example one_call_per_path :
  mutating_calls (have_state radius_server)
    (final (get_diff_state_apply busy_controller 3 deleted
              (playbook entry_more_retries) (have_state radius_server)))
  = [delete_call radius_server]
  /\ mutating_calls (have_state no_server)
       (final (get_diff_state_apply busy_controller 3 deleted
                 (playbook entry_new_aaa) (have_state no_server)))
     = [].
Proof. split; by_compute. Qed.

(** C7 as stated fails: a new server with the valid secret "s3cret-key" and
    the protocol "LDAP" makes [get_want_authentication_policy_server] fail,
    with the message of the protocol check. *)
Lemma C7_counterexample_valid_secret_still_fails :
  let s' := payload_state no_server entry_bad_protocol in
  server_absent (have_state no_server)
  /\ shared_secret_invalid (dict_get "shared_secret" entry_bad_protocol) = false
  /\ get_want_authentication_policy_server (VDict entry_bad_protocol)
       (have_state no_server) = Normal tt s'
  /\ status s' = "failed"
  /\ msg s' = VStr "protocol should either be ['RADIUS', 'TACACS', 'RADIUS_TACACS'].It should not be LDAP".
Proof.
  cbv zeta. split.
  - exists no_server, (VBool false). split; [by_compute|]. split; by_compute.
  - split; [by_compute|]. split; [by_compute|]. split; by_compute.
Qed.

Lemma C7_witness_new_aaa_server :
  ((exists s' m,
       get_want_authentication_policy_server (VDict entry_new_aaa) (have_state no_server)
       = Normal tt s'
       /\ status s' = "failed" /\ msg s' = VStr m /\ is_shared_secret_msg m = true)
   <-> shared_secret_invalid (dict_get "shared_secret" entry_new_aaa) = true)
  /\ (forall s',
        get_want_authentication_policy_server (VDict entry_new_aaa) (have_state no_server)
        = Normal tt s' ->
        status s' = "success" ->
        field "sharedSecret" (want_auth_server_of s')
        = VStr (py_str (dict_get "shared_secret" entry_new_aaa))).
Proof.
  refine (C7_shared_secret_check entry_new_aaa (have_state no_server) _ _).
  - exists no_server, (VBool false). split; [by_compute|]. split; by_compute.
  - by_compute.
Defined.

Example shared_secret_cases :
  shared_secret_invalid VNone = true
  /\ shared_secret_invalid (VStr "abc") = true
  /\ shared_secret_invalid (VStr "has space") = true
  /\ shared_secret_invalid (VStr "what?") = true
  /\ shared_secret_invalid (VStr "a<b>c") = true
  /\ shared_secret_invalid (VStr "s3cret-key") = false
  /\ field "sharedSecret" (want_auth_server_of (payload_state no_server entry_new_aaa))
     = VStr "s3cret-key".
Proof. repeat split; by_compute. Qed.

(** C5: the code at the failing input.  A new Cisco ISE server whose
    credential has a password of three characters:
    [get_want_authentication_policy_server] returns with status "failed" and
    the empty string as message (line 971), where every other failing return
    leaves a message that says what is wrong
    ([get_want_failure_message]). *)
Theorem C5_short_password_fails_with_empty_message :
  let s' := payload_state no_server entry_short_password in
  get_want_authentication_policy_server (VDict entry_short_password)
    (have_state no_server) = Normal tt s'
  /\ status s' = "failed"
  /\ msg s' = VStr EmptyString.
Proof. cbv zeta. split; [by_compute|]. split; by_compute. Qed.

(** ** The polling loop *)

(** One pass over the validation strings, from a state whose
    [result['changed']] is false. *)
Lemma scan_validation_strings_result (E : environment) task_id n vs all :
  forall s,
    changed s = false ->
    (forall v, In v vs -> In v all) ->
    match scan_validation_strings vs (get_task_details E n task_id) s with
    | Normal found s' =>
        if found then poll_succeeded E task_id all s' /\ max_timeout s' = max_timeout s
        else s' = s
    | Raised _ _ => True
    | _ => False
    end.
Proof.
  induction vs as [|v vs IH]; intros s Hch Hin; cbn [scan_validation_strings].
  - reflexivity.
  - unfold bind at 1. unfold lift at 1.
    destruct (py_get (get_task_details E n task_id) "progress") as [p|] eqn:Hp;
      [|exact I].
    unfold bind at 1. unfold lift at 1.
    destruct p as [| | |progress| |]; simpl py_lower; cbv iota; try exact I.
    destruct (str_contains v (lower progress)) eqn:Hc.
    + simpl. split; [|reflexivity]. split; [reflexivity|]. split; [reflexivity|].
      split; [apply Hin; now left|]. exists n, progress. now split.
    + apply IH; [exact Hch|]. intros w Hw. apply Hin. now right.
Qed.

(** The loop ends: [n] iterations are enough when [n - 1] sleeps of
    [max_timeout / 1000] seconds reach the timeout; and, from a state whose
    [result['changed']] is false, it ends in one of the three ways. *)
Lemma poll_loop_outcomes (E : environment) task_id start vs api :
  forall n s,
    changed s = false ->
    start <= clock s ->
    (1 <= n)%nat ->
    (max_timeout s <= 0
     \/ 1000 * max_timeout s <= clock s - start + (Z.of_nat n - 1) * max_timeout s) ->
    match poll_loop E n task_id start vs api s with
    | Normal _ s' =>
        poll_succeeded E task_id vs s'
        \/ poll_task_failed E task_id s'
        \/ poll_timed_out task_id api start s'
    | Raised _ _ => True
    | _ => False
    end.
Proof.
  induction n as [|n IH]; intros s Hch Hclock Hn Hfuel; [lia|].
  cbn [poll_loop]. rewrite bind_read. cbv beta. rewrite bind_read. cbv beta.
  destruct (1000 * max_timeout s <=? clock s - start) eqn:Hto.
  - simpl. right. right. apply Z.leb_le in Hto. now repeat split.
  - apply Z.leb_gt in Hto.
    assert (Hpos : 0 < max_timeout s) by lia.
    unfold bind at 1. unfold poll_task_details at 1.
    set (td := get_task_details E (polls s) task_id).
    set (s1 := set_polls (S (polls s)) (set_clock (clock s + Z.of_N (delay E (polls s))) s)).
    unfold bind at 1. unfold lift at 1.
    destruct td as [| | | | |tdd] eqn:Htd; try exact I. simpl py_get. cbv iota beta.
    destruct (is_True (dict_get "isError" tdd)) eqn:Herr.
    + unfold bind at 1. unfold bind at 1. unfold lift at 1. simpl py_get. cbv iota beta.
      assert (Hfail : poll_task_failed E task_id
                (set_status "failed"
                   (set_msg (VStr (py_str (if py_truthy (dict_get "failureReason" tdd)
                                           then dict_get "failureReason" tdd
                                           else dict_get "progress" tdd))) s1))).
      { split; [reflexivity|]. exists (polls s). fold td. rewrite Htd. simpl.
        split; [exact Herr|reflexivity]. }
      destruct (py_truthy (dict_get "failureReason" tdd)); simpl; right; left; exact Hfail.
    + unfold bind at 1.
      pose proof (scan_validation_strings_result E task_id (polls s) vs vs s1
                    Hch (fun v H => H)) as Hscan.
      fold td in Hscan. rewrite Htd in Hscan.
      destruct (scan_validation_strings vs (VDict tdd) s1) as [found s2| |e s2| |];
        try exact Hscan.
      rewrite bind_read. cbv beta.
      destruct found.
      * destruct Hscan as (Hs & _). destruct Hs as (Hst & Hc & Hrest).
        rewrite Hc. simpl. left. split; [exact Hst|]. split; [exact Hc|exact Hrest].
      * subst s2. change (changed s1) with (changed s). rewrite Hch.
        unfold bind at 1. unfold sleep_interval at 1.
        apply IH.
        -- exact Hch.
        -- simpl. lia.
        -- destruct n; [|lia]. exfalso.
           change (Z.of_nat 1 - 1) with 0 in Hfuel. lia.
        -- right. change (max_timeout (set_clock _ s1)) with (max_timeout s).
           change (clock (set_clock (clock s1 + max_timeout s1) s1))
             with (clock s + Z.of_N (delay E (polls s)) + max_timeout s).
           destruct Hfuel as [Hf|Hf]; [lia|].
           replace (Z.of_nat (S n) - 1) with (Z.of_nat n) in Hf by lia.
           assert (Hd : 0 <= Z.of_N (delay E (polls s))) by lia.
           lia.
Qed.

(** On the clock of whole milliseconds, the loop of
    [check_auth_server_response_status] ends within 1001 iterations, and,
    when [result['changed']] is false at the call, with one of the three
    outcomes (or with an exception, which is not described here). *)
Lemma check_auth_server_response_status_outcomes
    (E : environment) fuel r vs api s :
  (1001 <= fuel)%nat ->
  changed s = false ->
  is_none (dict_get "errorcode" r) = true ->
  match check_auth_server_response_status E fuel (VDict [("response", VDict r)]) vs api s
  with
  | Normal _ s' =>
      poll_succeeded E (dict_get "taskId" r) vs s'
      \/ poll_task_failed E (dict_get "taskId" r) s'
      \/ poll_timed_out (dict_get "taskId" r) api (clock s) s'
  | Raised _ _ => True
  | _ => False
  end.
Proof.
  intros Hfuel Hch Herr.
  unfold check_auth_server_response_status, method.
  change (py_get (VDict [("response", VDict r)]) "response") with (Ok (VDict r)).
  rewrite bind_lift_ok. cbv beta.
  change (py_get (VDict r) "errorcode") with (Ok (dict_get "errorcode" r)).
  rewrite bind_lift_ok. cbv beta. rewrite Herr. change (negb true) with false. cbv iota.
  change (py_get (VDict r) "taskId") with (Ok (dict_get "taskId" r)).
  rewrite bind_lift_ok. cbv beta. rewrite bind_read. cbv beta.
  pose proof (poll_loop_outcomes E (dict_get "taskId" r) (clock s) vs api fuel s Hch
                (Z.le_refl _)) as H.
  assert (H1 : (1 <= fuel)%nat) by lia.
  assert (H2 : max_timeout s <= 0
               \/ 1000 * max_timeout s
                  <= clock s - clock s + (Z.of_nat fuel - 1) * max_timeout s).
  { destruct (Z_le_gt_dec (max_timeout s) 0); [now left|right]. nia. }
  specialize (H H1 H2).
  destruct (poll_loop E fuel (dict_get "taskId" r) (clock s) vs api s);
    first [exact H|contradiction].
Qed.

(** C2: the code at the failing input.  An earlier config element has set
    [result['changed']]; the task of the edit call is still in progress at
    the first poll (no error, no validation string in its progress), and the
    loop ends at once: one poll, no sleep, no timeout, the status still the
    "success" that [format_payload_for_update] left, and none of the three
    outcomes. *)
Theorem C2_stale_changed_flag_ends_the_poll :
  let o := check_auth_server_response_status busy_controller 1001 task_response
             edit_validation_strings edit_function changed_before in
  o = Normal tt (final o)
  /\ status (final o) = "success"
  /\ polls (final o) = 1%nat
  /\ clock (final o) - clock changed_before < 1000 * max_timeout changed_before
  /\ is_True (field "isError" (get_task_details busy_controller 0 (VStr "task-1"))) = false
  /\ existsb (fun v => str_contains v (lower "Updating AAA settings"))
             edit_validation_strings = false
  /\ validation_string (final o) = EmptyString.
Proof. cbv zeta. repeat split; by_compute. Qed.

(** The failing input of C2 is reached by the loop of [main]: the first
    element creates a server and its task completes at the first poll; the
    edit of the second element is polled once, its task is still in
    progress, and the module reports the server as updated. *)
Example stale_flag_reports_unfinished_update :
  let o := two_elements initial_state in
  o = Normal tt (final o)
  /\ map c_function (calls (final o))
     = ["get_authentication_and_policy_servers"; add_function;
        "get_authentication_and_policy_servers"; edit_function]
  /\ polls (final o) = 2%nat
  /\ get_task_details slow_controller 1 (VStr "task-1") = task_in_progress
  /\ key_get (VStr "10.0.0.1") (res_msg (final o)) = VStr msg_updated
  /\ status (final o) = "success".
Proof.
  cbv zeta.
  split; [by_compute|]. split; [by_compute|]. split; [by_compute|].
  split; [by_compute|]. split; by_compute.
Qed.

(** * Further properties of the module *)

(** ** Failing returns of get_want_authentication_policy_server *)

(** X1. Whenever [get_want_authentication_policy_server] returns with status
    "failed" it leaves a text message, and the message is empty only when a
    Cisco ISE credential has a password whose length is not from 4 to 127. *)
Theorem X1_failing_get_want_says_why
    (cfg have_auth_server ex det : pyval) (s s' : state) :
  py_get (have s) "authenticationPolicyServer" = Ok have_auth_server ->
  py_get have_auth_server "exists" = Ok ex ->
  py_get have_auth_server "details" = Ok det ->
  get_want_authentication_policy_server cfg s = Normal tt s' ->
  status s' = "failed" ->
  exists m,
    msg s' = VStr m
    /\ (String.eqb m EmptyString = false
        \/ exists dtos creds,
             py_get cfg "cisco_ise_dtos" = Ok dtos
             /\ py_iter dtos = Ok creds
             /\ password_length_invalid creds).
Proof. apply get_want_failure_message. Qed.

Lemma X1_witness_bad_protocol :
  exists m,
    msg (payload_state no_server entry_bad_protocol) = VStr m
    /\ (String.eqb m EmptyString = false
        \/ exists dtos creds,
             py_get (VDict entry_bad_protocol) "cisco_ise_dtos" = Ok dtos
             /\ py_iter dtos = Ok creds
             /\ password_length_invalid creds).
Proof.
  refine (X1_failing_get_want_says_why (VDict entry_bad_protocol) no_server
            (VBool false) VNone (have_state no_server)
            (payload_state no_server entry_bad_protocol) _ _ _ _ _); by_compute.
Defined.

(** The length of a password counts characters as well: the three
    characters of "日本語" take nine bytes and are still too few, so the method
    fails with the empty message. *)
Example password_length_in_characters :
  let o := get_want_authentication_policy_server (VDict entry_wide_password)
             (have_state no_server) in
  o = Normal tt (final o)
  /\ status (final o) = "failed"
  /\ msg (final o) = VStr EmptyString.
Proof. cbv zeta. split; [by_compute|]. split; by_compute. Qed.

(** ** The polling loop *)

Lemma polls_grow_trans (s1 s2 s3 : state) :
  (polls s1 <= polls s2)%nat -> (polls s2 <= polls s3)%nat ->
  (polls s1 <= polls s3)%nat.
Proof. apply Nat.le_trans. Qed.

Ltac polls_side :=
  first [ exact (fun s => Nat.le_refl (polls s))
        | exact polls_grow_trans
        | exact (Nat.le_refl _) ].

Lemma scan_validation_strings_polls vs td :
  frames (fun s s' => (polls s <= polls s')%nat) (scan_validation_strings vs td).
Proof.
  induction vs as [|v vs IH]; simpl; repeat frame_step polls_side. exact IH.
Qed.

Lemma poll_loop_polls (E : environment) n task_id start vs api :
  frames (fun s s' => (polls s <= polls s')%nat) (poll_loop E n task_id start vs api).
Proof.
  induction n as [|n IH]; simpl.
  - intros s. apply Nat.le_refl.
  - repeat frame_step polls_side;
      try apply scan_validation_strings_polls; try exact IH.
    + intros s. simpl. apply Nat.le_succ_diag_r.
    + intros s. apply Nat.le_refl.
Qed.

(** X3. [check_auth_server_response_status] submits no call of its own
    through [self.dnac._exec] and leaves [self.have], [self.want], the
    per-server result response and message and [self.max_timeout] as they
    were, however it ends.  What it sends to the controller are the polls
    of [get_task_details], one for each pass of the loop; they are counted
    in [polls], apart from the calls, and their number can only grow. *)
Theorem X3_polling_leaves_the_module_state
    (E : environment) (fuel : nat) (response : pyval) (vs : list string)
    (api : string) (s : state) :
  let s' := final (check_auth_server_response_status E fuel response vs api s) in
  same_outside_poll s s' /\ (polls s <= polls s')%nat.
Proof.
  cbv zeta. split; [apply check_auth_server_response_status_frame|].
  revert s.
  change (frames (fun s s' => (polls s <= polls s')%nat)
                 (check_auth_server_response_status E fuel response vs api)).
  unfold check_auth_server_response_status.
  repeat frame_step polls_side. apply poll_loop_polls.
Qed.

(** X4. A response whose "response" carries an errorcode is not polled at
    all: [check_auth_server_response_status] returns at once with status
    "failed" and the detail of the response as message, the poll count and
    the clock untouched. *)
Theorem X4_error_response_fails_without_polling
    (E : environment) (fuel : nat) (response : pyval) (r : list (string * pyval))
    (vs : list string) (api : string) (s : state) :
  py_get response "response" = Ok (VDict r) ->
  is_none (dict_get "errorcode" r) = false ->
  check_auth_server_response_status E fuel response vs api s
  = Normal tt (set_status "failed" (set_msg (dict_get "detail" r) s)).
Proof.
  intros Hresp Herr. unfold check_auth_server_response_status, method.
  rewrite Hresp.
  rewrite bind_lift_ok. cbv beta.
  change (py_get (VDict r) "errorcode") with (Ok (dict_get "errorcode" r)).
  rewrite bind_lift_ok. cbv beta. rewrite Herr. change (negb false) with true. cbv iota.
  change (py_get (VDict r) "detail") with (Ok (dict_get "detail" r)).
  reflexivity.
Qed.

Lemma X4_witness_refused_response :
  check_auth_server_response_status busy_controller 1001
    (VDict [("version", VStr "1.0"); ("response", VDict refused_response)])
    edit_validation_strings edit_function initial_state
  = Normal tt (set_status "failed"
                 (set_msg (dict_get "detail" refused_response) initial_state)).
Proof.
  refine (X4_error_response_fails_without_polling busy_controller 1001
            (VDict [("version", VStr "1.0"); ("response", VDict refused_response)])
            refused_response edit_validation_strings edit_function initial_state _ _);
    by_compute.
Defined.

(** ** format_payload_for_update *)

Lemma want_protocol_checked hd s : want (protocol_checked hd s) = want s.
Proof.
  unfold protocol_checked.
  now destruct (negb (py_eqb (dict_get "protocol" hd)
                             (field "protocol" (want_auth_server_of s))) &&
                negb (py_eqb (field "protocol" (want_auth_server_of s))
                             (VStr "RADIUS_TACACS"))).
Qed.

(** X5. [format_payload_for_update] on the details [hd] of the server and a
    payload [wd] always returns normally; it ends with status "success"
    exactly when the payload has none of authenticationPort, accountingPort
    and role with a value other than the current one and its protocol is the
    current one or "RADIUS_TACACS", and with status "failed" otherwise.  It
    touches nothing but [self.want], [self.msg] and [self.status], it leaves
    every field of the payload other than the three as it was, and on success
    the three omitted ones carry the current values. *)
Theorem X5_format_payload_for_update_outcome
    (hd wd : list (string * pyval)) (s : state) :
  want_auth_server_is s wd ->
  exists s',
    format_payload_for_update (VDict hd) s = Normal tt s'
    /\ same_results s s'
    /\ status s' = (if format_accepts hd wd then "success" else "failed")
    /\ (format_accepts hd wd = true -> want_auth_server_is s' (filled hd wd))
    /\ exists wd',
         want_auth_server_is s' wd'
         /\ forall k, ~ In k update_params -> dict_get k wd' = dict_get k wd.
Proof.
  intros Hw.
  destruct (format_payload_for_update_result hd s wd Hw) as (s' & Hf & Hsr & Hres).
  exists s'. split; [exact Hf|]. split; [exact Hsr|].
  split; [|split].
  - destruct (format_accepts hd wd); [apply Hres|exact Hres].
  - intros Ha. rewrite Ha in Hres. apply Hres.
  - pose proof (check_update_params_frame update_params hd s wd Hw)
      as ((wd' & Hw' & Hk) & _ & _ & _ & (s1 & Hs1)).
    rewrite (format_payload_for_update_eq _ _ _ Hw) in Hf.
    exists wd'. split; [|exact Hk].
    destruct Hs1 as [Hs1|Hs1]; rewrite Hs1 in Hf, Hw'; simpl in Hw';
      injection Hf as <-; [|exact Hw'].
    unfold want_auth_server_is. rewrite want_protocol_checked. exact Hw'.
Qed.

Lemma X5_witness_other_role :
  exists s',
    format_payload_for_update (VDict radius_details) other_role_state = Normal tt s'
    /\ same_results other_role_state s'
    /\ status s' = (if format_accepts radius_details other_role_payload
                    then "success" else "failed")
    /\ (format_accepts radius_details other_role_payload = true ->
        want_auth_server_is s' (filled radius_details other_role_payload))
    /\ exists wd',
         want_auth_server_is s' wd'
         /\ forall k, ~ In k update_params ->
                      dict_get k wd' = dict_get k other_role_payload.
Proof.
  refine (X5_format_payload_for_update_outcome radius_details other_role_payload
            other_role_state _).
  exists [("authenticationPolicyServer", VDict other_role_payload)].
  split; by_compute.
Defined.

(** ** requires_update *)

(** X6. [requires_update] with the parameters of
    "authenticationPolicyServer" reads protocol, retries and timeoutSeconds
    only: two pairs of current details and payload that agree on these three
    fields get the same answer, whatever their other fields are. *)
Theorem X6_requires_update_reads_three_fields
    (E : environment) (hd hd' wd wd' : list (string * pyval)) :
  (forall k, In k ["protocol"; "retries"; "timeoutSeconds"] ->
             dict_get k hd' = dict_get k hd /\ dict_get k wd' = dict_get k wd) ->
  requires_update E (VDict hd') (VDict wd') (get_obj_params "authenticationPolicyServer")
  = requires_update E (VDict hd) (VDict wd) (get_obj_params "authenticationPolicyServer").
Proof.
  intros H.
  change (get_obj_params "authenticationPolicyServer")
    with authentication_policy_server_obj_params.
  rewrite !requires_update_eq. unfold allow_listed_field_differs.
  change authentication_policy_server_obj_params
    with [("protocol", "protocol"); ("retries", "retries");
          ("timeoutSeconds", "timeoutSeconds")].
  cbn [existsb fst snd].
  destruct (H "protocol") as (-> & ->); [cbn; auto|].
  destruct (H "retries") as (-> & ->); [cbn; auto|].
  destruct (H "timeoutSeconds") as (-> & ->); [cbn; auto|].
  reflexivity.
Qed.

Lemma X6_witness_other_server :
  requires_update busy_controller (VDict ise_details) (VDict other_role_payload)
    (get_obj_params "authenticationPolicyServer")
  = requires_update busy_controller (VDict radius_details) (VDict other_role_payload)
      (get_obj_params "authenticationPolicyServer").
Proof.
  refine (X6_requires_update_reads_three_fields busy_controller radius_details
            ise_details other_role_payload other_role_payload _).
  intros k [<-|[<-|[<-|[]]]]; split; by_compute.
Defined.

(** ** The creation of a server that is not a Cisco ISE server *)

Lemma method_never_returns (c : M unit) s s' : method c s <> Returned s'.
Proof. unfold method. destruct (c s); discriminate. Qed.

Lemma check_ise_integration_skipped (E : environment) ip is_ise s :
  py_truthy is_ise = false -> check_ise_integration E ip is_ise s = Normal tt s.
Proof.
  intros H. unfold check_ise_integration. rewrite bind_read. cbv beta.
  now rewrite H.
Qed.

(** The creation of a server that is no Cisco ISE server: its calls, and
    the result of the server when it returns. *)
Lemma create_plain_server_run (E : environment) fuel ip is_ise s wd :
  py_hashable ip = true ->
  want_auth_server_is s wd ->
  key_get ip (res_response s) = VDict [] ->
  py_truthy is_ise = false ->
  let o := create_server E fuel ip is_ise s in
  calls (final o) = (calls s ++ [add_call wd])%list
  /\ (forall a s', o <> Normal a s')
  /\ forall s', o = Returned s' ->
       if String.eqb (status s') "failed" then
         res_msg s' = res_msg s /\ key_get ip (res_response s') = VDict []
       else
         res_msg s' = assoc_set py_eqb ip (VStr msg_created) (res_msg s)
         /\ key_get ip (res_response s')
            = VDict [("authenticationPolicyServer Details", VDict wd)].
Proof.
  intros Hh Hw Hres Hise o.
  assert (Ho : o = create_server E fuel ip is_ise s) by reflexivity. clearbody o.
  unfold create_server in Ho.
  unfold bind at 1 in Ho. rewrite (read_want_auth_server_is _ _ Hw) in Ho.
  unfold bind at 1 in Ho. unfold exec at 1 in Ho. fold (add_call wd) in Ho.
  destruct (dnac_exec E (calls s) (add_call wd)) as [r|e].
  2: { subst o. split; [reflexivity|]. split; intros; discriminate. }
  cbv beta iota in Ho.
  set (s1 := set_calls (calls s ++ [add_call wd]) s) in Ho.
  pose proof (check_auth_server_response_status_frame E fuel r
                ["successfully created aaa settings"; "operation sucessful"]
                add_function s1) as Hfr.
  unfold bind at 1 in Ho.
  destruct (check_auth_server_response_status E fuel r
              ["successfully created aaa settings"; "operation sucessful"]
              add_function s1) as [[] s2|s2|e s2|s2|s2] eqn:Hpoll;
    simpl in Hfr; destruct Hfr as (Hcalls & _ & Hwant & Hresp & Hmsg & _).
  - rewrite bind_read in Ho. cbv beta in Ho.
    destruct (String.eqb (status s2) "failed") eqn:Hst.
    + subst o. split; [exact Hcalls|]. split; [intros; discriminate|].
      intros s' Hs'. injection Hs' as <-. rewrite Hst.
      split; [exact Hmsg|]. rewrite Hresp. exact Hres.
    + rewrite (bind_normal _ _ _ _ _ (check_ise_integration_skipped E _ _ s2 Hise)) in Ho.
      assert (Hw2 : want_auth_server_is s2 wd).
      { unfold want_auth_server_is. rewrite Hwant. exact Hw. }
      unfold bind at 1 in Ho. rewrite (read_want_auth_server_is _ _ Hw2) in Ho.
      unfold result_response_update, result_msg_set, key_update in Ho.
      unfold bind, read, lift, modify, return_self in Ho. rewrite Hh, Hresp in Ho.
      change (res_response s1) with (res_response s) in Ho. rewrite Hres in Ho.
      simpl in Ho. subst o.
      split; [exact Hcalls|]. split; [intros; discriminate|].
      intros s' Hs'. injection Hs' as <-. simpl. rewrite Hst.
      split; [now rewrite Hmsg|]. apply key_get_set_same.
  - exfalso. unfold check_auth_server_response_status in Hpoll.
    exact (method_never_returns _ _ _ Hpoll).
  - subst o. split; [exact Hcalls|]. split; intros; discriminate.
  - subst o. split; [exact Hcalls|]. split; intros; discriminate.
  - subst o. split; [exact Hcalls|]. split; intros; discriminate.
Qed.

(** X7. For a server the controller does not have and a payload whose
    isIseEnabled is false, the only call that [get_diff_merged] submits
    through [self.dnac._exec] is the create call
    (add_authentication_and_policy_server_access_configuration) with the
    payload; the task of the creation is then polled through
    [get_task_details].  When it returns with a status other than "failed",
    the result of the server holds the payload as
    "authenticationPolicyServer Details" and the message
    "Authentication and Policy Server Created Successfully"; when it returns
    with status "failed", the result of the server is empty and its message
    is as it was. *)
Theorem X7_new_plain_server_is_created
    (E : environment) (fuel : nat) (config ipAddress : pyval)
    (wd : list (string * pyval)) (s : state) :
  config_server config ipAddress ->
  py_hashable ipAddress = true ->
  want_auth_server_is s wd ->
  server_absent s ->
  py_truthy (dict_get "isIseEnabled" wd) = false ->
  let o := get_diff_merged E fuel config s in
  calls (final o)
  = (calls s
     ++ [mkCall "system_settings"
                "add_authentication_and_policy_server_access_configuration"
                (VDict wd)])%list
  /\ forall s', o = Normal tt s' ->
       if String.eqb (status s') "failed" then
         res_msg s' = res_msg s
         /\ key_get ipAddress (res_response s') = VDict []
       else
         res_msg s'
         = assoc_set py_eqb ipAddress
             (VStr "Authentication and Policy Server Created Successfully") (res_msg s)
         /\ key_get ipAddress (res_response s')
            = VDict [("authenticationPolicyServer Details", VDict wd)].
Proof.
  intros Hc Hh Hw Ha Hise o. subst o.
  change (mkCall "system_settings"
                 "add_authentication_and_policy_server_access_configuration" (VDict wd))
    with (add_call wd).
  change "Authentication and Policy Server Created Successfully" with msg_created.
  rewrite (get_diff_merged_eq _ _ _ _ _ Hc). unfold method.
  rewrite (update_auth_policy_server_absent _ _ _ _ _ Hh Hw Ha). unfold method.
  destruct (create_plain_server_run E fuel ipAddress (dict_get "isIseEnabled" wd)
              (after_result_reset ipAddress s) wd Hh Hw
              (key_get_set_same _ _ _) Hise) as (Hcalls & Hnn & Hret).
  destruct (create_server E fuel ipAddress (dict_get "isIseEnabled" wd)
              (after_result_reset ipAddress s)) as [a s2|s2|e s2|s2|s2].
  - exfalso. exact (Hnn a s2 eq_refl).
  - split; [exact Hcalls|]. intros s' Hs'. injection Hs' as <-.
    exact (Hret s2 eq_refl).
  - split; [exact Hcalls|discriminate].
  - split; [exact Hcalls|discriminate].
  - split; [exact Hcalls|discriminate].
Qed.

Lemma X7_witness_new_aaa_server :
  let s := wanted_state no_server entry_new_aaa in
  let o := get_diff_merged slow_controller 1001 (playbook entry_new_aaa) s in
  calls (final o)
  = (calls s
     ++ [mkCall "system_settings"
                "add_authentication_and_policy_server_access_configuration"
                (VDict (payload_of s))])%list
  /\ forall s', o = Normal tt s' ->
       if String.eqb (status s') "failed" then
         res_msg s' = res_msg s
         /\ key_get (VStr "10.0.0.9") (res_response s') = VDict []
       else
         res_msg s'
         = assoc_set py_eqb (VStr "10.0.0.9")
             (VStr "Authentication and Policy Server Created Successfully") (res_msg s)
         /\ key_get (VStr "10.0.0.9") (res_response s')
            = VDict [("authenticationPolicyServer Details", VDict (payload_of s))].
Proof.
  refine (X7_new_plain_server_is_created slow_controller 1001 (playbook entry_new_aaa)
            (VStr "10.0.0.9") (payload_of (wanted_state no_server entry_new_aaa))
            (wanted_state no_server entry_new_aaa) _ _ _ _ _).
  - eexists. split; [by_compute|]. split; by_compute.
  - by_compute.
  - eexists. split; by_compute.
  - exists no_server, (VBool false). split; [by_compute|]. split; by_compute.
  - by_compute.
Defined.

(** ** auth_server_exists *)

Lemma auth_server_exists_run (E : environment) (ipAddress : pyval) (s : state) :
  let o := auth_server_exists E ipAddress s in
  final o = set_calls (calls s ++ [get_servers_call]) s
  /\ ((exists v, o = Normal v (final o)) \/ (exists e, o = Raised e (final o)))
  /\ forall v s', o = Normal v s' ->
       v = server_not_found
       \/ exists response record details,
            dnac_exec E (calls s) get_servers_call = Ok response
            /\ is_dict response = true
            /\ record = get_dict_result E (field "response" response) "ipAddress" ipAddress
            /\ py_truthy record = true
            /\ get_auth_server_params record = Ok details
            /\ v = VDict [("exists", VBool true); ("details", details);
                          ("id", field "instanceUuid" record)].
Proof.
  intros o.
  assert (Ho : o = auth_server_exists E ipAddress s) by reflexivity. clearbody o.
  unfold auth_server_exists in Ho.
  unfold bind at 1 in Ho. unfold exec at 1 in Ho. fold get_servers_call in Ho.
  destruct (dnac_exec E (calls s) get_servers_call) as [response|e] eqn:Hexec.
  2: { subst o. split; [reflexivity|]. split; [right; eexists; reflexivity|intros; discriminate]. }
  cbv beta iota in Ho.
  destruct (is_dict response) eqn:Hdict.
  2: { subst o. split; [reflexivity|]. split; [left; eexists; reflexivity|]. intros v s' [= <- <-]. now left. }
  change (negb true) with false in Ho. cbv iota in Ho.
  destruct response as [| | | | |rd]; try discriminate.
  change (py_get (VDict rd) "response") with (Ok (dict_get "response" rd)) in Ho.
  rewrite bind_lift_ok in Ho. cbv beta zeta in Ho.
  set (record := get_dict_result E (dict_get "response" rd) "ipAddress" ipAddress) in Ho.
  destruct (py_truthy record) eqn:Ht.
  2: { subst o. split; [reflexivity|]. split; [left; eexists; reflexivity|]. intros v s' [= <- <-]. now left. }
  change (negb true) with false in Ho. cbv iota in Ho.
  unfold bind at 1 in Ho. unfold lift at 1 in Ho.
  destruct (py_get record "instanceUuid") as [uuid|e] eqn:Hid.
  2: { subst o. split; [reflexivity|]. split; [right; eexists; reflexivity|intros; discriminate]. }
  unfold bind at 1 in Ho. unfold lift at 1 in Ho.
  destruct (get_auth_server_params record) as [details|e] eqn:Hp.
  2: { subst o. split; [reflexivity|]. split; [right; eexists; reflexivity|intros; discriminate]. }
  subst o. split; [reflexivity|]. split; [left; eexists; reflexivity|]. intros v s' [= <- <-]. right.
  exists (VDict rd), record, details.
  split; [reflexivity|]. split; [reflexivity|]. split; [reflexivity|].
  split; [exact Ht|]. split; [exact Hp|].
  destruct record; try discriminate. simpl in Hid. injection Hid as <-. reflexivity.
Qed.

(** X9. [auth_server_exists] submits one call, the read of the servers, and
    changes nothing else; it returns or raises.  When it returns, the value
    is the dict with exists False and no details and no id, or, when the
    response is a dict in which [get_dict_result] finds a record for the
    address, the dict with exists True, the instanceUuid of the record as id
    and the record as [get_auth_server_params] formats it as details. *)
Theorem X9_auth_server_exists_result
    (E : environment) (ipAddress : pyval) (s : state) :
  let o := auth_server_exists E ipAddress s in
  final o = set_calls (calls s ++ [get_servers_call]) s
  /\ ((exists v, o = Normal v (final o)) \/ (exists e, o = Raised e (final o)))
  /\ forall v s', o = Normal v s' ->
       v = server_not_found
       \/ exists response record details,
            dnac_exec E (calls s) get_servers_call = Ok response
            /\ is_dict response = true
            /\ record = get_dict_result E (field "response" response) "ipAddress" ipAddress
            /\ py_truthy record = true
            /\ get_auth_server_params record = Ok details
            /\ v = VDict [("exists", VBool true); ("details", details);
                          ("id", field "instanceUuid" record)].
Proof. exact (auth_server_exists_run E ipAddress s). Qed.

(** ** accept_cisco_ise_server_certificate *)

Lemma accept_certificate_run
    (E : environment) (ipAddress trusted_server : pyval) (s : state) :
  exists s',
    accept_cisco_ise_server_certificate E ipAddress trusted_server s = Normal tt s'
    /\ status s' = status s
    /\ have s' = have s /\ want s' = want s /\ changed s' = changed s
    /\ res_response s' = res_response s /\ res_msg s' = res_msg s
    /\ validation_string s' = validation_string s
    /\ calls s'
       = (calls s ++ get_servers_call
            :: match accepted_id (auth_server_exists E ipAddress s) with
               | Some id => [accept_call id trusted_server]
               | None => []
               end)%list.
Proof.
  destruct (auth_server_exists_run E ipAddress s) as (Hfin & Hout & _).
  unfold accept_cisco_ise_server_certificate, method, try_except.
  unfold bind at 1.
  set (s1 := set_calls (calls s ++ [get_servers_call]) s) in *.
  destruct Hout as [(v & Hv)|(e & He)]; rewrite Hfin in *.
  2: { rewrite He. eexists. split; [reflexivity|]. simpl.
       repeat (split; [reflexivity|]). reflexivity. }
  rewrite Hv. cbv beta iota. unfold accepted_id.
  destruct (py_truthy v).
  2: { eexists. split; [reflexivity|]. simpl.
       repeat (split; [reflexivity|]). reflexivity. }
  change (negb true) with false. cbv iota. cbn [andb].
  unfold bind at 1. unfold lift at 1.
  destruct v as [| | | | |server]; cbn [py_get field];
    try (eexists; split; [reflexivity|]; simpl;
         repeat (split; [reflexivity|]); reflexivity).
  destruct (py_truthy (dict_get "id" server)) eqn:Hid.
  2: { eexists. split; [reflexivity|]. simpl.
       repeat (split; [reflexivity|]). reflexivity. }
  change (negb true) with false. cbv iota.
  unfold bind at 1. unfold exec at 1.
  fold (accept_call (dict_get "id" server) trusted_server).
  destruct (dnac_exec E (calls s1) (accept_call (dict_get "id" server) trusted_server));
    (eexists; split; [reflexivity|]; simpl;
     repeat (split; [reflexivity|]); now rewrite <- app_assoc).
Qed.

(** X10. [accept_cisco_ise_server_certificate] always returns normally: it
    raises nothing and never ends the module run.  It leaves the status, the
    current and the desired state and the result as they were, also when the
    server or its id is not found, so a certificate that was not accepted is
    not reported as a failure.  Its calls are the read of the servers,
    followed by the accept call for the id of the server that
    [auth_server_exists] returned, with the given trust flag, exactly when
    that server and its id are true values. *)
Theorem X10_accept_certificate_never_fails
    (E : environment) (ipAddress trusted_server : pyval) (s : state) :
  exists s',
    accept_cisco_ise_server_certificate E ipAddress trusted_server s = Normal tt s'
    /\ status s' = status s
    /\ have s' = have s /\ want s' = want s /\ changed s' = changed s
    /\ res_response s' = res_response s /\ res_msg s' = res_msg s
    /\ validation_string s' = validation_string s
    /\ calls s'
       = (calls s ++ get_servers_call
            :: match accepted_id (auth_server_exists E ipAddress s) with
               | Some id => [accept_call id trusted_server]
               | None => []
               end)%list.
Proof. exact (accept_certificate_run E ipAddress trusted_server s). Qed.

(** The RADIUS server of the slow controller is found, and its certificate
    accepted with the trust flag of the call. *)
Example certificate_of_the_found_server_is_accepted :
  new_calls initial_state
    (final (accept_cisco_ise_server_certificate slow_controller (VStr "10.0.0.1")
              (VBool true) initial_state))
  = [get_servers_call; accept_call (VStr "0a1b2c3d") (VBool true)]
  /\ new_calls initial_state
       (final (accept_cisco_ise_server_certificate busy_controller (VStr "10.0.0.1")
                 (VBool true) initial_state))
     = [get_servers_call].
Proof. split; by_compute. Qed.


(** ** get_have *)

Lemma get_have_run (E : environment) (config ipAddress : pyval) (s : state)
    (h : list (string * pyval)) :
  config_server config ipAddress ->
  have s = VDict h ->
  let s1 := set_calls (calls s ++ [get_servers_call]) s in
  (is_none ipAddress = true ->
   get_have E config s
   = Exited (set_status "failed"
               (set_msg (VStr "Missing parameter 'server_ip_address' is required.") s)))
  /\ (is_none ipAddress = false ->
      (forall server, auth_server_exists E ipAddress s = Normal server s1 ->
         get_have E config s
         = Normal tt
             (set_status "success"
                (set_msg (VStr have_collected_msg)
                   (set_have (VDict (dict_set "authenticationPolicyServer" server h)) s1))))
      /\ (forall e, auth_server_exists E ipAddress s = Raised e s1 ->
            get_have E config s = Raised e s1)).
Proof.
  intros (aps & Ha & Hn & Hip) Hh s1.
  assert (Hrun : get_have E config s =
                 method (
                   (method (
                      if is_none ipAddress then
                        fail "Missing parameter 'server_ip_address' is required."
                      else
                        AuthServer <- auth_server_exists E ipAddress ;;
                        h <- read have ;;
                        h' <- lift (py_update h "authenticationPolicyServer" AuthServer) ;;
                        modify (set_have h') ;;
                        modify (set_msg (VStr ("Collecting the Authentication and Policy Server "
                                                 ++ "details from the Cisco Catalyst Center."))) ;;
                        modify (set_status "success")) ;;
                    check_return_status) ;;
                   modify (set_msg (VStr have_collected_msg)) ;;
                   modify (set_status "success")) s).
  { unfold get_have, get_have_authentication_policy_server, method, bind, lift.
    rewrite Ha. cbv beta iota. rewrite Hn. change (negb false) with true.
    cbv beta iota. rewrite Hip. reflexivity. }
  rewrite Hrun. clear Hrun. unfold method.
  split.
  - intros Hnone. rewrite Hnone. reflexivity.
  - intros Hnone. rewrite Hnone. split.
    + intros server Hs. unfold bind at 1 2 3. rewrite Hs. cbv beta iota.
      rewrite bind_read. cbv beta. change (have s1) with (have s). rewrite Hh.
      reflexivity.
    + intros e He. unfold bind at 1 2 3. rewrite He. reflexivity.
Qed.

(** X11. For a config element that names a server, a [get_have] that returns
    has submitted one call, the read of the servers, has status "success" and
    has put into [self.have] what [auth_server_exists] found: the server
    with exists False, or the server with exists True, its id and its
    formatted details.  [self.want] is as it was. *)
Theorem X11_get_have_collects_the_server
    (E : environment) (config ipAddress : pyval) (h : list (string * pyval))
    (s s' : state) :
  config_server config ipAddress ->
  have s = VDict h ->
  get_have E config s = Normal tt s' ->
  status s' = "success"
  /\ msg s' = VStr have_collected_msg
  /\ calls s' = (calls s ++ [get_servers_call])%list
  /\ want s' = want s
  /\ exists server,
       have s' = VDict (dict_set "authenticationPolicyServer" server h)
       /\ (server = server_not_found
           \/ exists response record details,
                dnac_exec E (calls s) get_servers_call = Ok response
                /\ is_dict response = true
                /\ record = get_dict_result E (field "response" response)
                              "ipAddress" ipAddress
                /\ py_truthy record = true
                /\ get_auth_server_params record = Ok details
                /\ server = VDict [("exists", VBool true); ("details", details);
                                   ("id", field "instanceUuid" record)]).
Proof.
  intros Hc Hh Hrun.
  destruct (get_have_run E config ipAddress s h Hc Hh) as (Hmiss & Hfound).
  destruct (is_none ipAddress) eqn:Hnone.
  { rewrite (Hmiss eq_refl) in Hrun. discriminate. }
  destruct (Hfound eq_refl) as (Hok & Herr).
  destruct (auth_server_exists_run E ipAddress s) as (Hfin & Hout & Hval).
  destruct Hout as [(v & Hv)|(e & He)]; rewrite Hfin in *.
  - rewrite (Hok v Hv) in Hrun. injection Hrun as <-.
    split; [reflexivity|]. split; [reflexivity|]. split; [reflexivity|].
    split; [reflexivity|]. exists v. split; [reflexivity|].
    exact (Hval v _ Hv).
  - rewrite (Herr e He) in Hrun. discriminate.
Qed.

(** X12. For a config element whose authentication_policy_server has no
    server_ip_address, [get_have] ends the module run with status "failed"
    and the message "Missing parameter 'server_ip_address' is required.",
    before any call. *)
Theorem X12_get_have_requires_the_address
    (E : environment) (config aps : pyval) (s : state) :
  py_get config "authentication_policy_server" = Ok aps ->
  is_none aps = false ->
  py_get aps "server_ip_address" = Ok VNone ->
  get_have E config s
  = Exited (set_status "failed"
              (set_msg (VStr "Missing parameter 'server_ip_address' is required.") s)).
Proof.
  intros Ha Hn Hip.
  unfold get_have, get_have_authentication_policy_server, method, bind, lift.
  rewrite Ha. cbv beta iota. rewrite Hn. change (negb false) with true.
  cbv beta iota. rewrite Hip. reflexivity.
Qed.

Lemma X11_witness_radius_server_found :
  let s' := final (get_have slow_controller (playbook entry_more_retries) initial_state) in
  status s' = "success"
  /\ msg s' = VStr have_collected_msg
  /\ calls s' = (calls initial_state ++ [get_servers_call])%list
  /\ want s' = want initial_state
  /\ exists server,
       have s' = VDict (dict_set "authenticationPolicyServer" server [])
       /\ (server = server_not_found
           \/ exists response record details,
                dnac_exec slow_controller (calls initial_state) get_servers_call
                = Ok response
                /\ is_dict response = true
                /\ record = get_dict_result slow_controller (field "response" response)
                              "ipAddress" (VStr "10.0.0.1")
                /\ py_truthy record = true
                /\ get_auth_server_params record = Ok details
                /\ server = VDict [("exists", VBool true); ("details", details);
                                   ("id", field "instanceUuid" record)]).
Proof.
  refine (X11_get_have_collects_the_server slow_controller (playbook entry_more_retries)
            (VStr "10.0.0.1") []
            initial_state
            (final (get_have slow_controller (playbook entry_more_retries) initial_state))
            _ _ _).
  - eexists. split; [by_compute|]. split; by_compute.
  - by_compute.
  - by_compute.
Defined.

Lemma X12_witness_entry_without_address :
  get_have busy_controller (playbook entry_without_address) initial_state
  = Exited (set_status "failed"
              (set_msg (VStr "Missing parameter 'server_ip_address' is required.")
                       initial_state)).
Proof.
  refine (X12_get_have_requires_the_address busy_controller
            (playbook entry_without_address) (VDict entry_without_address)
            initial_state _ _ _); by_compute.
Defined.

(** ** A config element without a server *)

(** X13. A config element that has no authentication_policy_server is
    skipped: for either state the loop body of [main] returns normally with
    status "success" and without any call; it only clears [self.have] and
    [self.want] and leaves the message of the last step that sets one. *)
Theorem X13_element_without_server_is_skipped
    (E : environment) (fuel : nat) (state_ : run_state) (c : list (string * pyval))
    (s : state) :
  dict_get "authentication_policy_server" c = VNone ->
  process_config E fuel state_ (VDict c) s
  = Normal tt
      (set_status "success"
         (set_msg (VStr (match state_ with
                         | merged => "Successfully retrieved details from the playbook"
                         | deleted => have_collected_msg
                         end))
            (set_want (VDict []) (set_have (VDict []) s)))).
Proof.
  intros Hc.
  unfold process_config, reset_values, get_have, get_want, get_diff_state_apply,
    get_diff_merged, get_diff_deleted, check_return_status, method, bind, lift, modify, ret.
  cbn [py_get]. rewrite Hc.
  destruct state_; cbn; reflexivity.
Qed.

Lemma X13_witness_empty_element :
  process_config busy_controller 3 merged (VDict []) initial_state
  = Normal tt
      (set_status "success"
         (set_msg (VStr "Successfully retrieved details from the playbook")
            (set_want (VDict []) (set_have (VDict []) initial_state)))).
Proof.
  refine (X13_element_without_server_is_skipped busy_controller 3 merged []
            initial_state _).
  by_compute.
Defined.

(** ** get_auth_server_params *)

Lemma auth_server_ise_dtos_shape creds :
  forall dtos, auth_server_ise_dtos creds = Ok dtos ->
    length dtos = length creds /\ Forall ise_dto_shape dtos.
Proof.
  induction creds as [|cred creds IH]; intros dtos H; cbn [auth_server_ise_dtos] in H.
  - injection H as <-. split; [reflexivity|constructor].
  - destruct cred as [| | | | |x]; try discriminate H.
    cbn [py_get rbind] in H.
    destruct (auth_server_ise_dtos creds) as [rest|e]; [|discriminate H].
    cbn [rbind] in H. injection H as <-.
    destruct (IH rest eq_refl) as (Hlen & Hall).
    split; [simpl; now rewrite Hlen|].
    constructor; [|exact Hall]. eexists. split; reflexivity.
Qed.

(** X14. The details that [get_auth_server_params] makes of a non-empty
    record of the controller: the record is a dict; retries and
    timeoutSeconds are the text of the record's values and isIseEnabled is
    the record's iseEnabled; nine fields are copied as they are; when
    iseEnabled is True there is one formatted credential for each of the
    record's ciscoIseDtos, each with exactly userName, fqdn, ipAddress,
    subscriberName and description; and the details have no other field, so
    no secret or password of the record gets into them. *)
Theorem X14_formatted_details
    (record details : pyval) :
  py_truthy record = true ->
  get_auth_server_params record = Ok details ->
  exists d dd,
    record = VDict d /\ details = VDict dd
    /\ dict_get "retries" dd = VStr (py_str (dict_get "retries" d))
    /\ dict_get "timeoutSeconds" dd = VStr (py_str (dict_get "timeoutSeconds" d))
    /\ dict_get "isIseEnabled" dd = dict_get "iseEnabled" d
    /\ (forall k, In k copied_fields -> dict_get k dd = dict_get k d)
    /\ (forall k, ~ In k (copied_fields ++ formatted_fields) -> dict_get k dd = VNone)
    /\ if is_True (dict_get "iseEnabled" d) then
         exists creds dtos,
           py_iter (dict_get "ciscoIseDtos" d) = Ok creds
           /\ dict_get "ciscoIseDtos" dd = VList dtos
           /\ length dtos = length creds
           /\ Forall ise_dto_shape dtos
       else dict_get "ciscoIseDtos" dd = VNone.
Proof.
  intros Ht H. unfold get_auth_server_params in H. rewrite Ht in H.
  change (negb true) with false in H. cbv iota zeta in H.
  destruct record as [| | | | |d]; try discriminate H.
  cbn [py_get rbind] in H.
  assert (Hother : forall (k : string) (tail : list (string * pyval)),
             ~ In k (copied_fields ++ formatted_fields) ->
             dict_get k
               ([("authenticationPort", dict_get "authenticationPort" d);
                 ("accountingPort", dict_get "accountingPort" d);
                 ("isIseEnabled", dict_get "iseEnabled" d);
                 ("ipAddress", dict_get "ipAddress" d);
                 ("pxgridEnabled", dict_get "pxgridEnabled" d);
                 ("useDnacCertForPxgrid", dict_get "useDnacCertForPxgrid" d);
                 ("port", dict_get "port" d);
                 ("protocol", dict_get "protocol" d);
                 ("retries", VStr (py_str (dict_get "retries" d)));
                 ("role", dict_get "role" d);
                 ("timeoutSeconds", VStr (py_str (dict_get "timeoutSeconds" d)));
                 ("encryptionScheme", dict_get "encryptionScheme" d)] ++ tail)%list
             = dict_get k tail).
  { intros k tail Hk. unfold dict_get at 1 14. cbn [app assoc_get].
    repeat match goal with
           | |- context [String.eqb k ?x] =>
               destruct (String.eqb_spec k x) as [->|_];
               [exfalso; apply Hk; cbn; tauto|]
           end.
    reflexivity. }
  destruct (is_True (dict_get "iseEnabled" d)) eqn:Hise.
  - destruct (py_iter (dict_get "ciscoIseDtos" d)) as [creds|e] eqn:Hiter;
      [|discriminate H].
    cbn [rbind] in H.
    destruct (auth_server_ise_dtos creds) as [dtos|e] eqn:Hdtos; [|discriminate H].
    cbn [rbind] in H. injection H as <-.
    destruct (auth_server_ise_dtos_shape creds dtos Hdtos) as (Hlen & Hall).
    eexists _, _. split; [reflexivity|]. split; [reflexivity|].
    split; [reflexivity|]. split; [reflexivity|]. split; [reflexivity|].
    split; [|split].
    + intros k Hk. cbn in Hk.
      repeat (destruct Hk as [<-|Hk]; [reflexivity|]). destruct Hk.
    + intros k Hk.
      etransitivity; [exact (Hother k [("ciscoIseDtos", VList dtos)] Hk)|].
      unfold dict_get. cbn [assoc_get].
      destruct (String.eqb_spec k "ciscoIseDtos") as [->|_]; [|reflexivity].
      exfalso; apply Hk; cbn; tauto.
    + rewrite Hise. exists creds, dtos. split; [exact Hiter|]. split; [reflexivity|].
      split; [exact Hlen|exact Hall].
  - injection H as <-.
    eexists _, _. split; [reflexivity|]. split; [reflexivity|].
    split; [reflexivity|]. split; [reflexivity|]. split; [reflexivity|].
    split; [|split].
    + intros k Hk. cbn in Hk.
      repeat (destruct Hk as [<-|Hk]; [reflexivity|]). destruct Hk.
    + intros k Hk. pose proof (Hother k [] Hk) as Hnil.
      rewrite app_nil_r in Hnil. exact Hnil.
    + rewrite Hise. reflexivity.
Qed.

Lemma X14_witness_ise_record :
  exists d dd,
    ise_record = VDict d
    /\ match get_auth_server_params ise_record with Ok v => v | Err _ => VNone end
       = VDict dd
    /\ dict_get "retries" dd = VStr (py_str (dict_get "retries" d))
    /\ dict_get "timeoutSeconds" dd = VStr (py_str (dict_get "timeoutSeconds" d))
    /\ dict_get "isIseEnabled" dd = dict_get "iseEnabled" d
    /\ (forall k, In k copied_fields -> dict_get k dd = dict_get k d)
    /\ (forall k, ~ In k (copied_fields ++ formatted_fields) -> dict_get k dd = VNone)
    /\ if is_True (dict_get "iseEnabled" d) then
         exists creds dtos,
           py_iter (dict_get "ciscoIseDtos" d) = Ok creds
           /\ dict_get "ciscoIseDtos" dd = VList dtos
           /\ length dtos = length creds
           /\ Forall ise_dto_shape dtos
       else dict_get "ciscoIseDtos" dd = VNone.
Proof.
  refine (X14_formatted_details ise_record
            (match get_auth_server_params ise_record with Ok v => v | Err _ => VNone end)
            _ _); by_compute.
Defined.

(** ** The fields of the payload of get_want_authentication_policy_server *)

Lemma py_get_field v k x : py_get v k = Ok x -> x = field k v.
Proof. destruct v; simpl; congruence. Qed.

Ltac fields :=
  repeat match goal with
  | H : py_get _ _ = Ok _ |- _ => apply py_get_field in H; subst
  end.

Section WantChecks.
Variables (cfg ex det : pyval) (d : list (string * pyval)).

Lemma want_ise_enabled_check :
  spec (fun a => writes ["isIseEnabled"] d a
                 /\ ise_enabled_chosen ex det (field "server_type" cfg)
                                       (field "isIseEnabled" a))
       any_msg (want_ise_enabled cfg ex det (VDict d)).
Proof.
  unfold want_ise_enabled, not_exists, ise_enabled_chosen.
  destruct (py_truthy ex); change (negb true) with false; change (negb false) with true;
    cbv iota.
  - repeat (spec_step; updated); fields.
    split; [now apply writes_set|]. simpl. apply dict_get_set_same.
  - repeat (spec_step; updated); fields; try exact I.
    + split; [now apply writes_set|]. simpl. rewrite dict_get_set_same.
      match goal with H : py_eqb _ _ = true |- _ => now rewrite H end.
    + split; [now apply writes_set|]. simpl. rewrite dict_get_set_same.
      match goal with H : py_eqb _ _ = false |- _ => now rewrite H end.
Qed.

Lemma want_ip_address_check :
  spec (fun a => writes ["ipAddress"] d a
                 /\ field "ipAddress" a = field "server_ip_address" cfg)
       any_msg (want_ip_address cfg (VDict d)).
Proof.
  unfold want_ip_address.
  repeat (spec_step; updated); fields.
  split; [now apply writes_set|]. simpl. apply dict_get_set_same.
Qed.

Lemma want_shared_secret_check :
  spec (fun a => writes ["sharedSecret"] d a /\ (py_truthy ex = true -> a = VDict d))
       any_msg (want_shared_secret cfg ex (VDict d)).
Proof.
  unfold want_shared_secret, not_exists.
  destruct (py_truthy ex); change (negb true) with false; change (negb false) with true;
    cbv iota.
  - apply spec_ret. split; [apply writes_refl|reflexivity].
  - repeat (spec_step; updated); try exact I.
    split; [now apply writes_set|discriminate].
Qed.

Lemma want_protocol_check :
  spec (fun a => writes ["protocol"; "port"] d a
                 /\ field "port" a = VInt 49
                 /\ protocol_chosen ex det (field "protocol" cfg) (field "protocol" a))
       any_msg (want_protocol cfg ex det (VDict d)).
Proof.
  unfold want_protocol, not_exists, protocol_chosen.
  repeat (spec_step; updated); fields; try exact I;
    (split; [solve_writes|]); (split; [simpl; apply dict_get_set_same|]);
    repeat match goal with
           | H : negb _ = false |- _ => apply Bool.negb_false_iff in H
           | H : negb _ = true |- _ => apply Bool.negb_true_iff in H
           end;
    (split; [assumption|]); simpl;
    rewrite dict_get_set_other by reflexivity; rewrite dict_get_set_same;
    repeat match goal with H : _ = _ |- _ => rewrite H end; reflexivity.
Qed.

Lemma want_encryption_check :
  spec (fun a => writes ["encryptionScheme"; "messageKey"; "encryptionKey"] d a
                 /\ (py_truthy ex = true -> a = VDict d))
       any_msg (want_encryption cfg ex (VDict d)).
Proof.
  unfold want_encryption, not_exists.
  destruct (py_truthy ex); change (negb true) with false; change (negb false) with true;
    cbv iota.
  - apply spec_ret. split; [apply writes_refl|reflexivity].
  - repeat (spec_step; updated); try exact I;
      (split; [solve_writes|discriminate]).
Qed.

Lemma want_port_check param key default m1 m2 :
  spec (fun a => writes [key] d a
                 /\ (py_truthy ex = false ->
                     port_checked (field param cfg) default (field key a)))
       any_msg
       (want_port cfg ex det param key default m1 m2 (VDict d)).
Proof.
  unfold want_port, not_exists, port_checked.
  destruct (py_truthy ex); change (negb true) with false; change (negb false) with true;
    cbv iota.
  - repeat (spec_step; updated).
    split; [apply writes_set; simpl; now rewrite String.eqb_refl|discriminate].
  - repeat (spec_step; updated); fields; try exact I.
    all: split; [apply writes_set; simpl; now rewrite String.eqb_refl|]; intros _;
      simpl; rewrite dict_get_set_same.
    all: repeat match goal with
           | H : negb _ = false |- _ => apply Bool.negb_false_iff in H
           | H : negb _ = true |- _ => apply Bool.negb_true_iff in H
           end.
    all: match goal with
         | Hlt : py_lt_int ?p 1 = Ok false, Hgt : py_gt_int ?p 65535 = Ok false |- _ =>
             destruct p as [|b|z| | |] eqn:Hp; try discriminate Hlt
         end.
    all: try match goal with
         | H : isdigit (py_str (VBool ?b)) = true |- _ => destruct b; discriminate H
         end.
    all: match goal with
         | Hlt : py_lt_int (VInt ?z) 1 = Ok false,
           Hgt : py_gt_int (VInt ?z) 65535 = Ok false |- _ =>
             simpl in Hlt, Hgt; injection Hlt as Hlt; injection Hgt as Hgt;
             apply Z.ltb_ge in Hlt, Hgt; exists z
         end.
    all: split; [reflexivity|]; split; [lia|].
    all: destruct (py_truthy (field param cfg)) eqn:Hgiven; simpl in Hp;
      congruence.
Qed.

Lemma want_retries_check :
  spec (fun a => writes ["retries"] d a
                 /\ retries_checked ex det (field "retries" cfg) (field "retries" a))
       any_msg (want_retries cfg ex det (VDict d)).
Proof.
  unfold want_retries, not_exists, retries_checked.
  repeat (spec_step; updated); fields; try exact I.
  all: split; [now apply writes_set|]; simpl; rewrite dict_get_set_same.
  all: repeat match goal with
         | H : negb _ = false |- _ => apply Bool.negb_false_iff in H
         | H : negb _ = true |- _ => apply Bool.negb_true_iff in H
         end.
  all: repeat match goal with H : py_truthy _ = _ |- _ => rewrite H end.
  all: try reflexivity.
  eexists. split; [eassumption|]. split; [|reflexivity].
  match goal with H : (_ || _) = false |- _ =>
    apply Bool.orb_false_iff in H; destruct H as (H1 & H2);
    apply Z.ltb_ge in H1, H2 end.
  lia.
Qed.

Lemma want_timeout_check :
  spec (fun a => writes ["timeoutSeconds"] d a
                 /\ timeout_checked ex det (field "timeout" cfg)
                                    (field "timeoutSeconds" a))
       any_msg (want_timeout cfg ex det (VDict d)).
Proof.
  unfold want_timeout, not_exists, timeout_checked.
  repeat (spec_step; updated); fields; try exact I.
  all: split; [now apply writes_set|]; simpl; rewrite dict_get_set_same.
  all: repeat match goal with
         | H : negb _ = false |- _ => apply Bool.negb_false_iff in H
         | H : negb _ = true |- _ => apply Bool.negb_true_iff in H
         end.
  all: repeat match goal with
         | H : py_truthy _ = _ |- _ => rewrite H
         | H : is_none _ = _ |- _ => rewrite H
         end.
  all: try reflexivity.
  all: eexists; (split; [eassumption|]); (split; [|reflexivity]);
    match goal with H : (_ || _) = false |- _ =>
      apply Bool.orb_false_iff in H; destruct H as (H1 & H2);
      apply Z.ltb_ge in H1, H2 end; lia.
Qed.
End WantChecks.

Lemma want_auth_server_checked cfg ex det :
  spec (checked_payload cfg ex det) any_msg (want_auth_server cfg ex det).
Proof.
  unfold want_auth_server.
  eapply spec_bind; [apply want_ise_enabled_check|]. intros a1 ((d1 & -> & K1) & C1).
  eapply spec_bind; [apply want_ip_address_check|]. intros a2 ((d2 & -> & K2) & C2).
  eapply spec_bind; [apply want_shared_secret_check|]. intros a3 ((d3 & -> & K3) & C3).
  eapply spec_bind; [apply want_protocol_check|]. intros a4 ((d4 & -> & K4) & C4p & C4).
  eapply spec_bind; [apply want_encryption_check|]. intros a5 ((d5 & -> & K5) & C5).
  eapply spec_bind; [apply want_port_check|]. intros a6 ((d6 & -> & K6) & C6).
  eapply spec_bind; [apply want_port_check|]. intros a7 ((d7 & -> & K7) & C7).
  eapply spec_bind; [apply want_retries_check|]. intros a8 ((d8 & -> & K8) & C8).
  eapply spec_bind; [apply want_timeout_check|]. intros a9 ((d9 & -> & K9) & C9).
  eapply spec_bind;
    [eapply spec_weaken; [exact (fun _ h => h)|exact (fun _ _ => I)|apply want_role_spec]|].
  intros a10 ((d10 & -> & K10) & _).
  eapply spec_weaken; [|exact (fun _ _ => I)|apply want_ise_spec].
  intros a (wd & -> & K11). exists wd. split; [reflexivity|].
  simpl in C1, C2, C4p, C4, C6, C7, C8, C9.
  split; [|split; [|split; [|split; [|split; [|split; [|split]]]]]].
  - rewrite K11, K10, K9, K8, K7, K6, K5, K4, K3, K2 by reflexivity. exact C1.
  - rewrite K11, K10, K9, K8, K7, K6, K5, K4, K3 by reflexivity. exact C2.
  - rewrite K11, K10, K9, K8, K7, K6, K5 by reflexivity. exact C4.
  - rewrite K11, K10, K9, K8, K7, K6, K5 by reflexivity. exact C4p.
  - intros Hex. split.
    + rewrite K11, K10, K9, K8, K7 by reflexivity. exact (C6 Hex).
    + rewrite K11, K10, K9, K8 by reflexivity. exact (C7 Hex).
  - rewrite K11, K10, K9 by reflexivity. exact C8.
  - rewrite K11, K10 by reflexivity. exact C9.
  - intros Hex k Hk.
    specialize (C3 Hex). specialize (C5 Hex). injection C3 as ->. injection C5 as ->.
    cbn in Hk.
    repeat (destruct Hk as [<-|Hk];
            [rewrite K11, K10, K9, K8, K7, K6, K4, K2, K1 by reflexivity; reflexivity|]).
    destruct Hk.
Qed.

(** What a successful [get_want_authentication_policy_server] leaves as
    payload. *)
Lemma get_want_checked cfg s s' have_auth_server ex det :
  py_get (have s) "authenticationPolicyServer" = Ok have_auth_server ->
  py_get have_auth_server "exists" = Ok ex ->
  py_get have_auth_server "details" = Ok det ->
  get_want_authentication_policy_server cfg s = Normal tt s' ->
  status s' = "success" ->
  exists wd, want_auth_server_is s' wd /\ checked_payload cfg ex det (VDict wd).
Proof.
  intros Hhave Hex Hdet Hrun Hst.
  unfold get_want_authentication_policy_server, method in Hrun.
  rewrite bind_read in Hrun. cbv beta in Hrun. rewrite Hhave in Hrun.
  rewrite bind_lift_ok in Hrun. cbv beta in Hrun. rewrite Hex in Hrun.
  rewrite bind_lift_ok in Hrun. cbv beta in Hrun. rewrite Hdet in Hrun.
  rewrite bind_lift_ok in Hrun. cbv beta in Hrun.
  pose proof (want_auth_server_checked cfg ex det s) as Hspec.
  unfold bind at 1 in Hrun.
  destruct (want_auth_server cfg ex det s) as [a s1|s1|e s1|s1|s1];
    try discriminate Hrun; try contradiction.
  - destruct Hspec as (wd & -> & Hb).
    unfold want_update in Hrun. unfold bind at 1 in Hrun. unfold bind at 1 in Hrun.
    unfold read at 1 in Hrun. unfold bind at 1 in Hrun. unfold lift at 1 in Hrun.
    destruct (want s1) as [| | | | |w] eqn:Hw; simpl in Hrun; try discriminate Hrun.
    injection Hrun as <-. exists wd. split.
    + eexists. split; [reflexivity|]. apply dict_get_set_same.
    + exists wd. split; [reflexivity|exact Hb].
  - injection Hrun as <-. destruct Hspec as (Hf & _). rewrite Hf in Hst. discriminate.
Qed.

(** X15. For a server the controller does not have, the payload of a
    successful [get_want_authentication_policy_server] has as
    authenticationPort and accountingPort integers from 1 to 65535: the
    ports of the playbook entry, or 1812 and 1813 for the ones it leaves
    out; port is 49. *)
Theorem X15_new_server_ports
    (cfg : pyval) (s s' : state) :
  server_absent s ->
  get_want_authentication_policy_server cfg s = Normal tt s' ->
  status s' = "success" ->
  exists wd,
    want_auth_server_is s' wd
    /\ port_checked (field "authentication_port" cfg) 1812
                    (dict_get "authenticationPort" wd)
    /\ port_checked (field "accounting_port" cfg) 1813 (dict_get "accountingPort" wd)
    /\ dict_get "port" wd = VInt 49.
Proof.
  intros (haps & ex & Hhave & Hex & Ht) Hrun Hst.
  assert (Hdet : py_get haps "details" = Ok (field "details" haps)).
  { destruct haps; try discriminate Hex. reflexivity. }
  destruct (get_want_checked cfg s s' haps ex _ Hhave Hex Hdet Hrun Hst)
    as (wd & Hw & wd' & [= <-] & _ & _ & _ & Hport & Hports & _).
  exists wd. split; [exact Hw|].
  destruct (Hports Ht) as (Hauth & Hacct).
  split; [exact Hauth|]. split; [exact Hacct|exact Hport].
Qed.

Lemma X15_witness_new_aaa_server :
  exists wd,
    want_auth_server_is (payload_state no_server entry_new_aaa) wd
    /\ port_checked (field "authentication_port" (VDict entry_new_aaa)) 1812
                    (dict_get "authenticationPort" wd)
    /\ port_checked (field "accounting_port" (VDict entry_new_aaa)) 1813
                    (dict_get "accountingPort" wd)
    /\ dict_get "port" wd = VInt 49.
Proof.
  refine (X15_new_server_ports (VDict entry_new_aaa) (have_state no_server)
            (payload_state no_server entry_new_aaa) _ _ _).
  - exists no_server, (VBool false). split; [by_compute|]. split; by_compute.
  - by_compute.
  - by_compute.
Defined.

(** X16. The payload of a successful
    [get_want_authentication_policy_server] has as retries the text of the
    entry's retries, which reads as an integer from 1 to 3, and as
    timeoutSeconds the text of the entry's timeout, which reads as an
    integer from 2 to 20.  An entry without retries (or with a false value
    such as 0) gets the current retries of an existing server and "3" for a
    new one; an entry without timeout gets the text of the current
    timeoutSeconds, or "4". *)
Theorem X16_retries_and_timeout
    (cfg : pyval) (hs : list (string * pyval)) (s s' : state) :
  py_get (have s) "authenticationPolicyServer" = Ok (VDict hs) ->
  get_want_authentication_policy_server cfg s = Normal tt s' ->
  status s' = "success" ->
  exists wd,
    want_auth_server_is s' wd
    /\ retries_checked (dict_get "exists" hs) (dict_get "details" hs)
                       (field "retries" cfg) (dict_get "retries" wd)
    /\ timeout_checked (dict_get "exists" hs) (dict_get "details" hs)
                       (field "timeout" cfg) (dict_get "timeoutSeconds" wd).
Proof.
  intros Hhave Hrun Hst.
  destruct (get_want_checked cfg s s' (VDict hs) _ _ Hhave eq_refl eq_refl Hrun Hst)
    as (wd & Hw & wd' & [= <-] & _ & _ & _ & _ & _ & Hr & Hto & _).
  exists wd. split; [exact Hw|]. split; [exact Hr|exact Hto].
Qed.

Lemma X16_witness_more_retries :
  exists wd,
    want_auth_server_is (payload_state radius_server entry_more_retries) wd
    /\ retries_checked (VBool true) (VDict radius_details)
                       (field "retries" (VDict entry_more_retries)) (dict_get "retries" wd)
    /\ timeout_checked (VBool true) (VDict radius_details)
                       (field "timeout" (VDict entry_more_retries))
                       (dict_get "timeoutSeconds" wd).
Proof.
  refine (X16_retries_and_timeout (VDict entry_more_retries)
            [("exists", VBool true); ("details", VDict radius_details);
             ("id", VStr "0a1b2c3d")]
            (have_state radius_server)
            (payload_state radius_server entry_more_retries) _ _ _); by_compute.
Defined.

(** X17. The payload of a successful
    [get_want_authentication_policy_server] has the server_ip_address of the
    entry as ipAddress; as protocol the entry's protocol, which is "RADIUS",
    "TACACS" or "RADIUS_TACACS", or without one the current protocol of an
    existing server and "RADIUS" for a new one; as isIseEnabled the current
    value of an existing server, and for a new one whether the entry's
    server_type is "ISE". *)
Theorem X17_address_protocol_and_type
    (cfg : pyval) (hs : list (string * pyval)) (s s' : state) :
  py_get (have s) "authenticationPolicyServer" = Ok (VDict hs) ->
  get_want_authentication_policy_server cfg s = Normal tt s' ->
  status s' = "success" ->
  exists wd,
    want_auth_server_is s' wd
    /\ dict_get "ipAddress" wd = field "server_ip_address" cfg
    /\ protocol_chosen (dict_get "exists" hs) (dict_get "details" hs)
                       (field "protocol" cfg) (dict_get "protocol" wd)
    /\ ise_enabled_chosen (dict_get "exists" hs) (dict_get "details" hs)
                          (field "server_type" cfg) (dict_get "isIseEnabled" wd).
Proof.
  intros Hhave Hrun Hst.
  destruct (get_want_checked cfg s s' (VDict hs) _ _ Hhave eq_refl eq_refl Hrun Hst)
    as (wd & Hw & wd' & [= <-] & Hise & Hip & Hp & _).
  exists wd. split; [exact Hw|]. split; [exact Hip|]. split; [exact Hp|exact Hise].
Qed.

Lemma X17_witness_to_radius_tacacs :
  exists wd,
    want_auth_server_is (payload_state radius_server entry_to_radius_tacacs) wd
    /\ dict_get "ipAddress" wd = field "server_ip_address" (VDict entry_to_radius_tacacs)
    /\ protocol_chosen (VBool true) (VDict radius_details)
                       (field "protocol" (VDict entry_to_radius_tacacs))
                       (dict_get "protocol" wd)
    /\ ise_enabled_chosen (VBool true) (VDict radius_details)
                          (field "server_type" (VDict entry_to_radius_tacacs))
                          (dict_get "isIseEnabled" wd).
Proof.
  refine (X17_address_protocol_and_type (VDict entry_to_radius_tacacs)
            [("exists", VBool true); ("details", VDict radius_details);
             ("id", VStr "0a1b2c3d")]
            (have_state radius_server)
            (payload_state radius_server entry_to_radius_tacacs) _ _ _); by_compute.
Defined.

(** X18. For a server the controller has, the payload of a successful
    [get_want_authentication_policy_server] has no sharedSecret,
    encryptionScheme, messageKey or encryptionKey, whatever the playbook
    entry brings: these are read for the creation of a server only, and an
    update never carries them. *)
Theorem X18_existing_server_payload_has_no_secret
    (cfg have_auth_server : pyval) (hd : list (string * pyval)) (s s' : state) :
  server_exists s have_auth_server hd ->
  get_want_authentication_policy_server cfg s = Normal tt s' ->
  status s' = "success" ->
  exists wd,
    want_auth_server_is s' wd
    /\ forall k, In k creation_fields -> dict_get k wd = VNone.
Proof.
  intros (Hhave & (ex & Hex & Ht) & Hd) Hrun Hst.
  destruct (get_want_checked cfg s s' have_auth_server ex _ Hhave Hex Hd Hrun Hst)
    as (wd & Hw & wd' & [= <-] & _ & _ & _ & _ & _ & _ & _ & Hnone).
  exists wd. split; [exact Hw|exact (Hnone Ht)].
Qed.

Lemma X18_witness_entry_with_secret :
  exists wd,
    want_auth_server_is (payload_state radius_server entry_with_secret) wd
    /\ forall k, In k creation_fields -> dict_get k wd = VNone.
Proof.
  refine (X18_existing_server_payload_has_no_secret (VDict entry_with_secret)
            radius_server radius_details (have_state radius_server)
            (payload_state radius_server entry_with_secret) _ _ _).
  - split; [by_compute|]. split; [|by_compute].
    exists (VBool true). split; by_compute.
  - by_compute.
  - by_compute.
Defined.

(** ** An entry that asks for no change *)

Lemma want_auth_server_unchanged c ex hd s :
  py_truthy ex = true ->
  py_truthy (dict_get "isIseEnabled" hd) = false ->
  asks_no_change c ->
  want_auth_server (VDict c) ex (VDict hd) s = Normal (VDict (unchanged_payload c hd)) s.
Proof.
  intros Hex Hise (Hp & Hr & Ht).
  unfold want_auth_server, want_ise_enabled, want_ip_address, want_shared_secret,
    want_protocol, want_encryption, want_authentication_port, want_accounting_port,
    want_port, want_retries, want_timeout, want_role, want_ise, not_exists.
  rewrite Hex. change (negb true) with false. cbv iota.
  cbv beta iota delta [bind lift ret py_get py_update].
  rewrite Hp. cbn. rewrite Hr. cbn. rewrite Ht. cbn. rewrite Hise. reflexivity.
Qed.

Lemma get_want_unchanged c have_auth_server hd s w :
  is_none (dict_get "server_ip_address" c) = false ->
  server_exists s have_auth_server hd ->
  want s = VDict w ->
  py_truthy (dict_get "isIseEnabled" hd) = false ->
  asks_no_change c ->
  exists s1,
    get_want (playbook c) s = Normal tt s1
    /\ status s1 = "success"
    /\ want_auth_server_is s1 (unchanged_payload c hd)
    /\ have s1 = have s
    /\ calls s1 = calls s /\ changed s1 = changed s
    /\ res_response s1 = res_response s /\ res_msg s1 = res_msg s.
Proof.
  intros Hip (Hhave & (ex & Hex & Ht) & Hd) Hw Hise Hask.
  assert (Hc : py_truthy (VDict c) = true).
  { destruct c; [discriminate Hip|reflexivity]. }
  assert (Hrun : get_want_authentication_policy_server (VDict c) s
                 = Normal tt
                     (set_status "success"
                        (set_msg (VStr "Collecting the Authentication and Policy Server details from the playbook")
                           (set_want (VDict (dict_set "authenticationPolicyServer"
                                               (VDict (unchanged_payload c hd)) w)) s)))).
  { unfold get_want_authentication_policy_server, method.
    rewrite bind_read. cbv beta. rewrite Hhave.
    rewrite bind_lift_ok. cbv beta. rewrite Hex.
    rewrite bind_lift_ok. cbv beta. rewrite Hd.
    rewrite bind_lift_ok. cbv beta.
    rewrite (bind_normal _ _ _ _ _ (want_auth_server_unchanged c ex hd s Ht Hise Hask)).
    unfold want_update, bind, read, lift, modify. rewrite Hw. reflexivity. }
  eexists. split.
  - unfold get_want, method, playbook.
    change (py_get (VDict [("authentication_policy_server", VDict c)])
                   "authentication_policy_server") with (Ok (VDict c)).
    rewrite bind_lift_ok. cbv beta. rewrite Hc.
    unfold bind at 1 2. rewrite Hrun. reflexivity.
  - split; [reflexivity|]. split.
    + eexists. split; [reflexivity|]. apply dict_get_set_same.
    + repeat split; reflexivity.
Qed.

Lemma no_update_needed_state ip have_auth_server details s d :
  py_hashable ip = true ->
  is_dict have_auth_server = true ->
  key_get ip (res_response s) = VDict d ->
  exists s',
    no_update_needed ip have_auth_server details s = Returned s'
    /\ calls s' = calls s /\ status s' = status s /\ changed s' = changed s
    /\ res_msg s' = assoc_set py_eqb ip (VStr msg_no_update) (res_msg s).
Proof.
  intros Hh Hd He. destruct have_auth_server as [| | | | |hd]; try discriminate.
  unfold no_update_needed, result_response_update, result_msg_set, key_update.
  unfold bind, read, lift, modify, return_self. rewrite Hh, He. simpl.
  rewrite key_get_set_same. simpl.
  eexists. split; [reflexivity|]. repeat split; reflexivity.
Qed.

(** The update of an existing server when the payload is accepted and no
    update is required. *)
Lemma update_server_not_needed (E : environment) fuel ip have_auth_server hd s wd :
  want_auth_server_is s wd ->
  py_get have_auth_server "details" = Ok (VDict hd) ->
  format_accepts hd wd = true ->
  py_truthy (dict_get "isIseEnabled" hd) = false ->
  allow_listed_field_differs E hd wd = false ->
  exists s2,
    same_results s s2 /\ status s2 = "success"
    /\ update_server E fuel ip have_auth_server s
       = no_update_needed ip have_auth_server (VDict hd) s2.
Proof.
  intros Hw Hd Hacc Hise Hsame.
  destruct (format_payload_for_update_result hd s wd Hw) as (s2 & Hf & Hsr & Hres).
  rewrite Hacc in Hres. destruct Hres as (Hst & Hw2).
  exists s2. split; [exact Hsr|]. split; [exact Hst|].
  unfold update_server. unfold bind at 1. unfold lift at 1. rewrite Hd.
  unfold bind at 1. rewrite Hf.
  unfold bind at 1. unfold check_return_status at 1. rewrite Hst.
  change (String.eqb "success" "failed") with false. cbv iota.
  unfold bind at 1. rewrite (read_want_auth_server_is _ _ Hw2).
  unfold bind at 1. unfold update_needed.
  unfold bind at 1. unfold lift at 1.
  change (py_get (VDict hd) "isIseEnabled") with (Ok (dict_get "isIseEnabled" hd)).
  cbv iota beta. rewrite Hise.
  unfold lift at 1. rewrite requires_update_eq, allow_listed_field_differs_filled, Hsame.
  reflexivity.
Qed.

(** X19. Reconciling an existing server that is not a Cisco ISE server with
    an entry that names no protocol, retries or timeout changes nothing on
    the controller: when [dnac_compare_equality] finds the current protocol
    and retries equal to themselves and the current timeoutSeconds equal to
    its text, [get_want] followed by [get_diff_merged] returns with status
    "success" and without any call, result['changed'] as it was, and the
    server reported as "Authentication and Policy Server doesn't require an
    update". *)
Theorem X19_entry_without_changes_is_a_noop
    (E : environment) (fuel : nat) (c hd w : list (string * pyval))
    (have_auth_server : pyval) (s : state) :
  is_none (dict_get "server_ip_address" c) = false ->
  py_hashable (dict_get "server_ip_address" c) = true ->
  server_exists s have_auth_server hd ->
  want s = VDict w ->
  py_truthy (dict_get "isIseEnabled" hd) = false ->
  asks_no_change c ->
  dnac_compare_equality E (dict_get "protocol" hd) (dict_get "protocol" hd) = true ->
  dnac_compare_equality E (dict_get "retries" hd) (dict_get "retries" hd) = true ->
  dnac_compare_equality E (dict_get "timeoutSeconds" hd)
                          (VStr (py_str (dict_get "timeoutSeconds" hd))) = true ->
  exists s',
    (get_want (playbook c) ;; check_return_status ;;
     get_diff_merged E fuel (playbook c)) s = Normal tt s'
    /\ calls s' = calls s
    /\ status s' = "success"
    /\ changed s' = changed s
    /\ res_msg s' = assoc_set py_eqb (dict_get "server_ip_address" c)
                              (VStr "Authentication and Policy Server doesn't require an update")
                              (res_msg s).
Proof.
  intros Hip Hh Hex Hw Hise Hask Hcp Hcr Hct.
  destruct (get_want_unchanged c have_auth_server hd s w Hip Hex Hw Hise Hask)
    as (s1 & Hrun & Hst & Hw1 & Hhave1 & Hcalls1 & Hch1 & Hresp1 & Hmsg1).
  set (ip := dict_get "server_ip_address" c) in *.
  assert (Hcfg : config_server (playbook c) ip).
  { exists (VDict c). split; [reflexivity|]. split; reflexivity. }
  assert (Hex1 : server_exists s1 have_auth_server hd).
  { unfold server_exists. rewrite Hhave1. exact Hex. }
  assert (Hacc : format_accepts hd (unchanged_payload c hd) = true).
  { unfold format_accepts, none_rejected, rejected, protocol_accepted, update_params,
      unchanged_payload.
    cbn. rewrite !py_eqb_refl. cbn. rewrite !Bool.andb_false_r. reflexivity. }
  assert (Hsame : allow_listed_field_differs E hd (unchanged_payload c hd) = false).
  { unfold allow_listed_field_differs, authentication_policy_server_obj_params,
      unchanged_payload.
    cbn. now rewrite Hcp, Hcr, Hct. }
  rewrite (bind_normal _ _ _ _ _ Hrun).
  unfold bind at 1. unfold check_return_status at 1. rewrite Hst. cbn [String.eqb Ascii.eqb Bool.eqb].
  cbv beta iota.
  rewrite (get_diff_merged_eq _ _ _ _ _ Hcfg). unfold method at 1.
  rewrite (update_auth_policy_server_existing _ _ _ _ _ _ _ Hh Hw1 Hex1).
  unfold method at 1.
  destruct Hex1 as (Hhave & _ & Hd).
  assert (Hdict : is_dict have_auth_server = true).
  { destruct have_auth_server; try discriminate. reflexivity. }
  destruct (update_server_not_needed E fuel ip have_auth_server hd
              (after_result_reset ip s1) _ Hw1 Hd Hacc Hise Hsame)
    as (s2 & Hsr & Hst2 & Hupd).
  rewrite Hupd.
  destruct Hsr as (Hc2 & _ & Hch2 & Hresp2 & Hmsg2 & _).
  destruct (no_update_needed_state ip have_auth_server (VDict hd) s2 []
              Hh Hdict) as (s3 & Hs3 & Hc3 & Hst3 & Hch3 & Hm3).
  { rewrite Hresp2. simpl. apply key_get_set_same. }
  rewrite Hs3. exists s3. split; [reflexivity|].
  change (calls (after_result_reset ip s1)) with (calls s1) in Hc2.
  change (changed (after_result_reset ip s1)) with (changed s1) in Hch2.
  change (res_msg (after_result_reset ip s1)) with (res_msg s1) in Hmsg2.
  split; [now rewrite Hc3, Hc2|].
  split; [now rewrite Hst3|].
  split; [now rewrite Hch3, Hch2|].
  now rewrite Hm3, Hmsg2, Hmsg1.
Qed.

(** ** The verification of the result *)

Lemma verify_items_run hd wd items s :
  verify_items items (VDict hd) (VDict wd) s
  = if some_item_differs hd wd items
    then Returned (set_status "failed" (set_msg (VStr not_applied_msg) s))
    else Normal tt s.
Proof.
  induction items as [|item items IH]; [reflexivity|].
  cbn [verify_items some_item_differs existsb].
  change (py_get (VDict hd) item) with (Ok (dict_get item hd)).
  change (py_get (VDict wd) item) with (Ok (dict_get item wd)).
  unfold item_differs at 1. unfold bind, lift, ret. cbv beta iota.
  destruct (py_truthy (dict_get item hd)); cbn [andb]; [|exact IH].
  destruct (py_truthy (dict_get item wd)); cbn [andb]; [|exact IH].
  destruct (negb (py_eqb (dict_get item hd) (dict_get item wd))); cbn [orb].
  - reflexivity.
  - exact IH.
Qed.

(** X20. [verify_diff_merged] for a config element that names a server,
    once its [get_have] has found the server with the details [hd], and with
    the payload [wd] in [self.want]: it returns with status "failed" and the
    message "Authentication and Policy Server Config is not applied to the
    Cisco Catalyst Center." exactly when some field of its check list has a
    true value in both [hd] and [wd] and the two differ, the "Validation"
    entry of the result left as it was; otherwise it returns with status
    "success" and "Validation" set to "Success".  A field whose current or
    desired value is false, zero, empty or None is never the reason of a
    failure. *)
Theorem X20_verify_diff_merged_outcome
    (E : environment) (config ipAddress validation have_auth_server : pyval)
    (hd wd : list (string * pyval)) (s s1 : state) :
  config_server config ipAddress ->
  get_have E config s = Normal tt s1 ->
  py_get (have s1) "authenticationPolicyServer" = Ok have_auth_server ->
  py_get have_auth_server "details" = Ok (VDict hd) ->
  want_auth_server_is s1 wd ->
  verify_diff_merged E config validation s
  = if some_item_differs hd wd check_list
    then (Normal tt (set_status "failed" (set_msg
               (VStr "Authentication and Policy Server Config is not applied to the Cisco Catalyst Center.")
               s1)), validation)
    else (Normal tt
            (set_status "success"
               (set_msg (VStr "Successfully validated the Authentication and Policy Server.")
                        s1)),
          VStr "Success").
Proof.
  intros (aps & Ha & Hn & Hip) Hrun Hhave Hd (w & Hw & Hwd).
  unfold verify_diff_merged, validating, verify_diff_merged_body.
  rewrite (bind_normal _ _ _ _ _ Hrun).
  unfold bind, lift, read, modify, ret. rewrite Ha. cbv beta iota.
  rewrite Hn. change (negb false) with true. cbv beta iota.
  rewrite Hhave. cbv beta iota. rewrite Hd. cbv beta iota. rewrite Hw.
  change (py_get (VDict w) "authenticationPolicyServer")
    with (Ok (dict_get "authenticationPolicyServer" w)).
  rewrite Hwd. cbv beta iota. rewrite verify_items_run.
  destruct (some_item_differs hd wd check_list); reflexivity.
Qed.

(** X21. [verify_diff_deleted] raises for a config element without
    authentication_policy_server: it reads the server_ip_address of the
    missing entry before it tests the entry against None, so the element
    that the rest of the run skips ends the verification with an
    AttributeError, after [get_have] has set its message and status. *)
Theorem X21_verify_diff_deleted_needs_the_server
    (E : environment) (c : list (string * pyval)) (validation : pyval) (s : state) :
  dict_get "authentication_policy_server" c = VNone ->
  verify_diff_deleted E (VDict c) validation s
  = (Raised AttributeError
       (set_status "success" (set_msg (VStr have_collected_msg) s)),
     validation).
Proof.
  intros Hc.
  unfold verify_diff_deleted, validating, verify_diff_deleted_body, get_have, method,
    bind, lift, modify, ret.
  cbn [py_get]. rewrite Hc. reflexivity.
Qed.

(** X22. [verify_diff_deleted] for a config element that names a server,
    once its [get_have] has looked the server up: when the server is still
    there it returns with status "failed" and the message "Authentication
    and Policy Server Config is not applied to the Cisco Catalyst Center.",
    the "Validation" entry left as it was; when the server is gone it
    returns with status "success" and "Validation" set to "Success". *)
Theorem X22_verify_diff_deleted_outcome
    (E : environment) (config ipAddress validation have_auth_server ex : pyval)
    (s s1 : state) :
  config_server config ipAddress ->
  get_have E config s = Normal tt s1 ->
  py_get (have s1) "authenticationPolicyServer" = Ok have_auth_server ->
  py_get have_auth_server "exists" = Ok ex ->
  verify_diff_deleted E config validation s
  = if py_truthy ex
    then (Normal tt (set_status "failed" (set_msg
               (VStr "Authentication and Policy Server Config is not applied to the Cisco Catalyst Center.")
               s1)), validation)
    else (Normal tt
            (set_status "success"
               (set_msg (VStr "Successfully validated the absence of Authentication and Policy Server.")
                        s1)),
          VStr "Success").
Proof.
  intros (aps & Ha & Hn & Hip) Hrun Hhave Hex.
  assert (Hdict : exists a, aps = VDict a).
  { destruct aps; try discriminate Hip. eexists; reflexivity. }
  destruct Hdict as (a & ->).
  unfold verify_diff_deleted, validating, verify_diff_deleted_body.
  rewrite (bind_normal _ _ _ _ _ Hrun).
  unfold bind, lift, read, modify, ret. rewrite Ha. cbv beta iota.
  rewrite Hip. cbv beta iota.
  change (negb (is_none (VDict a))) with true. cbv beta iota.
  rewrite Hhave. cbv beta iota. rewrite Hex. cbv beta iota.
  destruct (py_truthy ex); reflexivity.
Qed.

Lemma X19_witness_address_only :
  exists s',
    (get_want (playbook entry_address_only) ;; check_return_status ;;
     get_diff_merged slow_controller 3 (playbook entry_address_only))
      (have_state radius_server) = Normal tt s'
    /\ calls s' = calls (have_state radius_server)
    /\ status s' = "success"
    /\ changed s' = changed (have_state radius_server)
    /\ res_msg s' = assoc_set py_eqb (dict_get "server_ip_address" entry_address_only)
                              (VStr "Authentication and Policy Server doesn't require an update")
                              (res_msg (have_state radius_server)).
Proof.
  refine (X19_entry_without_changes_is_a_noop slow_controller 3 entry_address_only
            radius_details [] radius_server (have_state radius_server)
            _ _ _ _ _ _ _ _ _).
  - by_compute.
  - by_compute.
  - split; [by_compute|]. split; [|by_compute].
    exists (VBool true). split; by_compute.
  - by_compute.
  - by_compute.
  - split; [by_compute|]. split; by_compute.
  - by_compute.
  - by_compute.
  - by_compute.
Defined.

Lemma X20_witness_retries_not_applied :
  let s := verified_state entry_more_retries in
  let s1 := final (get_have slow_controller (playbook entry_more_retries) s) in
  verify_diff_merged slow_controller (playbook entry_more_retries) VNone s
  = if some_item_differs (details_of s1) (payload_of s1) check_list
    then (Normal tt (set_status "failed" (set_msg
               (VStr "Authentication and Policy Server Config is not applied to the Cisco Catalyst Center.")
               s1)), VNone)
    else (Normal tt
            (set_status "success"
               (set_msg (VStr "Successfully validated the Authentication and Policy Server.")
                        s1)),
          VStr "Success").
Proof.
  refine (X20_verify_diff_merged_outcome slow_controller (playbook entry_more_retries)
            (VStr "10.0.0.1") VNone
            (field "authenticationPolicyServer"
               (have (final (get_have slow_controller (playbook entry_more_retries)
                               (verified_state entry_more_retries)))))
            (details_of (final (get_have slow_controller (playbook entry_more_retries)
                                  (verified_state entry_more_retries))))
            (payload_of (final (get_have slow_controller (playbook entry_more_retries)
                                  (verified_state entry_more_retries))))
            (verified_state entry_more_retries)
            (final (get_have slow_controller (playbook entry_more_retries)
                      (verified_state entry_more_retries)))
            _ _ _ _ _).
  - eexists. split; [by_compute|]. split; by_compute.
  - by_compute.
  - by_compute.
  - by_compute.
  - eexists. split; by_compute.
Defined.

Example retries_not_applied_fails_the_verification :
  let s := verified_state entry_more_retries in
  let r := verify_diff_merged slow_controller (playbook entry_more_retries) VNone s in
  status (final (fst r)) = "failed" /\ snd r = VNone
  /\ dict_get "retries" (details_of (final (fst r))) = VStr "3"
  /\ dict_get "retries" (payload_of (final (fst r))) = VStr "2".
Proof.
  cbv zeta. split; [by_compute|]. split; [by_compute|]. split; by_compute.
Qed.

Lemma X21_witness_empty_element :
  verify_diff_deleted busy_controller (VDict []) VNone initial_state
  = (Raised AttributeError
       (set_status "success" (set_msg (VStr have_collected_msg) initial_state)),
     VNone).
Proof.
  refine (X21_verify_diff_deleted_needs_the_server busy_controller [] VNone
            initial_state _).
  by_compute.
Defined.

Lemma X22_witness_server_gone :
  let s1 := final (get_have busy_controller (playbook entry_more_retries) initial_state) in
  verify_diff_deleted busy_controller (playbook entry_more_retries) VNone initial_state
  = if py_truthy (VBool false)
    then (Normal tt (set_status "failed" (set_msg
               (VStr "Authentication and Policy Server Config is not applied to the Cisco Catalyst Center.")
               s1)), VNone)
    else (Normal tt
            (set_status "success"
               (set_msg (VStr "Successfully validated the absence of Authentication and Policy Server.")
                        s1)),
          VStr "Success").
Proof.
  refine (X22_verify_diff_deleted_outcome busy_controller (playbook entry_more_retries)
            (VStr "10.0.0.1") VNone no_server (VBool false) initial_state
            (final (get_have busy_controller (playbook entry_more_retries) initial_state))
            _ _ _ _).
  - eexists. split; [by_compute|]. split; by_compute.
  - by_compute.
  - by_compute.
  - by_compute.
Defined.

(** ** The creation of a server and the Cisco ISE integration *)

Ltac run_lift :=
  unfold bind at 1; unfold lift at 1;
  lazymatch goal with
  | |- ise_checked _ _ _ _ (match (match ?r with _ => _ end) with _ => _ end) =>
      destruct r eqn:?; [cbv beta iota|exact I]
  end.

Lemma check_ise_integration_outcome (E : environment) ip is_ise s :
  ise_checked E ip is_ise s (check_ise_integration E ip is_ise s).
Proof.
  unfold check_ise_integration. rewrite bind_read. cbv beta.
  destruct (py_truthy is_ise && String.eqb (validation_string s) "operation sucessful")
    eqn:Hcond.
  2: { cbn. rewrite Hcond. repeat split. discriminate. }
  rewrite bind_read. cbv beta. run_lift.
  match goal with
  | |- context [accept_cisco_ise_server_certificate E ip ?t] =>
      destruct (accept_certificate_run E ip t s)
        as (s2 & Hacc & Hst & _ & Hw & _ & Hr & Hm & Hv & _)
  end.
  unfold bind at 1. rewrite Hacc. cbv beta iota.
  rewrite bind_read. cbv beta. run_lift.
  assert (Hsleep : forall v, exists s3,
             (py_sleep v s2 = Normal tt s3 \/ exists e, py_sleep v s2 = Raised e s3)
             /\ status s3 = status s /\ want s3 = want s
             /\ res_response s3 = res_response s /\ res_msg s3 = res_msg s
             /\ validation_string s3 = validation_string s).
  { intros v. unfold py_sleep, modify, lift.
    destruct v as [|b|z| | |];
      try (exists s2; split; [right; eexists; reflexivity|now repeat split]).
    - eexists; split; [left; reflexivity|now repeat split].
    - destruct (z <? 0); eexists;
        (split; [first [left; reflexivity|right; eexists; reflexivity]|now repeat split]). }
  match goal with
  | |- context [py_sleep ?v] =>
      destruct (Hsleep v) as (s3 & Hs3 & Hst3 & Hw3 & Hr3 & Hm3 & Hv3)
  end.
  clear Hsleep. unfold bind at 1.
  destruct Hs3 as [Hs3|(e & Hs3)]; rewrite Hs3; [cbv beta iota|exact I].
  unfold bind at 1. unfold exec at 1. fold ise_servers_call.
  destruct (dnac_exec E (calls s3) ise_servers_call) as [response|e] eqn:Hexec;
    [cbv beta iota|exact I].
  run_lift.
  match goal with |- context [is_none ?r] => destruct (is_none r) eqn:Hnone end.
  { cbn. repeat split; assumption. }
  run_lift. run_lift.
  match goal with |- context [if ?b then _ else ret tt] => destruct b end.
  2: { cbn. split; [exact Hst3|]. split; [exact Hw3|]. split; [exact Hr3|].
       split; [exact Hm3|]. split; [exact Hv3|]. intros _.
       eexists (calls s3), response, _, _.
       split; [reflexivity|]. split; [exact Hexec|]. split; [eassumption|].
       split; [exact Hnone|]. split; [eassumption|].
       match goal with
       | H : (if py_hashable ?st then _ else _) = Ok false |- _ =>
           destruct (py_hashable st); [now injection H|discriminate H]
       end. }
  unfold bind at 1 2.
  match goal with |- context [py_eqb ?a (VStr "INPROGRESS")] =>
    destruct (py_eqb a (VStr "INPROGRESS")) end.
  { cbn. repeat split; assumption. }
  match goal with |- context [py_eqb ?a (VStr "FAILED")] =>
    destruct (py_eqb a (VStr "FAILED")) end.
  2: { cbn. repeat split; assumption. }
  unfold read at 1. cbv beta iota. unfold bind at 1. unfold lift at 1.
  match goal with |- context [py_get ?a "trusted_server"] =>
    destruct (py_get a "trusted_server") as [t2|e2] end; [cbv beta iota|exact I].
  destruct (is_False t2); cbn; repeat split; assumption.
Qed.

(** What the creation of a server reports when it returns. *)
Lemma create_server_report (E : environment) fuel ip is_ise s wd :
  py_hashable ip = true ->
  want_auth_server_is s wd ->
  key_get ip (res_response s) = VDict [] ->
  let o := create_server E fuel ip is_ise s in
  (forall a s', o <> Normal a s')
  /\ forall s', o = Returned s' ->
       if String.eqb (status s') "failed" then
         res_msg s' = res_msg s /\ key_get ip (res_response s') = VDict []
       else
         res_msg s' = assoc_set py_eqb ip (VStr msg_created) (res_msg s)
         /\ key_get ip (res_response s')
            = VDict [("authenticationPolicyServer Details", VDict wd)]
         /\ (py_truthy is_ise = true ->
             validation_string s' = "operation sucessful" ->
             integration_passed E ip s').
Proof.
  intros Hh Hw Hres o.
  assert (Ho : o = create_server E fuel ip is_ise s) by reflexivity. clearbody o.
  unfold create_server in Ho.
  unfold bind at 1 in Ho. rewrite (read_want_auth_server_is _ _ Hw) in Ho.
  unfold bind at 1 in Ho. unfold exec at 1 in Ho. fold (add_call wd) in Ho.
  destruct (dnac_exec E (calls s) (add_call wd)) as [r|e].
  2: { subst o. split; intros; discriminate. }
  cbv beta iota in Ho.
  set (s1 := set_calls (calls s ++ [add_call wd]) s) in Ho.
  pose proof (check_auth_server_response_status_frame E fuel r
                ["successfully created aaa settings"; "operation sucessful"]
                add_function s1) as Hfr.
  unfold bind at 1 in Ho.
  destruct (check_auth_server_response_status E fuel r
              ["successfully created aaa settings"; "operation sucessful"]
              add_function s1) as [[] s2|s2|e s2|s2|s2] eqn:Hpoll;
    simpl in Hfr; destruct Hfr as (_ & _ & Hwant & Hresp & Hmsg & _).
  - rewrite bind_read in Ho. cbv beta in Ho.
    destruct (String.eqb (status s2) "failed") eqn:Hst.
    + subst o. split; [intros; discriminate|].
      intros s' Hs'. injection Hs' as <-. rewrite Hst.
      split; [exact Hmsg|]. rewrite Hresp. exact Hres.
    + pose proof (check_ise_integration_outcome E ip is_ise s2) as Hise.
      unfold bind at 1 in Ho.
      destruct (check_ise_integration E ip is_ise s2) as [[] s3|s3|e s3|s3|s3];
        cbn [ise_checked] in Hise; try contradiction.
      * destruct Hise as (Hst3 & Hw3 & Hr3 & Hm3 & Hv3 & Hpass).
        assert (Hw2 : want_auth_server_is s3 wd).
        { unfold want_auth_server_is. rewrite Hw3, Hwant. exact Hw. }
        unfold bind at 1 in Ho. rewrite (read_want_auth_server_is _ _ Hw2) in Ho.
        unfold result_response_update, result_msg_set, key_update in Ho.
        unfold bind, read, lift, modify, return_self in Ho.
        rewrite Hh, Hr3, Hresp in Ho.
        change (res_response s1) with (res_response s) in Ho. rewrite Hres in Ho.
        simpl in Ho. subst o.
        split; [intros; discriminate|].
        intros s' Hs'. injection Hs' as <-. simpl. rewrite Hst3, Hst.
        split; [now rewrite Hm3, Hmsg|]. split; [apply key_get_set_same|].
        intros Hise Hvs.
        assert (Hc : py_truthy is_ise
                     && String.eqb (validation_string s2) "operation sucessful" = true).
        { rewrite Hise, <- Hv3, Hvs. reflexivity. }
        destruct (Hpass Hc) as (l & response & servers & st & Hl & Hrest).
        exists l, response, servers, st. split; [exact Hl|exact Hrest].
      * destruct Hise as (Hst3 & Hr3 & Hm3). subst o.
        split; [intros; discriminate|].
        intros s' Hs'. injection Hs' as <-. rewrite Hst3. simpl.
        split; [now rewrite Hm3, Hmsg|]. rewrite Hr3, Hresp. exact Hres.
      * subst o. split; intros; discriminate.
  - exfalso. unfold check_auth_server_response_status in Hpoll.
    exact (method_never_returns _ _ _ Hpoll).
  - subst o. split; intros; discriminate.
  - subst o. split; intros; discriminate.
  - subst o. split; intros; discriminate.
Qed.

(** X23. For every server the controller does not have, a Cisco ISE server
    or not: when [get_diff_merged] returns, either the status is "failed",
    and then the result of the server is empty and its message as it was, or
    the result of the server holds the payload as
    "authenticationPolicyServer Details" and the message
    "Authentication and Policy Server Created Successfully".  In the second
    case, when the payload is that of a Cisco ISE server and the task of the
    creation ended with "operation sucessful", the integration was checked
    and has passed: the last call of the run is the read of the Cisco ISE
    servers, and the response lists the server in a state that is neither
    "FAILED" nor "INPROGRESS".  So a Cisco ISE integration that is found
    failed or in progress is never reported as created. *)
Theorem X23_created_is_reported_unless_failed
    (E : environment) (fuel : nat) (config ipAddress : pyval)
    (wd : list (string * pyval)) (s s' : state) :
  config_server config ipAddress ->
  py_hashable ipAddress = true ->
  want_auth_server_is s wd ->
  server_absent s ->
  get_diff_merged E fuel config s = Normal tt s' ->
  if String.eqb (status s') "failed" then
    res_msg s' = res_msg s
    /\ key_get ipAddress (res_response s') = VDict []
  else
    res_msg s'
    = assoc_set py_eqb ipAddress
        (VStr "Authentication and Policy Server Created Successfully") (res_msg s)
    /\ key_get ipAddress (res_response s')
       = VDict [("authenticationPolicyServer Details", VDict wd)]
    /\ (py_truthy (dict_get "isIseEnabled" wd) = true ->
        validation_string s' = "operation sucessful" ->
        integration_passed E ipAddress s').
Proof.
  intros Hc Hh Hw Ha Hrun.
  change "Authentication and Policy Server Created Successfully" with msg_created.
  rewrite (get_diff_merged_eq _ _ _ _ _ Hc) in Hrun. unfold method in Hrun.
  rewrite (update_auth_policy_server_absent _ _ _ _ _ Hh Hw Ha) in Hrun.
  unfold method in Hrun.
  destruct (create_server_report E fuel ipAddress (dict_get "isIseEnabled" wd)
              (after_result_reset ipAddress s) wd Hh Hw
              (key_get_set_same _ _ _)) as (Hnn & Hret).
  destruct (create_server E fuel ipAddress (dict_get "isIseEnabled" wd)
              (after_result_reset ipAddress s)) as [a s2|s2|e s2|s2|s2];
    try discriminate Hrun.
  - exfalso. exact (Hnn a s2 eq_refl).
  - injection Hrun as <-. exact (Hret s2 eq_refl).
Qed.

Lemma X23_witness_passed_ise_integration :
  let s := wanted_state no_server entry_new_ise in
  let s' := final ise_creation_passed in
  if String.eqb (status s') "failed" then
    res_msg s' = res_msg s
    /\ key_get (VStr "10.0.0.5") (res_response s') = VDict []
  else
    res_msg s'
    = assoc_set py_eqb (VStr "10.0.0.5")
        (VStr "Authentication and Policy Server Created Successfully") (res_msg s)
    /\ key_get (VStr "10.0.0.5") (res_response s')
       = VDict [("authenticationPolicyServer Details", VDict (payload_of s))]
    /\ (py_truthy (dict_get "isIseEnabled" (payload_of s)) = true ->
        validation_string s' = "operation sucessful" ->
        integration_passed passing_ise_controller (VStr "10.0.0.5") s').
Proof.
  refine (X23_created_is_reported_unless_failed passing_ise_controller 1001
            (playbook entry_new_ise) (VStr "10.0.0.5")
            (payload_of (wanted_state no_server entry_new_ise))
            (wanted_state no_server entry_new_ise) (final ise_creation_passed)
            _ _ _ _ _).
  - eexists. split; [by_compute|]. split; by_compute.
  - by_compute.
  - eexists. split; by_compute.
  - exists no_server, (VBool false). split; [by_compute|]. split; by_compute.
  - by_compute.
Defined.

Example passed_ise_integration_is_reported_as_created :
  let s' := final ise_creation_passed in
  ise_creation_passed = Normal tt s'
  /\ status s' = "success"
  /\ validation_string s' = "operation sucessful"
  /\ py_truthy (dict_get "isIseEnabled"
                  (payload_of (wanted_state no_server entry_new_ise))) = true
  /\ res_msg s'
     = [(VStr "10.0.0.5", VStr "Authentication and Policy Server Created Successfully")].
Proof.
  cbv zeta. split; [by_compute|]. split; [by_compute|]. split; [by_compute|].
  split; by_compute.
Qed.

Example failed_ise_integration_is_not_reported_as_created :
  let s' := final ise_creation in
  ise_creation = Normal tt s'
  /\ status s' = "failed"
  /\ msg s' = VStr "The Cisco ISE server '10.0.0.5' integration has failed and in 'FAILED' state."
  /\ res_msg s' = []
  /\ map c_function (calls s')
     = [add_function; "get_authentication_and_policy_servers";
        "get_authentication_and_policy_servers"]
  /\ clock s' = 20000 + 25.
Proof.
  cbv zeta. split; [by_compute|]. split; [by_compute|]. split; [by_compute|].
  split; [by_compute|]. split; by_compute.
Qed.

(** ** The update of a server: what is reported *)

Lemma edit_server_report (E : environment) fuel ip have_auth_server wd s :
  py_hashable ip = true ->
  is_dict have_auth_server = true ->
  key_get ip (res_response s) = VDict [] ->
  let o := edit_server E fuel ip have_auth_server (VDict wd) s in
  (forall a s', o <> Normal a s')
  /\ forall s', o = Returned s' ->
       if String.eqb (status s') "failed" then
         res_msg s' = res_msg s /\ key_get ip (res_response s') = VDict []
       else
         res_msg s' = assoc_set py_eqb ip (VStr msg_updated) (res_msg s)
         /\ key_get ip (res_response s') = VDict [("Id", field "id" have_auth_server)].
Proof.
  intros Hh Hd Hres o.
  destruct have_auth_server as [| | | | |hs]; try discriminate Hd.
  assert (Ho : o = edit_server E fuel ip (VDict hs) (VDict wd) s) by reflexivity.
  clearbody o.
  unfold edit_server in Ho.
  change (py_get (VDict hs) "id") with (Ok (dict_get "id" hs)) in Ho.
  rewrite bind_lift_ok in Ho. cbv beta in Ho.
  change (py_update (VDict wd) "id" (dict_get "id" hs))
    with (Ok (VDict (dict_set "id" (dict_get "id" hs) wd))) in Ho.
  rewrite bind_lift_ok in Ho. cbv beta in Ho.
  unfold bind at 1 in Ho. unfold exec at 1 in Ho.
  match type of Ho with
  | context [dnac_exec E ?a ?b] => destruct (dnac_exec E a b) as [r|e]
  end.
  2: { subst o. split; intros; discriminate. }
  cbv beta iota in Ho.
  unfold bind at 1 in Ho.
  match type of Ho with
  | context [check_auth_server_response_status E fuel r ?vs ?api ?s1] =>
      pose proof (check_auth_server_response_status_frame E fuel r vs api s1) as Hfr;
      assert (Hrs : res_response s1 = res_response s) by reflexivity;
      assert (Hms : res_msg s1 = res_msg s) by reflexivity;
      destruct (check_auth_server_response_status E fuel r vs api s1)
        as [[] s2|s2|e s2|s2|s2] eqn:Hpoll
  end;
    simpl in Hfr; destruct Hfr as (_ & _ & _ & Hresp & Hmsg & _);
    rewrite Hrs in Hresp; rewrite Hms in Hmsg.
  - rewrite bind_read in Ho. cbv beta in Ho.
    destruct (String.eqb (status s2) "failed") eqn:Hst.
    + subst o. split; [intros; discriminate|].
      intros s' Hs'. injection Hs' as <-. rewrite Hst.
      split; [exact Hmsg|]. rewrite Hresp. exact Hres.
    + unfold result_response_update, result_msg_set, key_update in Ho.
      unfold bind, read, lift, modify, return_self in Ho.
      rewrite Hh, Hresp, Hres in Ho. simpl in Ho. subst o.
      split; [intros; discriminate|].
      intros s' Hs'. injection Hs' as <-. simpl. rewrite Hst.
      split; [now rewrite Hmsg|]. apply key_get_set_same.
  - exfalso. unfold check_auth_server_response_status in Hpoll.
    exact (method_never_returns _ _ _ Hpoll).
  - subst o. split; intros; discriminate.
  - subst o. split; intros; discriminate.
  - subst o. split; intros; discriminate.
Qed.

(** X24. For a server the controller has and an edit that is submitted (the
    payload is accepted, and the server is ISE-enabled or an allow-listed
    field differs): when [get_diff_merged] returns, either the status is
    "failed", and then the result of the server is empty and its message as
    it was, or the result of the server holds the id of the server and the
    message "Authentication and Policy Server Updated Successfully". *)
Theorem X24_updated_is_reported_unless_failed
    (E : environment) (fuel : nat) (config ipAddress have_auth_server : pyval)
    (hd wd : list (string * pyval)) (s s' : state) :
  config_server config ipAddress ->
  py_hashable ipAddress = true ->
  want_auth_server_is s wd ->
  server_exists s have_auth_server hd ->
  edit_submitted E hd wd = true ->
  get_diff_merged E fuel config s = Normal tt s' ->
  if String.eqb (status s') "failed" then
    res_msg s' = res_msg s
    /\ key_get ipAddress (res_response s') = VDict []
  else
    res_msg s' = assoc_set py_eqb ipAddress (VStr "Authentication and Policy Server Updated Successfully")
        (res_msg s)
    /\ key_get ipAddress (res_response s') = VDict [("Id", field "id" have_auth_server)].
Proof.
  intros Hc Hh Hw Hex Hsub Hrun.
  rewrite (get_diff_merged_eq _ _ _ _ _ Hc) in Hrun. unfold method in Hrun.
  rewrite (update_auth_policy_server_existing _ _ _ _ _ _ _ Hh Hw Hex) in Hrun.
  unfold method in Hrun.
  destruct Hex as (Hhave & _ & Hd).
  assert (Hdict : is_dict have_auth_server = true).
  { destruct have_auth_server; try discriminate. reflexivity. }
  destruct (update_server_run E fuel ipAddress have_auth_server hd
              (after_result_reset ipAddress s) wd Hw Hd) as (s2 & Hsr & Hupd).
  unfold edit_submitted in Hsub. apply Bool.andb_true_iff in Hsub.
  destruct Hsub as (Hacc & Hneed). rewrite Hacc, Hneed in Hupd.
  rewrite Hupd in Hrun.
  destruct Hsr as (_ & _ & _ & Hresp2 & Hmsg2 & _).
  destruct (edit_server_report E fuel ipAddress have_auth_server (filled hd wd) s2
              Hh Hdict) as (Hnn & Hret).
  { rewrite Hresp2. simpl. apply key_get_set_same. }
  destruct (edit_server E fuel ipAddress have_auth_server (VDict (filled hd wd)) s2)
    as [a s3|s3|e s3|s3|s3]; try discriminate Hrun.
  - exfalso. exact (Hnn a s3 eq_refl).
  - injection Hrun as <-. specialize (Hret s3 eq_refl).
    change (res_msg (after_result_reset ipAddress s)) with (res_msg s) in Hmsg2.
    rewrite Hmsg2 in Hret. exact Hret.
Qed.

Lemma X24_witness_more_retries :
  let s := wanted_state radius_server entry_more_retries in
  let s' := final (get_diff_merged slow_controller 1001 (playbook entry_more_retries) s) in
  if String.eqb (status s') "failed" then
    res_msg s' = res_msg s
    /\ key_get (VStr "10.0.0.1") (res_response s') = VDict []
  else
    res_msg s' = assoc_set py_eqb (VStr "10.0.0.1") (VStr "Authentication and Policy Server Updated Successfully")
        (res_msg s)
    /\ key_get (VStr "10.0.0.1") (res_response s')
       = VDict [("Id", field "id" radius_server)].
Proof.
  refine (X24_updated_is_reported_unless_failed slow_controller 1001
            (playbook entry_more_retries) (VStr "10.0.0.1") radius_server radius_details
            (payload_of (wanted_state radius_server entry_more_retries))
            (wanted_state radius_server entry_more_retries)
            (final (get_diff_merged slow_controller 1001 (playbook entry_more_retries)
                      (wanted_state radius_server entry_more_retries)))
            _ _ _ _ _ _).
  - eexists. split; [by_compute|]. split; by_compute.
  - by_compute.
  - eexists. split; by_compute.
  - split; [by_compute|]. split; [|by_compute].
    exists (VBool true). split; by_compute.
  - by_compute.
  - by_compute.
Defined.
